(** * Binder JNI glue: a shallow embedding of core/jni/android_util_Binder.cpp

    The development models the proxy-uniquing path ([javaObjectForIBinder],
    [ibinderForJavaObject]), the death-recipient bookkeeping
    ([DeathRecipientList], [JavaDeathRecipient]), the incoming dispatch
    ([JavaBBinder::onTransact], [report_exception]) and the BinderProxy entry
    points ([transact], [linkToDeath], [unlinkToDeath]).  It goes on to the
    holders and the reference counters with their forced collections, the
    calling-identity check, the probes of a proxy's target, the
    binder-call sample log with its byte buffer, and the two helpers of
    androidfw/Errors.h.

    Native state is threaded explicitly through a small state monad whose
    second outcome is the death of the hosting process.  Everything that is
    not part of the file (the JVM, the binder driver behind [IBinder]) is an
    environment [Env] of oracles that see the history of interactions.

    Native objects live in stores indexed by address, so that an object
    reached through several pointers (a recipient held by its list and
    known to the channel) is one mutable thing.  Reference counts are not
    kept: a weak pointer promotes exactly when its target is still in the
    store, and the only destructor that runs inside an entry point is the
    one of a recipient that leaves its scope while no list holds it; the
    destructor of a JavaBBinder, which runs when libutils drops the last
    strong reference, is an event of its own.  The finalizers
    [BinderProxy_destroy] and [Binder_destroy] are left out. *)

From Stdlib Require Import ZArith Ascii String List Lia Bool.
From stdpp Require Import base option list gmap.

Set Default Proof Using "Type".
Local Open Scope string_scope.

(* ===================================================================== *)
(** ** status_t and the codes of utils/Errors.h *)
(* ===================================================================== *)

(** The header utils/Errors.h and errno.h are not part of the sources at
    hand; the values are the ones of the platform headers (Linux errno
    numbers, [UNKNOWN_ERROR] = INT32_MIN). *)
Module Status.
Local Open Scope Z_scope.

Abbreviation status_t := Z (only parsing).

Definition NO_ERROR            : status_t := 0.
Definition UNKNOWN_ERROR       : status_t := -2147483647 - 1.
Definition NO_MEMORY           : status_t := -12.
Definition INVALID_OPERATION   : status_t := -38.
Definition BAD_VALUE           : status_t := -22.
Definition BAD_TYPE            : status_t := UNKNOWN_ERROR + 1.
Definition NAME_NOT_FOUND      : status_t := -2.
Definition PERMISSION_DENIED   : status_t := -1.
Definition NO_INIT             : status_t := -19.
Definition ALREADY_EXISTS      : status_t := -17.
Definition DEAD_OBJECT         : status_t := -32.
Definition FAILED_TRANSACTION  : status_t := UNKNOWN_ERROR + 2.
Definition BAD_INDEX           : status_t := -75.
Definition NOT_ENOUGH_DATA     : status_t := -61.
Definition UNKNOWN_TRANSACTION : status_t := -74.
Definition FDS_NOT_ALLOWED     : status_t := UNKNOWN_ERROR + 7.
Definition UNEXPECTED_NULL     : status_t := UNKNOWN_ERROR + 8.

Definition EBADF  : Z := 9.
Definition ENFILE : Z := 23.
Definition EMFILE : Z := 24.
Definition EFBIG  : Z := 27.
Definition ENOSPC : Z := 28.
Definition ESPIPE : Z := 29.
Definition EROFS  : Z := 30.
Definition EMLINK : Z := 31.
End Status.
Import Status.

(** Fixed-width arithmetic of the counters. *)
Definition wrap_u32 (z : Z) : Z := (z mod 4294967296)%Z.
Definition wrap_i32 (z : Z) : Z := ((z + 2147483648) mod 4294967296 - 2147483648)%Z.

Definition PROXY_WARN_INTERVAL : Z := 5000.
Definition GC_INTERVAL : Z := 1000.
Definition MAX_RACING : Z := 100000.
(** [SYSPROPS_TRANSACTION] of binder/IBinder.h: B_PACK_CHARS('_','s','p','r'). *)
Definition SYSPROPS_TRANSACTION : Z := 1601400946.

(* ===================================================================== *)
(** ** JNI values *)
(* ===================================================================== *)

(** Native addresses and Java object identities.  A [jobject] is a
    reference (local, global or weak alike) or NULL; [IsSameObject] is
    equality of the referents. *)
Abbreviation ptr := nat (only parsing).
Abbreviation objid := nat (only parsing).
Abbreviation jobject := (option nat) (only parsing).

Definition IsSameObject (a b : jobject) : bool := bool_decide (a = b).

(** The text a throwable carries: the format string and its arguments. *)
Inductive ExcMsg :=
| MsgNull
| MsgText (s : string)
| MsgParcelSize (parcelSize : Z)       (* "data parcel size %d bytes" *)
| MsgUnknownCode (err : Z).            (* "Unknown binder error code. 0x%x" *)

(** A throwable: its class, whether that class derives from
    java.lang.Error (what [IsInstanceOf (excep, gErrorOffsets.mClass)]
    answers), and its message. *)
Record jthrowable := Throwable {
  thr_class : string;
  thr_isError : bool;
  thr_msg : ExcMsg
}.

(** Outcome of a call from native code into Java. *)
Inductive Upcall (A : Type) :=
| Returned (a : A)
| Threw (e : jthrowable).
Arguments Returned {A} a.
Arguments Threw {A} e.

(** The classes of Java objects this file looks at, with the one native
    field each carries. *)
Inductive JObject :=
| JBinder (mObject : ptr)            (* android.os.Binder, JavaBBinderHolder* *)
| JBinderProxy (mNativeData : ptr)   (* android.os.BinderProxy, BinderProxyNativeData* *)
| JOther.                            (* anything else: recipients, parcels, ... *)

(** The part of the Java heap the native code reads, together with the
    Java-side table of proxies (BinderProxy.sProxyMap): an association
    list from the native IBinder address to the proxy object.  [collected]
    are the objects the garbage collector has reclaimed, which is what a
    weak reference observes. *)
Record JavaHeap := {
  objects : gmap objid JObject;
  nextObj : objid;
  sProxyMap : list (ptr * objid);
  collected : gset objid
}.

(* ===================================================================== *)
(** ** Native objects *)
(* ===================================================================== *)

(** The dynamic class of an [IBinder]: the [JavaBBinder] of this file, any
    other in-process [BBinder], or a [BpBinder] standing for a remote
    object. *)
Inductive IBinderClass :=
| JavaBBinderC (mObject : objid)
| BBinderC
| BpBinderC (handle : Z).

Record IBinder := {
  ib_ptr : ptr;              (* what sp<IBinder>::get () returns *)
  ib_class : IBinderClass
}.

(** [checkSubclass (&gBinderOffsets)]: true for a [JavaBBinder] only. *)
Definition checkSubclass (b : IBinder) : bool :=
  match ib_class b with JavaBBinderC _ => true | _ => false end.

(** [localBinder () != NULL]: every [BBinder] answers [this], a
    [BpBinder] answers NULL. *)
Definition localBinder (b : IBinder) : bool :=
  match ib_class b with BpBinderC _ => false | _ => true end.

Record BinderProxyNativeData := {
  bp_mObject : option IBinder;   (* sp<IBinder> *)
  bp_mOrgue : option ptr         (* sp<DeathRecipientList> *)
}.

Record JavaDeathRecipient := {
  jdr_mObject : jobject;         (* strong ref, cleared on binderDied () *)
  jdr_mObjectWeak : jobject;     (* weak ref to the same object afterwards *)
  jdr_mList : ptr                (* wp<DeathRecipientList> *)
}.

Record Parcel := { dataSize : Z }.

(* ===================================================================== *)
(** ** Observable interactions *)
(* ===================================================================== *)

(** What leaves the file: calls into Java, calls on the binder behind a
    proxy, warnings.  [EvSendDeathNotice] also records which native
    recipient made the call. *)
Inductive Event :=
| EvForceGc
| EvExecTransact (obj : objid) (code flags : Z)
| EvSendDeathNotice (jdr : ptr) (recipient : objid)
| EvLogE (e : jthrowable)
| EvLogEUnavailable
| EvStrictModeCallback (policy : Z)
| EvDispatchUncaught (e : jthrowable)
| EvFatalError (e : jthrowable)
| EvGetInstance (nativeData iBinder : ptr)
| EvWarnManyProxies (n : Z)
| EvWarnNotBinder (obj : objid)
| EvNativeSysprops
| EvTransact (target : ptr) (code flags : Z)
| EvLinkToDeath (target jdr : ptr) (flags : Z)
| EvUnlinkToDeath (target jdr : ptr) (flags : Z).

#[global] Instance ExcMsg_eq_dec : EqDecision ExcMsg.
Proof. solve_decision. Defined.
#[global] Instance jthrowable_eq_dec : EqDecision jthrowable.
Proof. solve_decision. Defined.
#[global] Instance Event_eq_dec : EqDecision Event.
Proof. solve_decision. Defined.

(* ===================================================================== *)
(** ** Process state *)
(* ===================================================================== *)

(** The file-scope variables of android_util_Binder.cpp, the native heap
    it allocates from, the JNI environment of the calling thread and the
    history of interactions (most recent first). *)
Record State := {
  (* static variables *)
  gNumProxies : Z;
  gProxiesWarned : Z;
  gNumLocalRefsCreated : Z;
  gNumDeathRefsCreated : Z;
  gNumDeathRefsDeleted : Z;
  gCollectedAtRefs : Z;
  gNativeDataCache : option ptr;
  (* native heap *)
  nextPtr : ptr;
  proxyData : gmap ptr BinderProxyNativeData;
  deathLists : gmap ptr (list ptr);              (* DeathRecipientList::mList *)
  deathRecipients : gmap ptr JavaDeathRecipient;
  holders : gmap ptr (option IBinder);           (* JavaBBinderHolder::mBinder *)
  (* JVM and thread state *)
  jheap : JavaHeap;
  pending : option jthrowable;                   (* the pending exception *)
  strictModePolicy : Z;                          (* IPCThreadState *)
  trace : list Event
}.

Definition set_gNumProxies (v : Z) (s : State) : State :=
  {| gNumProxies := v; gProxiesWarned := gProxiesWarned s;
     gNumLocalRefsCreated := gNumLocalRefsCreated s;
     gNumDeathRefsCreated := gNumDeathRefsCreated s;
     gNumDeathRefsDeleted := gNumDeathRefsDeleted s;
     gCollectedAtRefs := gCollectedAtRefs s; gNativeDataCache := gNativeDataCache s;
     nextPtr := nextPtr s; proxyData := proxyData s; deathLists := deathLists s;
     deathRecipients := deathRecipients s; holders := holders s; jheap := jheap s;
     pending := pending s; strictModePolicy := strictModePolicy s; trace := trace s |}.

Definition set_gProxiesWarned (v : Z) (s : State) : State :=
  {| gNumProxies := gNumProxies s; gProxiesWarned := v;
     gNumLocalRefsCreated := gNumLocalRefsCreated s;
     gNumDeathRefsCreated := gNumDeathRefsCreated s;
     gNumDeathRefsDeleted := gNumDeathRefsDeleted s;
     gCollectedAtRefs := gCollectedAtRefs s; gNativeDataCache := gNativeDataCache s;
     nextPtr := nextPtr s; proxyData := proxyData s; deathLists := deathLists s;
     deathRecipients := deathRecipients s; holders := holders s; jheap := jheap s;
     pending := pending s; strictModePolicy := strictModePolicy s; trace := trace s |}.

Definition set_gNumLocalRefsCreated (v : Z) (s : State) : State :=
  {| gNumProxies := gNumProxies s; gProxiesWarned := gProxiesWarned s;
     gNumLocalRefsCreated := v;
     gNumDeathRefsCreated := gNumDeathRefsCreated s;
     gNumDeathRefsDeleted := gNumDeathRefsDeleted s;
     gCollectedAtRefs := gCollectedAtRefs s; gNativeDataCache := gNativeDataCache s;
     nextPtr := nextPtr s; proxyData := proxyData s; deathLists := deathLists s;
     deathRecipients := deathRecipients s; holders := holders s; jheap := jheap s;
     pending := pending s; strictModePolicy := strictModePolicy s; trace := trace s |}.

Definition set_gNumDeathRefsCreated (v : Z) (s : State) : State :=
  {| gNumProxies := gNumProxies s; gProxiesWarned := gProxiesWarned s;
     gNumLocalRefsCreated := gNumLocalRefsCreated s;
     gNumDeathRefsCreated := v;
     gNumDeathRefsDeleted := gNumDeathRefsDeleted s;
     gCollectedAtRefs := gCollectedAtRefs s; gNativeDataCache := gNativeDataCache s;
     nextPtr := nextPtr s; proxyData := proxyData s; deathLists := deathLists s;
     deathRecipients := deathRecipients s; holders := holders s; jheap := jheap s;
     pending := pending s; strictModePolicy := strictModePolicy s; trace := trace s |}.

Definition set_gNumDeathRefsDeleted (v : Z) (s : State) : State :=
  {| gNumProxies := gNumProxies s; gProxiesWarned := gProxiesWarned s;
     gNumLocalRefsCreated := gNumLocalRefsCreated s;
     gNumDeathRefsCreated := gNumDeathRefsCreated s;
     gNumDeathRefsDeleted := v;
     gCollectedAtRefs := gCollectedAtRefs s; gNativeDataCache := gNativeDataCache s;
     nextPtr := nextPtr s; proxyData := proxyData s; deathLists := deathLists s;
     deathRecipients := deathRecipients s; holders := holders s; jheap := jheap s;
     pending := pending s; strictModePolicy := strictModePolicy s; trace := trace s |}.

Definition set_gCollectedAtRefs (v : Z) (s : State) : State :=
  {| gNumProxies := gNumProxies s; gProxiesWarned := gProxiesWarned s;
     gNumLocalRefsCreated := gNumLocalRefsCreated s;
     gNumDeathRefsCreated := gNumDeathRefsCreated s;
     gNumDeathRefsDeleted := gNumDeathRefsDeleted s;
     gCollectedAtRefs := v; gNativeDataCache := gNativeDataCache s;
     nextPtr := nextPtr s; proxyData := proxyData s; deathLists := deathLists s;
     deathRecipients := deathRecipients s; holders := holders s; jheap := jheap s;
     pending := pending s; strictModePolicy := strictModePolicy s; trace := trace s |}.

Definition set_gNativeDataCache (v : option ptr) (s : State) : State :=
  {| gNumProxies := gNumProxies s; gProxiesWarned := gProxiesWarned s;
     gNumLocalRefsCreated := gNumLocalRefsCreated s;
     gNumDeathRefsCreated := gNumDeathRefsCreated s;
     gNumDeathRefsDeleted := gNumDeathRefsDeleted s;
     gCollectedAtRefs := gCollectedAtRefs s; gNativeDataCache := v;
     nextPtr := nextPtr s; proxyData := proxyData s; deathLists := deathLists s;
     deathRecipients := deathRecipients s; holders := holders s; jheap := jheap s;
     pending := pending s; strictModePolicy := strictModePolicy s; trace := trace s |}.

Definition set_nextPtr (v : ptr) (s : State) : State :=
  {| gNumProxies := gNumProxies s; gProxiesWarned := gProxiesWarned s;
     gNumLocalRefsCreated := gNumLocalRefsCreated s;
     gNumDeathRefsCreated := gNumDeathRefsCreated s;
     gNumDeathRefsDeleted := gNumDeathRefsDeleted s;
     gCollectedAtRefs := gCollectedAtRefs s; gNativeDataCache := gNativeDataCache s;
     nextPtr := v; proxyData := proxyData s; deathLists := deathLists s;
     deathRecipients := deathRecipients s; holders := holders s; jheap := jheap s;
     pending := pending s; strictModePolicy := strictModePolicy s; trace := trace s |}.

Definition set_proxyData (v : gmap ptr BinderProxyNativeData) (s : State) : State :=
  {| gNumProxies := gNumProxies s; gProxiesWarned := gProxiesWarned s;
     gNumLocalRefsCreated := gNumLocalRefsCreated s;
     gNumDeathRefsCreated := gNumDeathRefsCreated s;
     gNumDeathRefsDeleted := gNumDeathRefsDeleted s;
     gCollectedAtRefs := gCollectedAtRefs s; gNativeDataCache := gNativeDataCache s;
     nextPtr := nextPtr s; proxyData := v; deathLists := deathLists s;
     deathRecipients := deathRecipients s; holders := holders s; jheap := jheap s;
     pending := pending s; strictModePolicy := strictModePolicy s; trace := trace s |}.

Definition set_deathLists (v : gmap ptr (list ptr)) (s : State) : State :=
  {| gNumProxies := gNumProxies s; gProxiesWarned := gProxiesWarned s;
     gNumLocalRefsCreated := gNumLocalRefsCreated s;
     gNumDeathRefsCreated := gNumDeathRefsCreated s;
     gNumDeathRefsDeleted := gNumDeathRefsDeleted s;
     gCollectedAtRefs := gCollectedAtRefs s; gNativeDataCache := gNativeDataCache s;
     nextPtr := nextPtr s; proxyData := proxyData s; deathLists := v;
     deathRecipients := deathRecipients s; holders := holders s; jheap := jheap s;
     pending := pending s; strictModePolicy := strictModePolicy s; trace := trace s |}.

Definition set_deathRecipients (v : gmap ptr JavaDeathRecipient) (s : State) : State :=
  {| gNumProxies := gNumProxies s; gProxiesWarned := gProxiesWarned s;
     gNumLocalRefsCreated := gNumLocalRefsCreated s;
     gNumDeathRefsCreated := gNumDeathRefsCreated s;
     gNumDeathRefsDeleted := gNumDeathRefsDeleted s;
     gCollectedAtRefs := gCollectedAtRefs s; gNativeDataCache := gNativeDataCache s;
     nextPtr := nextPtr s; proxyData := proxyData s; deathLists := deathLists s;
     deathRecipients := v; holders := holders s; jheap := jheap s;
     pending := pending s; strictModePolicy := strictModePolicy s; trace := trace s |}.

Definition set_holders (v : gmap ptr (option IBinder)) (s : State) : State :=
  {| gNumProxies := gNumProxies s; gProxiesWarned := gProxiesWarned s;
     gNumLocalRefsCreated := gNumLocalRefsCreated s;
     gNumDeathRefsCreated := gNumDeathRefsCreated s;
     gNumDeathRefsDeleted := gNumDeathRefsDeleted s;
     gCollectedAtRefs := gCollectedAtRefs s; gNativeDataCache := gNativeDataCache s;
     nextPtr := nextPtr s; proxyData := proxyData s; deathLists := deathLists s;
     deathRecipients := deathRecipients s; holders := v; jheap := jheap s;
     pending := pending s; strictModePolicy := strictModePolicy s; trace := trace s |}.

Definition set_jheap (v : JavaHeap) (s : State) : State :=
  {| gNumProxies := gNumProxies s; gProxiesWarned := gProxiesWarned s;
     gNumLocalRefsCreated := gNumLocalRefsCreated s;
     gNumDeathRefsCreated := gNumDeathRefsCreated s;
     gNumDeathRefsDeleted := gNumDeathRefsDeleted s;
     gCollectedAtRefs := gCollectedAtRefs s; gNativeDataCache := gNativeDataCache s;
     nextPtr := nextPtr s; proxyData := proxyData s; deathLists := deathLists s;
     deathRecipients := deathRecipients s; holders := holders s; jheap := v;
     pending := pending s; strictModePolicy := strictModePolicy s; trace := trace s |}.

Definition set_pending (v : option jthrowable) (s : State) : State :=
  {| gNumProxies := gNumProxies s; gProxiesWarned := gProxiesWarned s;
     gNumLocalRefsCreated := gNumLocalRefsCreated s;
     gNumDeathRefsCreated := gNumDeathRefsCreated s;
     gNumDeathRefsDeleted := gNumDeathRefsDeleted s;
     gCollectedAtRefs := gCollectedAtRefs s; gNativeDataCache := gNativeDataCache s;
     nextPtr := nextPtr s; proxyData := proxyData s; deathLists := deathLists s;
     deathRecipients := deathRecipients s; holders := holders s; jheap := jheap s;
     pending := v; strictModePolicy := strictModePolicy s; trace := trace s |}.

Definition set_strictModePolicy (v : Z) (s : State) : State :=
  {| gNumProxies := gNumProxies s; gProxiesWarned := gProxiesWarned s;
     gNumLocalRefsCreated := gNumLocalRefsCreated s;
     gNumDeathRefsCreated := gNumDeathRefsCreated s;
     gNumDeathRefsDeleted := gNumDeathRefsDeleted s;
     gCollectedAtRefs := gCollectedAtRefs s; gNativeDataCache := gNativeDataCache s;
     nextPtr := nextPtr s; proxyData := proxyData s; deathLists := deathLists s;
     deathRecipients := deathRecipients s; holders := holders s; jheap := jheap s;
     pending := pending s; strictModePolicy := v; trace := trace s |}.

Definition set_trace (v : list Event) (s : State) : State :=
  {| gNumProxies := gNumProxies s; gProxiesWarned := gProxiesWarned s;
     gNumLocalRefsCreated := gNumLocalRefsCreated s;
     gNumDeathRefsCreated := gNumDeathRefsCreated s;
     gNumDeathRefsDeleted := gNumDeathRefsDeleted s;
     gCollectedAtRefs := gCollectedAtRefs s; gNativeDataCache := gNativeDataCache s;
     nextPtr := nextPtr s; proxyData := proxyData s; deathLists := deathLists s;
     deathRecipients := deathRecipients s; holders := holders s; jheap := jheap s;
     pending := pending s; strictModePolicy := strictModePolicy s; trace := v |}.

(* ===================================================================== *)
(** ** The monad of native code *)
(* ===================================================================== *)

(** How the process can end in the middle of a native function. *)
Inductive AbortKind :=
| ByUncaughtHandler      (* Thread.dispatchUncaughtException did not return *)
| ByFatalError           (* JNIEnv::FatalError *)
| ByNullDereference.     (* a member call through a null pointer *)

Inductive Outcome (A : Type) :=
| Ret (a : A) (st : State)
| Abort (k : AbortKind) (st : State).
Arguments Ret {A} a st.
Arguments Abort {A} k st.

Definition M (A : Type) : Type := State -> Outcome A.

Definition ret {A} (a : A) : M A := fun st => Ret a st.

Definition bind {A B} (m : M A) (k : A -> M B) : M B :=
  fun st => match m st with
            | Ret a st' => k a st'
            | Abort r st' => Abort r st'
            end.

Definition gets {A} (f : State -> A) : M A := fun st => Ret (f st) st.
Definition modify (f : State -> State) : M unit := fun st => Ret tt (f st).
Definition abort {A} (k : AbortKind) : M A := fun st => Abort k st.
Definition emit (e : Event) : M unit := modify (fun st => set_trace (e :: trace st) st).

(** The notations [x ← m; k] and [m;; k] of stdpp, read in this monad. *)
Declare Scope binder_scope.
Delimit Scope binder_scope with binder.
Notation "x ← y ; z" := (bind y (fun x => z))
  (at level 20, y at level 100, z at level 200, only parsing) : binder_scope.
Notation "y ;; z" := (bind y (fun _ => z))
  (at level 100, z at level 200, only parsing, right associativity) : binder_scope.
Local Open Scope binder_scope.

(** The state an outcome ends in, whichever way. *)
Definition final_state {A} (o : Outcome A) : State :=
  match o with Ret _ st => st | Abort _ st => st end.

(** [new T ()]: a bump allocator; addresses are never reused. *)
Definition alloc : M ptr :=
  fun st => Ret (nextPtr st) (set_nextPtr (S (nextPtr st)) st).

(** A member call through a pointer that may be null. *)
Definition deref {A} (o : option A) : M A :=
  match o with Some a => ret a | None => abort ByNullDereference end.

(* ===================================================================== *)
(** ** The environment *)
(* ===================================================================== *)

(** The collaborators outside the file.  Each oracle is given the history
    so far, so that it may answer differently from one call to the next. *)
Record Env := {
  (* Binder.execTransact: what the handler returns or throws, and the
     strict-mode policy it leaves on the thread *)
  java_execTransact : list Event -> objid -> Z -> Z -> Upcall bool * Z;
  (* BinderProxy.sendDeathNotice *)
  java_sendDeathNotice : list Event -> objid -> option jthrowable;
  (* NewStringUTF: false when the string cannot be allocated *)
  java_newStringUTF : list Event -> string -> bool;
  (* android.util.Log.e *)
  java_logE : list Event -> jthrowable -> option jthrowable;
  (* StrictMode.onBinderStrictModePolicyChange *)
  java_onBinderStrictModePolicyChange : list Event -> Z -> option jthrowable;
  (* Thread.currentThread *)
  java_currentThread : list Event -> jobject;
  (* Thread.dispatchUncaughtException: true when the call comes back *)
  java_dispatchUncaughtException : list Event -> jthrowable -> bool;
  (* BinderProxy.getInstance *)
  java_getInstance : list Event -> ptr -> ptr -> JavaHeap -> Upcall jobject * JavaHeap;
  (* parcelForJavaObject of android_os_Parcel.cpp *)
  env_parcelForJavaObject : list Event -> jobject -> option Parcel * option jthrowable;
  (* IBinder::transact, linkToDeath, unlinkToDeath of the target *)
  chan_transact : list Event -> IBinder -> Z -> Parcel -> Z -> status_t;
  chan_linkToDeath : list Event -> IBinder -> ptr -> Z -> status_t;
  chan_unlinkToDeath : list Event -> IBinder -> ptr -> Z -> status_t * option ptr
}.

(* ===================================================================== *)
(** ** The native code *)
(* ===================================================================== *)

Definition LOG_TAG : string := "JavaBinder".

(** Classes among the ones thrown by name that derive from java.lang.Error. *)
Definition is_error_class (cls : string) : bool :=
  bool_decide (cls = "java/lang/OutOfMemoryError").

Definition ExceptionClear : M unit := modify (set_pending None).

Definition jniThrowException (cls : string) (msg : ExcMsg) : M unit :=
  modify (set_pending (Some (Throwable cls (is_error_class cls) msg))).

Definition jniThrowNullPointerException (msg : ExcMsg) : M unit :=
  jniThrowException "java/lang/NullPointerException" msg.

(** A weak reference reads as NULL once its referent has been collected. *)
Definition NewLocalRef (h : JavaHeap) (ref : jobject) : jobject :=
  match ref with
  | Some o => if bool_decide (o ∈ collected h) then None else Some o
  | None => None
  end.

Section NativeCode.

Variable E : Env.

(** A void call into Java: recorded, and the exception it raises, if any,
    becomes pending. *)
Definition call_void (ev : Event) (r : option jthrowable) : M unit :=
  emit ev;;
  match r with
  | Some e => modify (set_pending (Some e))
  | None => ret tt
  end.

Definition NewStringUTF (s : string) : M bool :=
  h ← gets trace;
  if java_newStringUTF E h s then ret true
  else jniThrowException "java/lang/OutOfMemoryError" MsgNull;; ret false.

Definition gcIfManyNewRefs : M unit :=
  totalRefs ← gets (fun st => wrap_u32 (gNumLocalRefsCreated st + gNumDeathRefsCreated st));
  collectedAtRefs ← gets gCollectedAtRefs;
  if (wrap_u32 (totalRefs - wrap_u32 (collectedAtRefs + GC_INTERVAL)) <? MAX_RACING)%Z then
    (* compare_exchange_strong: nobody else is running *)
    modify (set_gCollectedAtRefs (wrap_u32 (collectedAtRefs + GC_INTERVAL)));;
    emit EvForceGc
  else ret tt.

Definition report_java_lang_error_fatal_error (error : jthrowable) (msg : string) : M unit :=
  ExceptionClear;;
  modify (set_pending (Some error));;     (* env->Throw (error) *)
  emit (EvFatalError error);;
  abort ByFatalError.

Definition report_java_lang_error (error : jthrowable) (msg : string) : M unit :=
  h ← gets trace;
  match java_currentThread E h with
  | Some _ =>
      emit (EvDispatchUncaught error);;
      if java_dispatchUncaughtException E h error then ret tt
      else abort ByUncaughtHandler
  | None => ret tt
  end;;
  ExceptionClear;;
  report_java_lang_error_fatal_error error msg.

Definition report_exception (excep : jthrowable) (msg : string) : M unit :=
  ExceptionClear;;
  tagstr ← NewStringUTF LOG_TAG;
  msgstr ← (if tagstr then NewStringUTF msg else ret false);
  (if tagstr && msgstr then
     h ← gets trace;
     call_void (EvLogE excep) (java_logE E h excep);;
     exc ← gets pending;
     if bool_decide (is_Some exc) then ExceptionClear else ret tt
   else
     ExceptionClear;;
     emit EvLogEUnavailable);;
  if thr_isError excep then report_java_lang_error excep msg else ret tt.

(** *** JavaBBinder *)

Definition new_JavaBBinder (object : objid) : M IBinder :=
  this ← alloc;
  modify (fun st => set_gNumLocalRefsCreated (wrap_u32 (gNumLocalRefsCreated st + 1)) st);;
  gcIfManyNewRefs;;
  ret {| ib_ptr := this; ib_class := JavaBBinderC object |}.

Definition set_dalvik_blockguard_policy (strict_policy : Z) : M unit :=
  h ← gets trace;
  call_void (EvStrictModeCallback strict_policy)
            (java_onBinderStrictModePolicyChange E h strict_policy).

Definition onTransact (mObject : objid) (code flags : Z) : M status_t :=
  strict_policy_before ← gets strictModePolicy;
  h ← gets trace;
  emit (EvExecTransact mObject code flags);;
  modify (set_strictModePolicy (snd (java_execTransact E h mObject code flags)));;
  res0 ← match fst (java_execTransact E h mObject code flags) with
          | Returned b => ret b
          | Threw e => modify (set_pending (Some e));; ret false
          end;
  exc ← gets pending;
  res ← match exc with
         | Some excep =>
             report_exception excep
               "*** Uncaught remote exception!  (Exceptions are not yet supported across processes.)";;
             ret false
         | None => ret res0
         end;
  policy_now ← gets strictModePolicy;
  (if bool_decide (policy_now ≠ strict_policy_before)
   then set_dalvik_blockguard_policy strict_policy_before
   else ret tt);;
  exc2 ← gets pending;
  match exc2 with
  | Some excep =>
      report_exception excep "*** Uncaught exception in onBinderStrictModePolicyChange"
  | None => ret tt
  end;;
  (if bool_decide (code = SYSPROPS_TRANSACTION) then emit EvNativeSysprops else ret tt);;
  ret (if res then NO_ERROR else UNKNOWN_TRANSACTION).

(** *** JavaBBinderHolder *)

Definition JavaBBinderHolder_get (jbh : ptr) (obj : objid) : M IBinder :=
  holder ← gets (fun st => holders st !! jbh);
  mBinder ← deref holder;
  match mBinder with                 (* mBinder.promote () *)
  | Some b => ret b
  | None =>
      b ← new_JavaBBinder obj;
      modify (fun st => set_holders (<[jbh := Some b]> (holders st)) st);;
      ret b
  end.

(** *** DeathRecipientList and JavaDeathRecipient *)

Definition get_jdr (j : ptr) : M JavaDeathRecipient :=
  r ← gets (fun st => deathRecipients st !! j);
  deref r.

Definition DeathRecipientList_add (this j : ptr) : M unit :=
  ls ← gets (fun st => deathLists st !! this);
  mList ← deref ls;
  modify (fun st => set_deathLists (<[this := (mList ++ [j])%list]> (deathLists st)) st).

(** [mList.erase] of the first element equal to [j]. *)
Fixpoint erase_first (j : ptr) (l : list ptr) : list ptr :=
  match l with
  | [] => []
  | x :: rest => if bool_decide (x = j) then rest else x :: erase_first j rest
  end.

Definition DeathRecipientList_remove (this j : ptr) : M unit :=
  ls ← gets (fun st => deathLists st !! this);
  mList ← deref ls;
  modify (fun st => set_deathLists (<[this := erase_first j mList]> (deathLists st)) st).

Definition matches (h : JavaHeap) (r : JavaDeathRecipient) (obj : jobject) : bool :=
  match jdr_mObject r with
  | Some _ => IsSameObject obj (jdr_mObject r)
  | None => IsSameObject obj (NewLocalRef h (jdr_mObjectWeak r))
  end.

Fixpoint find_from (mList : list ptr) (recipient : jobject) : M (option ptr) :=
  match mList with
  | [] => ret None
  | j :: rest =>
      r ← get_jdr j;
      h ← gets jheap;
      if matches h r recipient then ret (Some j) else find_from rest recipient
  end.

Definition DeathRecipientList_find (this : ptr) (recipient : jobject) : M (option ptr) :=
  ls ← gets (fun st => deathLists st !! this);
  mList ← deref ls;
  find_from mList recipient.

Definition new_JavaDeathRecipient (object : objid) (drl : option ptr) : M ptr :=
  this ← alloc;
  l ← deref drl;
  modify (fun st => set_deathRecipients
            (<[this := {| jdr_mObject := Some object; jdr_mObjectWeak := None;
                          jdr_mList := l |}]> (deathRecipients st)) st);;
  DeathRecipientList_add l this;;
  modify (fun st => set_gNumDeathRefsCreated (wrap_u32 (gNumDeathRefsCreated st + 1)) st);;
  gcIfManyNewRefs;;
  ret this.

Definition binderDied (this : ptr) : M unit :=
  r ← get_jdr this;
  match jdr_mObject r with
  | None => ret tt
  | Some mObject =>
      h ← gets trace;
      call_void (EvSendDeathNotice this mObject) (java_sendDeathNotice E h mObject);;
      exc ← gets pending;
      match exc with
      | Some excep =>
          report_exception excep "*** Uncaught exception returned from death notification!"
      | None => ret tt
      end;;
      drl ← gets (fun st => deathLists st !! jdr_mList r);
      match drl with                 (* mList.promote () *)
      | Some _ =>
          modify (fun st => set_deathRecipients
                    (<[this := {| jdr_mObject := None; jdr_mObjectWeak := Some mObject;
                                  jdr_mList := jdr_mList r |}]> (deathRecipients st)) st)
      | None => ret tt
      end
  end.

Definition clearReference (this : ptr) : M unit :=
  r ← get_jdr this;
  drl ← gets (fun st => deathLists st !! jdr_mList r);
  match drl with                     (* mList.promote () *)
  | Some _ => DeathRecipientList_remove (jdr_mList r) this
  | None => ret tt
  end.

(** The end of the scope of an [sp<JavaDeathRecipient>] local: the object
    is destroyed unless its list still holds it. *)
Definition release_jdr (j : ptr) : M unit :=
  r ← gets (fun st => deathRecipients st !! j);
  match r with
  | None => ret tt
  | Some r =>
      drl ← gets (fun st => deathLists st !! jdr_mList r);
      if bool_decide (j ∈ default [] drl) then ret tt
      else
        modify (fun st => set_gNumDeathRefsDeleted (wrap_u32 (gNumDeathRefsDeleted st + 1)) st);;
        modify (fun st => set_deathRecipients (delete j (deathRecipients st)) st)
  end.

(** *** Proxy uniquing *)

Definition new_BinderProxyNativeData : M ptr :=
  this ← alloc;
  modify (fun st => set_proxyData
            (<[this := {| bp_mObject := None; bp_mOrgue := None |}]> (proxyData st)) st);;
  ret this.

Definition new_DeathRecipientList : M ptr :=
  this ← alloc;
  modify (fun st => set_deathLists (<[this := []]> (deathLists st)) st);;
  ret this.

(** [GetLongField (obj, gBinderProxyOffsets.mNativeData)]; reading the field
    of NULL or of an object of another class ends the process. *)
Definition getBPNativeData (obj : jobject) : M ptr :=
  match obj with
  | None => abort ByNullDereference
  | Some o =>
      c ← gets (fun st => objects (jheap st) !! o);
      match c with
      | Some (JBinderProxy nd) => ret nd
      | _ => abort ByNullDereference
      end
  end.

(** [static_cast<JavaBBinder*>(val.get ())->object ()]. *)
Definition JavaBBinder_object (b : IBinder) : jobject :=
  match ib_class b with JavaBBinderC mObject => Some mObject | _ => None end.

(** The body of [javaObjectForIBinder] under [gProxyLock], first half:
    take the cached node or allocate one, and call BinderProxy.getInstance
    with it and the native address of the binder. *)
Definition javaObjectForIBinder_getInstance (v : IBinder) : M (ptr * jobject) :=
  cache ← gets gNativeDataCache;
  nativeData ← match cache with
                | Some nd => ret nd
                | None => new_BinderProxyNativeData
                end;
  (* gNativeDataCache is now logically empty. *)
  h ← gets trace;
  jh ← gets jheap;
  emit (EvGetInstance nativeData (ib_ptr v));;
  modify (set_jheap (snd (java_getInstance E h nativeData (ib_ptr v) jh)));;
  object ← match fst (java_getInstance E h nativeData (ib_ptr v) jh) with
            | Returned o => ret o
            | Threw e => modify (set_pending (Some e));; ret None
            end;
  ret (nativeData, object).

(** Second half: look at what came back and settle the cache. *)
Definition javaObjectForIBinder_settle (v : IBinder) (nativeData : ptr) (object : jobject)
  : M jobject :=
  exc ← gets pending;
  if bool_decide (is_Some exc) then
    (* In the exception case, getInstance still took ownership of nativeData. *)
    modify (set_gNativeDataCache None);;
    ret None
  else
    actualNativeData ← getBPNativeData object;
    (if bool_decide (actualNativeData = nativeData) then
       (* New BinderProxy; we still have exclusive access. *)
       mOrgue ← new_DeathRecipientList;
       modify (fun st => set_proxyData
                 (<[nativeData := {| bp_mObject := Some v; bp_mOrgue := Some mOrgue |}]>
                    (proxyData st)) st);;
       modify (set_gNativeDataCache None);;
       modify (fun st => set_gNumProxies (wrap_i32 (gNumProxies st + 1)) st);;
       n ← gets gNumProxies;
       warned ← gets gProxiesWarned;
       if (wrap_i32 (warned + PROXY_WARN_INTERVAL) <=? n)%Z then
         emit (EvWarnManyProxies n);;
         modify (set_gProxiesWarned n)
       else ret tt
     else
       (* nativeData wasn't used. Reuse it the next time. *)
       modify (set_gNativeDataCache (Some nativeData)));;
    ret object.

Definition javaObjectForIBinder (val : option IBinder) : M jobject :=
  match val with
  | None => ret None
  | Some v =>
      if checkSubclass v then
        (* It's a JavaBBinder created by ibinderForJavaObject. *)
        ret (JavaBBinder_object v)
      else
        (* AutoMutex _l (gProxyLock): the rest runs under the lock. *)
        r ← javaObjectForIBinder_getInstance v;
        javaObjectForIBinder_settle v r.1 r.2
  end.

Definition ibinderForJavaObject (obj : jobject) : M (option IBinder) :=
  match obj with
  | None => ret None
  | Some o =>
      c ← gets (fun st => objects (jheap st) !! o);
      match c with
      | Some (JBinder jbh) =>
          b ← JavaBBinderHolder_get jbh o;
          ret (Some b)
      | Some (JBinderProxy nd) =>
          d ← gets (fun st => proxyData st !! nd);
          d ← deref d;
          ret (bp_mObject d)
      | _ =>
          emit (EvWarnNotBinder o);;
          ret None
      end
  end.

(** *** signalExceptionForError *)

Definition signalExceptionForError (err : status_t) (canThrowRemoteException : bool)
    (parcelSize : Z) : M unit :=
  if bool_decide (err = UNKNOWN_ERROR) then
    jniThrowException "java/lang/RuntimeException" (MsgText "Unknown error")
  else if bool_decide (err = NO_MEMORY) then
    jniThrowException "java/lang/OutOfMemoryError" MsgNull
  else if bool_decide (err = INVALID_OPERATION) then
    jniThrowException "java/lang/UnsupportedOperationException" MsgNull
  else if bool_decide (err = BAD_VALUE) then
    jniThrowException "java/lang/IllegalArgumentException" MsgNull
  else if bool_decide (err = BAD_INDEX) then
    jniThrowException "java/lang/IndexOutOfBoundsException" MsgNull
  else if bool_decide (err = BAD_TYPE) then
    jniThrowException "java/lang/IllegalArgumentException" MsgNull
  else if bool_decide (err = NAME_NOT_FOUND) then
    jniThrowException "java/util/NoSuchElementException" MsgNull
  else if bool_decide (err = PERMISSION_DENIED) then
    jniThrowException "java/lang/SecurityException" MsgNull
  else if bool_decide (err = NOT_ENOUGH_DATA) then
    jniThrowException "android/os/ParcelFormatException" (MsgText "Not enough data")
  else if bool_decide (err = NO_INIT) then
    jniThrowException "java/lang/RuntimeException" (MsgText "Not initialized")
  else if bool_decide (err = ALREADY_EXISTS) then
    jniThrowException "java/lang/RuntimeException" (MsgText "Item already exists")
  else if bool_decide (err = DEAD_OBJECT) then
    jniThrowException (if canThrowRemoteException then "android/os/DeadObjectException"
                       else "java/lang/RuntimeException") MsgNull
  else if bool_decide (err = UNKNOWN_TRANSACTION) then
    jniThrowException "java/lang/RuntimeException" (MsgText "Unknown transaction code")
  else if bool_decide (err = FAILED_TRANSACTION) then
    if canThrowRemoteException && (200 * 1024 <? parcelSize)%Z then
      jniThrowException "android/os/TransactionTooLargeException" (MsgParcelSize parcelSize)
    else
      jniThrowException (if canThrowRemoteException then "android/os/DeadObjectException"
                         else "java/lang/RuntimeException")
        (MsgText "Transaction failed on small parcel; remote process probably died")
  else if bool_decide (err = FDS_NOT_ALLOWED) then
    jniThrowException "java/lang/RuntimeException"
      (MsgText "Not allowed to write file descriptors here")
  else if bool_decide (err = UNEXPECTED_NULL) then
    jniThrowNullPointerException MsgNull
  else if bool_decide (err = - EBADF)%Z then
    jniThrowException "java/lang/RuntimeException" (MsgText "Bad file descriptor")
  else if bool_decide (err = - ENFILE)%Z then
    jniThrowException "java/lang/RuntimeException" (MsgText "File table overflow")
  else if bool_decide (err = - EMFILE)%Z then
    jniThrowException "java/lang/RuntimeException" (MsgText "Too many open files")
  else if bool_decide (err = - EFBIG)%Z then
    jniThrowException "java/lang/RuntimeException" (MsgText "File too large")
  else if bool_decide (err = - ENOSPC)%Z then
    jniThrowException "java/lang/RuntimeException" (MsgText "No space left on device")
  else if bool_decide (err = - ESPIPE)%Z then
    jniThrowException "java/lang/RuntimeException" (MsgText "Illegal seek")
  else if bool_decide (err = - EROFS)%Z then
    jniThrowException "java/lang/RuntimeException" (MsgText "Read-only file system")
  else if bool_decide (err = - EMLINK)%Z then
    jniThrowException "java/lang/RuntimeException" (MsgText "Too many links")
  else
    jniThrowException (if canThrowRemoteException then "android/os/RemoteException"
                       else "java/lang/RuntimeException") (MsgUnknownCode err).

(** *** BinderProxy entry points *)

Definition parcelForJavaObject (obj : jobject) : M (option Parcel) :=
  h ← gets trace;
  match snd (env_parcelForJavaObject E h obj) with
  | Some e => modify (set_pending (Some e))
  | None => ret tt
  end;;
  ret (fst (env_parcelForJavaObject E h obj)).

Definition android_os_BinderProxy_transact (obj : objid) (code : Z)
    (dataObj replyObj : jobject) (flags : Z) : M bool :=
  match dataObj with
  | None => jniThrowNullPointerException MsgNull;; ret false
  | Some _ =>
      data ← parcelForJavaObject dataObj;
      match data with
      | None => ret false
      | Some data =>
          reply ← parcelForJavaObject replyObj;
          if bool_decide (reply = None) && bool_decide (replyObj ≠ None) then ret false
          else
            nd ← getBPNativeData (Some obj);
            d ← gets (fun st => proxyData st !! nd);
            d ← deref d;
            match bp_mObject d with
            | None =>
                jniThrowException "java/lang/IllegalStateException"
                  (MsgText "Binder has been finalized!");;
                ret false
            | Some target =>
                (* kEnableBinderSample is false *)
                h ← gets trace;
                emit (EvTransact (ib_ptr target) code flags);;
                let err := chan_transact E h target code data flags in
                if bool_decide (err = NO_ERROR) then ret true
                else if bool_decide (err = UNKNOWN_TRANSACTION) then ret false
                else
                  signalExceptionForError err true (dataSize data);;
                  ret false
            end
      end
  end.

Definition android_os_BinderProxy_linkToDeath (obj : objid) (recipient : jobject)
    (flags : Z) : M unit :=
  match recipient with
  | None => jniThrowNullPointerException MsgNull
  | Some r =>
      nd ← getBPNativeData (Some obj);
      d ← gets (fun st => proxyData st !! nd);
      d ← deref d;
      target ← deref (bp_mObject d);
      if negb (localBinder target) then
        jdr ← new_JavaDeathRecipient r (bp_mOrgue d);
        h ← gets trace;
        emit (EvLinkToDeath (ib_ptr target) jdr flags);;
        let err := chan_linkToDeath E h target jdr flags in
        (if bool_decide (err ≠ NO_ERROR) then
           (* Failure adding the death recipient, so clear its reference now. *)
           clearReference jdr;;
           signalExceptionForError err true 0
         else ret tt);;
        release_jdr jdr
      else ret tt
  end.

Definition android_os_BinderProxy_unlinkToDeath (obj : objid) (recipient : jobject)
    (flags : Z) : M bool :=
  match recipient with
  | None => jniThrowNullPointerException MsgNull;; ret false
  | Some _ =>
      nd ← getBPNativeData (Some obj);
      d ← gets (fun st => proxyData st !! nd);
      d ← deref d;
      match bp_mObject d with
      | None => ret false
      | Some target =>
          if negb (localBinder target) then
            drl ← deref (bp_mOrgue d);
            origJDR ← DeathRecipientList_find drl recipient;
            err ← match origJDR with
                   | Some j =>
                       h ← gets trace;
                       emit (EvUnlinkToDeath (ib_ptr target) j flags);;
                       let '(err, dr) := chan_unlinkToDeath E h target j flags in
                       (if bool_decide (err = NO_ERROR) then
                          match dr with
                          | Some p =>
                              sdr ← gets (fun st => deathRecipients st !! p);
                              match sdr with      (* dr.promote () *)
                              | Some _ => clearReference p;; release_jdr p
                              | None => ret tt
                              end
                          | None => ret tt
                          end
                        else ret tt);;
                       release_jdr j;;
                       ret err
                   | None => ret NAME_NOT_FOUND
                   end;
            if bool_decide (err = NO_ERROR) || bool_decide (err = DEAD_OBJECT) then ret true
            else
              jniThrowException "java/util/NoSuchElementException"
                (MsgText "Death link does not exist");;
              ret false
          else ret false
      end
  end.

End NativeCode.

(* ===================================================================== *)
(** ** The Java side of proxy uniquing *)
(* ===================================================================== *)

(** The first entry of the table for [iBinder] whose proxy has not been
    collected. *)
Fixpoint lookup_live (dead : gset objid) (iBinder : ptr) (tbl : list (ptr * objid))
  : option objid :=
  match tbl with
  | [] => None
  | (k, p) :: rest =>
      if bool_decide (k = iBinder) && negb (bool_decide (p ∈ dead)) then Some p
      else lookup_live dead iBinder rest
  end.

(** Modelled from the spec: BinderProxy.getInstance and the table
    BinderProxy.sProxyMap of core/java/android/os/BinderProxy.java, which is
    not among the sources.  Section 4.1: "If a live Proxy for that (channel,
    handle) already exists, return it.  Otherwise atomically construct a new
    Proxy and register it."  The new proxy object carries the native node
    it was handed. *)
Definition BinderProxy_getInstance (nativeData iBinder : ptr) (h : JavaHeap)
  : Upcall jobject * JavaHeap :=
  match lookup_live (collected h) iBinder (sProxyMap h) with
  | Some p => (Returned (Some p), h)
  | None =>
      (Returned (Some (nextObj h)),
       {| objects := <[nextObj h := JBinderProxy nativeData]> (objects h);
          nextObj := S (nextObj h);
          sProxyMap := (iBinder, nextObj h) :: sProxyMap h;
          collected := collected h |})
  end.

(** The live entries of the table for one native binder. *)
Definition live_entries (h : JavaHeap) (iBinder : ptr) : list (ptr * objid) :=
  List.filter
    (fun e => bool_decide (e.1 = iBinder) && negb (bool_decide (e.2 ∈ collected h)))
    (sProxyMap h).

(* ===================================================================== *)
(** ** Reference environment and sample states *)
(* ===================================================================== *)

Definition is_death_notice (e : Event) : bool :=
  match e with EvSendDeathNotice _ _ => true | _ => false end.

(** Whether recipient [j] is linked on the channel according to the
    history (most recent event first). *)
Fixpoint linked_in (h : list Event) (j : ptr) : bool :=
  match h with
  | [] => false
  | EvLinkToDeath _ j' _ :: rest => if bool_decide (j' = j) then true else linked_in rest j
  | EvUnlinkToDeath _ j' _ :: rest => if bool_decide (j' = j) then false else linked_in rest j
  | _ :: rest => linked_in rest j
  end.

(** A well-behaved world, used to run the code on concrete inputs: Java
    handlers that succeed, a proxy table that behaves as
    [BinderProxy_getInstance], and a peer that counts as dead once a death
    notice has gone out. *)
Definition reference_env : Env :=
  {| java_execTransact := fun _ _ _ _ => (Returned true, 0%Z);
     java_sendDeathNotice := fun _ _ => None;
     java_newStringUTF := fun _ _ => true;
     java_logE := fun _ _ => None;
     java_onBinderStrictModePolicyChange := fun _ _ => None;
     java_currentThread := fun _ => Some 0;
     java_dispatchUncaughtException := fun _ _ => false;
     java_getInstance := fun _ => BinderProxy_getInstance;
     env_parcelForJavaObject := fun _ obj =>
       match obj with
       | Some o => (Some {| dataSize := Z.of_nat o |}, None)
       | None => (None, None)
       end;
     chan_transact := fun _ _ _ _ _ => NO_ERROR;
     chan_linkToDeath := fun h _ _ _ =>
       if existsb is_death_notice h then DEAD_OBJECT else NO_ERROR;
     chan_unlinkToDeath := fun h _ j _ =>
       if existsb is_death_notice h then (DEAD_OBJECT, None)
       else if linked_in h j then (NO_ERROR, Some j)
       else (NAME_NOT_FOUND, None) |}.

(** A world whose handlers throw [e] and whose channel answers [err]. *)
Definition faulty_env (e : jthrowable) (err : status_t) : Env :=
  {| java_execTransact := fun _ _ _ _ => (Threw e, 0%Z);
     java_sendDeathNotice := fun _ _ => Some e;
     java_newStringUTF := fun _ _ => true;
     java_logE := fun _ _ => None;
     java_onBinderStrictModePolicyChange := fun _ _ => None;
     java_currentThread := fun _ => Some 0;
     java_dispatchUncaughtException := fun _ _ => false;
     java_getInstance := fun _ => BinderProxy_getInstance;
     env_parcelForJavaObject := fun _ obj =>
       match obj with
       | Some o => (Some {| dataSize := Z.of_nat o |}, None)
       | None => (None, None)
       end;
     chan_transact := fun _ _ _ _ _ => err;
     chan_linkToDeath := fun _ _ _ _ => err;
     chan_unlinkToDeath := fun _ _ _ _ => (err, None) |}.

Definition empty_heap : JavaHeap :=
  {| objects := ∅; nextObj := 1; sProxyMap := []; collected := ∅ |}.

(** The process right after start-up. *)
Definition initial_state : State :=
  {| gNumProxies := 0; gProxiesWarned := 0;
     gNumLocalRefsCreated := 0; gNumDeathRefsCreated := 0; gNumDeathRefsDeleted := 0;
     gCollectedAtRefs := 0; gNativeDataCache := None;
     nextPtr := 1; proxyData := ∅; deathLists := ∅; deathRecipients := ∅; holders := ∅;
     jheap := empty_heap; pending := None; strictModePolicy := 0; trace := [] |}.

Definition remote_binder : IBinder := {| ib_ptr := 1000; ib_class := BpBinderC 7 |}.
Definition native_local_binder : IBinder := {| ib_ptr := 2000; ib_class := BBinderC |}.

(** The state after the first resolution of [b] from [initial_state], and
    the proxy object it returned. *)
Definition resolved (b : IBinder) : State :=
  final_state (javaObjectForIBinder reference_env (Some b) initial_state).

Definition NullPointerException : jthrowable :=
  Throwable "java/lang/NullPointerException" false MsgNull.

Definition NoSuchElementException : jthrowable :=
  Throwable "java/util/NoSuchElementException" false (MsgText "Death link does not exist").

(** A proxy for [remote_binder] with recipient object 5 linked to it. *)
Definition linked_state : State :=
  final_state (android_os_BinderProxy_linkToDeath reference_env 1 (Some 5) 0
                 (resolved remote_binder)).

(** A process with one Java Binder (object 10) whose holder (at 50) has
    not created its JavaBBinder yet. *)
Definition binder_state : State :=
  set_holders {[ 50 := None ]}
    (set_jheap {| objects := {[ 10 := JBinder 50 ]}; nextObj := 11;
                  sProxyMap := []; collected := ∅ |}
       (set_nextPtr 51 initial_state)).

(* ===================================================================== *)
(** ** Runs of the death-notification subsystem *)
(* ===================================================================== *)

(** What can happen to a process, one call after another: binders are
    resolved and exposed, transactions go out and come in, recipients are
    linked and unlinked, and the channel reports the death of a peer to a
    recipient it still can promote. *)
Inductive Op :=
| OpResolve (val : option IBinder)
| OpExpose (obj : jobject)
| OpTransact (obj : objid) (code : Z) (dataObj replyObj : jobject) (flags : Z)
| OpDispatch (mObject : objid) (code flags : Z)
| OpLinkToDeath (obj : objid) (recipient : jobject) (flags : Z)
| OpUnlinkToDeath (obj : objid) (recipient : jobject) (flags : Z)
| OpBinderDied (j : ptr).

Definition run_op (E : Env) (op : Op) : M unit :=
  match op with
  | OpResolve val => javaObjectForIBinder E val;; ret tt
  | OpExpose obj => ibinderForJavaObject obj;; ret tt
  | OpTransact obj code dataObj replyObj flags =>
      android_os_BinderProxy_transact E obj code dataObj replyObj flags;; ret tt
  | OpDispatch mObject code flags => onTransact E mObject code flags;; ret tt
  | OpLinkToDeath obj recipient flags => android_os_BinderProxy_linkToDeath E obj recipient flags
  | OpUnlinkToDeath obj recipient flags =>
      android_os_BinderProxy_unlinkToDeath E obj recipient flags;; ret tt
  | OpBinderDied j =>
      r ← gets (fun st => deathRecipients st !! j);
      match r with              (* the channel promotes its weak reference *)
      | Some _ => binderDied E j
      | None => ret tt
      end
  end.

Fixpoint run_ops (E : Env) (ops : list Op) : M unit :=
  match ops with
  | [] => ret tt
  | op :: rest => run_op E op;; run_ops E rest
  end.

(** How many times [BinderProxy.sendDeathNotice] was called on behalf of
    the native recipient [j]. *)
Definition notices_to (j : ptr) (h : list Event) : nat :=
  length (List.filter (fun e => match e with
                                | EvSendDeathNotice j' _ => bool_decide (j' = j)
                                | _ => false
                                end) h).

(** Recipients are registered with a death-recipient list that is alive;
    a recipient that still holds its strong reference has not been
    notified; nobody has been notified twice; addresses not handed out yet
    have no history. *)
Record death_inv (st : State) : Prop := {
  di_registered : forall j r, deathRecipients st !! j = Some r ->
      is_Some (deathLists st !! jdr_mList r);
  di_strong : forall j r, deathRecipients st !! j = Some r ->
      jdr_mObject r <> None -> notices_to j (trace st) = 0;
  di_once : forall j, notices_to j (trace st) <= 1;
  di_fresh : forall j, nextPtr st <= j ->
      deathRecipients st !! j = None /\ notices_to j (trace st) = 0
}.

(* ===================================================================== *)
(** ** Threads resolving the same binder *)
(* ===================================================================== *)

(** Where a thread is inside [javaObjectForIBinder v], for a binder [v]
    that is not a JavaBBinder. *)
Inductive ThreadPc :=
| PStart                                          (* waiting for gProxyLock *)
| PLocked                                         (* holds the lock *)
| PCalled (nativeData : ptr) (object : jobject)   (* getInstance has returned *)
| PDone (result : jobject).                       (* lock released, returned *)

Record Config := {
  shared : State;
  lock : option nat;            (* the thread that holds gProxyLock *)
  threads : list ThreadPc;
  crashed : bool
}.

(** One step of thread [i]; a thread that cannot move leaves the
    configuration as it is. *)
Definition thread_step (E : Env) (v : IBinder) (c : Config) (i : nat) : Config :=
  if crashed c then c else
  match threads c !! i with
  | Some PStart =>
      match lock c with
      | None => {| shared := shared c; lock := Some i;
                   threads := <[i := PLocked]> (threads c); crashed := false |}
      | Some _ => c
      end
  | Some PLocked =>
      match javaObjectForIBinder_getInstance E v (shared c) with
      | Ret r st' => {| shared := st'; lock := lock c;
                        threads := <[i := PCalled r.1 r.2]> (threads c); crashed := false |}
      | Abort _ st' => {| shared := st'; lock := lock c; threads := threads c;
                          crashed := true |}
      end
  | Some (PCalled nativeData object) =>
      match javaObjectForIBinder_settle v nativeData object (shared c) with
      | Ret r st' => {| shared := st'; lock := None;
                        threads := <[i := PDone r]> (threads c); crashed := false |}
      | Abort _ st' => {| shared := st'; lock := lock c; threads := threads c;
                          crashed := true |}
      end
  | Some (PDone _) | None => c
  end.

Definition run_schedule (E : Env) (v : IBinder) (sched : list nat) (c : Config) : Config :=
  foldl (thread_step E v) c sched.

(** [n] threads about to resolve, nobody holding the lock. *)
Definition spawn (st : State) (n : nat) : Config :=
  {| shared := st; lock := None; threads := replicate n PStart; crashed := false |}.

(** [n] calls in a row, with their results. *)
Fixpoint resolve_repeatedly (E : Env) (v : IBinder) (n : nat) : M (list jobject) :=
  match n with
  | 0 => ret []
  | S k =>
      o ← javaObjectForIBinder E (Some v);
      os ← resolve_repeatedly E v k;
      ret (o :: os)
  end.

(** The state of the uniquing machinery between two calls: no exception
    pending, the cached node and the nodes owned by proxies are distinct
    allocated addresses, the table refers to proxy objects, object
    identities (collected ones too) lie below [nextObj], and no binder has
    two live entries. *)
Record proxy_inv (st : State) : Prop := {
  pi_pending : pending st = None;
  pi_cache : forall c, gNativeDataCache st = Some c -> c < nextPtr st;
  pi_owned : forall o nd, objects (jheap st) !! o = Some (JBinderProxy nd) ->
      nd < nextPtr st /\ gNativeDataCache st <> Some nd;
  pi_objects : forall o, is_Some (objects (jheap st) !! o) -> o < nextObj (jheap st);
  pi_table : forall k p, (k, p) ∈ sProxyMap (jheap st) ->
      exists nd, objects (jheap st) !! p = Some (JBinderProxy nd);
  pi_collected : forall o, o ∈ collected (jheap st) -> o < nextObj (jheap st);
  pi_unique : forall k, length (live_entries (jheap st) k) <= 1
}.

(** Two throwables a handler may raise. *)
Definition sample_exception : jthrowable :=
  Throwable "java/lang/IllegalStateException" false (MsgText "handler failed").

Definition sample_error : jthrowable :=
  Throwable "java/lang/StackOverflowError" true MsgNull.

(** [linked_state] after the peer has died and recipient 3 was notified. *)
Definition notified_state : State :=
  final_state (binderDied reference_env 3 linked_state).

(* ===================================================================== *)
(** ** Invariants of runs *)
(* ===================================================================== *)

(** What every operation other than a death notice may do to the
    bookkeeping: allocate, keep lists alive, leave the count of notices
    alone, and add recipients only at fresh addresses with a live list. *)
Record death_evolves (st st' : State) : Prop := {
  de_next : nextPtr st <= nextPtr st';
  de_lists : forall l, is_Some (deathLists st !! l) -> is_Some (deathLists st' !! l);
  de_notices : forall j, notices_to j (trace st') = notices_to j (trace st);
  de_recipients : forall j r, deathRecipients st' !! j = Some r ->
      deathRecipients st !! j = Some r
      \/ (nextPtr st <= j < nextPtr st' /\ is_Some (deathLists st' !! jdr_mList r))
}.

(** A computation whose finished runs evolve the bookkeeping and whose
    aborted runs have at least sent no death notice. *)
Definition evolving {A} (m : M A) : Prop :=
  forall st, match m st with
             | Ret _ st' => death_evolves st st'
             | Abort _ st' => forall j, notices_to j (trace st') = notices_to j (trace st)
             end.

(** A thread outside the critical section. *)
Definition idle_or_done (pc : ThreadPc) : Prop :=
  pc = PStart \/ exists r, pc = PDone r.

(** What holds of every configuration the threads can reach: nobody
    crashed; the lock is free and the shared state is good, or its owner is
    inside the critical section on top of a good state; everybody else is
    outside; whoever returned holds the proxy of the one live entry. *)
Record config_inv (E : Env) (v : IBinder) (c : Config) : Prop := {
  ci_alive : crashed c = false;
  ci_lock :
    match lock c with
    | None => proxy_inv (shared c) /\ Forall idle_or_done (threads c)
    | Some i =>
        (forall j pc, j <> i -> threads c !! j = Some pc -> idle_or_done pc)
        /\ ((threads c !! i = Some PLocked /\ proxy_inv (shared c))
            \/ (exists base nd obj,
                   threads c !! i = Some (PCalled nd obj) /\ proxy_inv base
                   /\ javaObjectForIBinder_getInstance E v base = Ret (nd, obj) (shared c)))
    end;
  ci_done : forall j r, threads c !! j = Some (PDone r) ->
      exists p, r = Some p /\ live_entries (jheap (shared c)) (ib_ptr v) = [(ib_ptr v, p)]
}.

(* ===================================================================== *)
(** ** More of the native code *)
(* ===================================================================== *)

(** *** Holders, counters, garbage collection *)




(** [android_os_BinderInternal_handleGc]: the collector has run. *)
Definition android_os_BinderInternal_handleGc : M unit :=
  modify (fun st => set_gCollectedAtRefs
            (wrap_u32 (gNumLocalRefsCreated st + gNumDeathRefsCreated st)) st).

(** [android_os_Debug_getProxyObjectCount]. *)
Definition android_os_Debug_getProxyObjectCount : M Z := gets gNumProxies.

(** [android_os_Debug_getDeathObjectCount]: an unsigned difference,
    returned as a jint. *)
Definition android_os_Debug_getDeathObjectCount : M Z :=
  gets (fun st => wrap_i32 (wrap_u32 (gNumDeathRefsCreated st - gNumDeathRefsDeleted st))).

(** References created since the collection point the file last recorded,
    as the unsigned arithmetic of [gcIfManyNewRefs] sees it. *)
Definition refs_since_gc (st : State) : Z :=
  wrap_u32 (wrap_u32 (gNumLocalRefsCreated st + gNumDeathRefsCreated st) - gCollectedAtRefs st).

(** How often [BinderInternal.forceBinderGc] was called. *)
Definition forced_gcs (h : list Event) : nat :=
  length (List.filter (fun e => match e with EvForceGc => true | _ => false end) h).

(** [n] JavaBBinders created one after the other. *)
Fixpoint create_JavaBBinders (object : objid) (n : nat) : M unit :=
  match n with
  | 0 => ret tt
  | S k => new_JavaBBinder object;; create_JavaBBinders object k
  end.

(** *** Calling identity *)

(** The digits of ["%llx"]: a 64-bit value in hexadecimal, without
    leading zeros. *)
Definition hex_digit (d : Z) : Ascii.ascii :=
  nth (Z.to_nat d) (list_ascii_of_string "0123456789abcdef") "f"%char.

Fixpoint hex_from (digits : nat) (z : Z) (acc : string) : string :=
  match digits with
  | 0 => acc
  | S k =>
      let acc' := String (hex_digit (z mod 16)) acc in
      if (z / 16 =? 0)%Z then acc' else hex_from k (z / 16) acc'
  end.

Definition PRIx64 (v : Z) : string := hex_from 16 (v mod 2 ^ 64) "".

Section CallingIdentity.

(** The thread state of IPCThreadState and its [restoreCallingIdentity],
    which live in libbinder. *)
Context {IPC : Type} (IPCThreadState_restoreCallingIdentity : Z -> IPC -> IPC).

(** [android_os_Binder_restoreCallingIdentity]; [token] is a jlong. *)
Definition android_os_Binder_restoreCallingIdentity (token : Z) (ipc : IPC) : M IPC :=
  let uid := wrap_i32 (Z.shiftr token 32) in
  if (0 <? uid)%Z && (uid <? 999)%Z then
    (* In Android currently there are no uids in this range. *)
    jniThrowException "java/lang/IllegalStateException"
      (MsgText ("Restoring bad calling ident: 0x" ++ PRIx64 token));;
    ret ipc
  else ret (IPCThreadState_restoreCallingIdentity token ipc).

End CallingIdentity.

(** *** Probing the target of a proxy *)

Section Probes.

(** [IBinder::pingBinder], [isBinderAlive] and [getInterfaceDescriptor]
    of the target, and [NewString] of the JVM (false: out of memory). *)
Variable target_pingBinder : list Event -> IBinder -> status_t.
Variable target_isBinderAlive : list Event -> IBinder -> bool.
Variable target_getInterfaceDescriptor : list Event -> IBinder -> string.
Variable java_NewString : list Event -> string -> bool.

Definition proxy_target (obj : objid) : M (option IBinder) :=
  nd ← getBPNativeData (Some obj);
  d ← gets (fun st => proxyData st !! nd);
  d ← deref d;
  ret (bp_mObject d).

Definition android_os_BinderProxy_pingBinder (obj : objid) : M bool :=
  target ← proxy_target obj;
  match target with
  | None => ret false
  | Some target =>
      h ← gets trace;
      ret (bool_decide (target_pingBinder h target = NO_ERROR))
  end.

Definition android_os_BinderProxy_getInterfaceDescriptor (obj : objid) : M (option string) :=
  target ← proxy_target obj;
  match target with
  | Some target =>
      h ← gets trace;
      let desc := target_getInterfaceDescriptor h target in
      if java_NewString h desc then ret (Some desc)
      else jniThrowException "java/lang/OutOfMemoryError" MsgNull;; ret None
  | None =>
      jniThrowException "java/lang/RuntimeException" (MsgText "No binder found for object");;
      ret None
  end.

Definition android_os_BinderProxy_isBinderAlive (obj : objid) : M bool :=
  target ← proxy_target obj;
  match target with
  | None => ret false
  | Some target =>
      h ← gets trace;
      ret (target_isBinderAlive h target)
  end.

End Probes.

(** *** The binder-call sample log *)

(** Tags and sizes of log/log.h, which is not part of the sources at hand. *)
Definition EVENT_TYPE_INT : Z := 0.
Definition EVENT_TYPE_STRING : Z := 2.
Definition EVENT_TYPE_LIST : Z := 3.
Definition LOGGER_ENTRY_MAX_PAYLOAD : nat := 4068.

(** A char array is a list of byte values; a store outside the array has
    no meaning, which [None] records. *)
Definition poke (buf : list Z) (i : nat) (b : Z) : option (list Z) :=
  if bool_decide (i < length buf) then Some (<[i := b]> buf) else None.

Fixpoint memcpy (buf : list Z) (i : nat) (src : list Z) : option (list Z) :=
  match src with
  | [] => Some buf
  | b :: rest =>
      match poke buf i b with
      | Some buf' => memcpy buf' (S i) rest
      | None => None
      end
  end.

(** The four bytes of a jint in memory (the targets are little-endian). *)
Definition bytes_of_jint (v : Z) : list Z :=
  let u := wrap_u32 v in
  [u mod 256; (u / 256) mod 256; (u / 65536) mod 256; (u / 16777216) mod 256]%Z.

(** Reading a jint back from four bytes. *)
Definition jint_of_bytes (bs : list Z) : Z :=
  match bs with
  | [b0; b1; b2; b3] => wrap_i32 (b0 + 256 * b1 + 65536 * b2 + 16777216 * b3)
  | _ => 0
  end%Z.

(** The bytes of a C string: up to the first NUL. *)
Fixpoint cstring (l : list Z) : list Z :=
  match l with
  | [] => []
  | c :: rest => if bool_decide (c = 0%Z) then [] else c :: cstring rest
  end.

(** [push_eventlog_string (&pos, end, str)]: the returned flag, the array
    and the new [pos]. *)
Definition push_eventlog_string (buf : list Z) (pos end_ : nat) (str : list Z)
  : option (bool * list Z * nat) :=
  let len := wrap_i32 (Z.of_nat (length (cstring str))) in
  let space_needed := wrap_i32 (1 + 4 + len) in
  if (Z.of_nat end_ - Z.of_nat pos <? space_needed)%Z then Some (false, buf, pos)
  else
    match poke buf pos EVENT_TYPE_STRING with
    | Some buf1 =>
        match memcpy buf1 (pos + 1) (bytes_of_jint len) with
        | Some buf2 =>
            (* a negative [len] is a huge size_t: the copy leaves the array *)
            if (len <? 0)%Z then None
            else
              match memcpy buf2 (pos + 1 + 4) (take (Z.to_nat len) (cstring str)) with
              | Some buf3 => Some (true, buf3, pos + 1 + 4 + Z.to_nat len)
              | None => None
              end
        | None => None
        end
    | None => None
    end.

(** [push_eventlog_int (&pos, end, val)]. *)
Definition push_eventlog_int (buf : list Z) (pos end_ : nat) (val : Z)
  : option (bool * list Z * nat) :=
  let space_needed := (1 + 4)%Z in
  if (Z.of_nat end_ - Z.of_nat pos <? space_needed)%Z then Some (false, buf, pos)
  else
    match poke buf pos EVENT_TYPE_INT with
    | Some buf1 =>
        match memcpy buf1 (pos + 1) (bytes_of_jint val) with
        | Some buf2 => Some (true, buf2, pos + 1 + 4)
        | None => None
        end
    | None => None
    end.

(** [fgets (buf, len, f)] on the bytes left in the file: at most
    [len - 1] of them, up to and including the first newline; nothing at
    all means failure. *)
Fixpoint fgets_from (room : nat) (content : list Z) : list Z :=
  match room, content with
  | 0, _ | _, [] => []
  | S k, c :: rest => if bool_decide (c = 10%Z) then [c] else c :: fgets_from k rest
  end.

(** [getprocname (pid, buf, len)]: the return code and the C string left
    in [buf]; [cmdline] is what /proc/pid/cmdline holds, if it can be
    opened.  [len] is at least 2 (the one call passes 40): what fgets does
    with a smaller array differs between C libraries. *)
Definition getprocname (cmdline : option (list Z)) (len : nat) : Z * list Z :=
  match cmdline with
  | None => (1%Z, [])
  | Some content =>
      match fgets_from (len - 1) content with
      | [] => (2%Z, [])
      | line => (0%Z, cstring line)
      end
  end.

(** [conditionally_log_binder_call]: what the clock, the random number
    generator, /proc and the target answer come in as arguments, [buf0] is
    the array before anything is stored.  The result is the payload handed
    to [android_bWriteLog], if the call is logged. *)
Definition conditionally_log_binder_call (buf0 : list Z) (uptimeMillis start_millis : Z)
    (random : Z) (cmdline : option (list Z)) (desc : list Z) (code : Z)
  : option (option (list Z)) :=
  let duration_ms := wrap_i32 (uptimeMillis - start_millis) in
  let sample_percent :=
    if (500 <=? duration_ms)%Z then 100%Z
    else Z.quot (wrap_i32 (100 * duration_ms)) 500 in
  if negb (500 <=? duration_ms)%Z
     && (bool_decide (sample_percent = 0%Z)
         || (sample_percent <? Z.rem random 100 + 1)%Z)
  then Some None
  else
    let process_name := snd (getprocname cmdline 40) in
    let end_ := LOGGER_ENTRY_MAX_PAYLOAD - 1 in
    match poke buf0 0 EVENT_TYPE_LIST with
    | None => None
    | Some b1 =>
    match poke b1 1 5%Z with
    | None => None
    | Some b2 =>
    match push_eventlog_string b2 2 end_ desc with
    | None => None
    | Some (false, _, _) => Some None
    | Some (true, b3, p3) =>
    match push_eventlog_int b3 p3 end_ code with
    | None => None
    | Some (false, _, _) => Some None
    | Some (true, b4, p4) =>
    match push_eventlog_int b4 p4 end_ duration_ms with
    | None => None
    | Some (false, _, _) => Some None
    | Some (true, b5, p5) =>
    match push_eventlog_string b5 p5 end_ process_name with
    | None => None
    | Some (false, _, _) => Some None
    | Some (true, b6, p6) =>
    match push_eventlog_int b6 p6 end_ sample_percent with
    | None => None
    | Some (false, _, _) => Some None
    | Some (true, b7, p7) =>
    match poke b7 p7 10%Z with       (* conventional with EVENT_TYPE_LIST *)
    | None => None
    | Some b8 => Some (Some (take (p7 + 1) b8))
    end end end end end end end end.

(** [should_time_binder_calls]. *)
Definition should_time_binder_calls (pid tid : Z) : bool := bool_decide (pid = tid).

(** ** Observations used by the further properties *)

(** The class of the exception [signalExceptionForError] leaves pending. *)
Definition signalled_class (err : status_t) (c : bool) (n : Z) (st : State) : option string :=
  thr_class <$> pending (final_state (signalExceptionForError err c n st)).

(** The proxy counts at which the file warned, most recent first. *)
Definition proxy_warnings (h : list Event) : list Z :=
  omap (fun e => match e with EvWarnManyProxies n => Some n | _ => None end) h.

(** A world in which BinderProxy.getInstance fails with [e]. *)
Definition failing_getInstance_env (e : jthrowable) : Env :=
  {| java_execTransact := java_execTransact reference_env;
     java_sendDeathNotice := java_sendDeathNotice reference_env;
     java_newStringUTF := java_newStringUTF reference_env;
     java_logE := java_logE reference_env;
     java_onBinderStrictModePolicyChange := java_onBinderStrictModePolicyChange reference_env;
     java_currentThread := java_currentThread reference_env;
     java_dispatchUncaughtException := java_dispatchUncaughtException reference_env;
     java_getInstance := fun _ _ _ jh => (Threw e, jh);
     env_parcelForJavaObject := env_parcelForJavaObject reference_env;
     chan_transact := chan_transact reference_env;
     chan_linkToDeath := chan_linkToDeath reference_env;
     chan_unlinkToDeath := chan_unlinkToDeath reference_env |}.


(** The number [android_os_Debug_getDeathObjectCount] reports in a state. *)
Definition death_object_count (st : State) : Z :=
  wrap_i32 (wrap_u32 (gNumDeathRefsCreated st - gNumDeathRefsDeleted st)).

(** ** Counting the death recipients *)

(** The counters of death references agree, in their modular arithmetic,
    with the number of JavaDeathRecipient objects alive, and no recipient
    lives at an address that has not been handed out. *)
Record death_count_inv (st : State) : Prop := {
  dc_balance : wrap_u32 (gNumDeathRefsCreated st - gNumDeathRefsDeleted st)
               = wrap_u32 (Z.of_nat (size (deathRecipients st)));
  dc_fresh : forall j, nextPtr st <= j -> deathRecipients st !! j = None
}.

(** Code that leaves the recipients and their counters alone, however it
    ends. *)
Record death_frame (st st' : State) : Prop := {
  df_recipients : deathRecipients st' = deathRecipients st;
  df_created : gNumDeathRefsCreated st' = gNumDeathRefsCreated st;
  df_deleted : gNumDeathRefsDeleted st' = gNumDeathRefsDeleted st;
  df_next : nextPtr st <= nextPtr st'
}.

Definition framing {A} (m : M A) : Prop :=
  forall st, death_frame st (final_state (m st)).

(** Code whose finished runs keep the count right. *)
Definition keeping {A} (m : M A) : Prop :=
  forall st, death_count_inv st ->
    match m st with
    | Ret _ st' => death_count_inv st'
    | Abort _ _ => True
    end.

(** The same for code that runs while recipient [j] is alive and does not
    destroy it. *)
Definition keeping_at (j : ptr) {A} (m : M A) : Prop :=
  forall st, death_count_inv st -> is_Some (deathRecipients st !! j) ->
    match m st with
    | Ret _ st' => death_count_inv st' /\ is_Some (deathRecipients st' !! j)
    | Abort _ _ => True
    end.

(** A state with one BinderProxy (object 1, node 1) whose native target is
    gone. *)
Definition finalized_proxy_state : State :=
  set_proxyData {[ 1 := {| bp_mObject := None; bp_mOrgue := None |} ]}
    (set_jheap {| objects := {[ 1 := JBinderProxy 1 ]}; nextObj := 2;
                  sProxyMap := []; collected := ∅ |}
       (set_nextPtr 2 initial_state)).

(** The flat layout of a binder_sample event: a list of five elements
    (descriptor, code, duration, process name, sample percentage), closed
    by a newline. *)
Definition binder_sample_payload (desc : list Z) (code duration : Z) (process_name : list Z)
    (sample_percent : Z) : list Z :=
  ([EVENT_TYPE_LIST; 5%Z]
   ++ (EVENT_TYPE_STRING :: bytes_of_jint (Z.of_nat (length desc)) ++ desc)
   ++ (EVENT_TYPE_INT :: bytes_of_jint code)
   ++ (EVENT_TYPE_INT :: bytes_of_jint duration)
   ++ (EVENT_TYPE_STRING :: bytes_of_jint (Z.of_nat (length process_name)) ++ process_name)
   ++ (EVENT_TYPE_INT :: bytes_of_jint sample_percent)
   ++ [10%Z])%list.

(* ===================================================================== *)
(** ** androidfw/Errors.h *)
(* ===================================================================== *)

Module AndroidFw.

Inductive IOError :=
| PAGES_MISSING.     (* reading a file on an IncFs file-system timed out *)

(** [std::variant<std::nullopt_t, IOError>]: an absent result or an I/O
    error. *)
Inductive NullOrIOError :=
| HoldsNullopt
| HoldsIOError (e : IOError).

(** [base::expected<T, NullOrIOError>]. *)
Inductive expected (T : Type) :=
| Value (v : T)
| Unexpected (error : NullOrIOError).
Arguments Value {T} v.
Arguments Unexpected {T} error.

Definition has_value {T} (result : expected T) : bool :=
  match result with Value _ => true | Unexpected _ => false end.

Definition holds_alternative_IOError (error : NullOrIOError) : bool :=
  match error with HoldsIOError _ => true | HoldsNullopt => false end.

(** [IsIOError]; [result.error ()] is looked at only when there is no
    value. *)
Definition IsIOError {T} (result : expected T) : bool :=
  negb (has_value result)
  && match result with
     | Unexpected error => holds_alternative_IOError error
     | Value _ => false          (* not evaluated: && short-circuits *)
     end.

(** [GetIOError]: [std::get<IOError>], which throws
    std::bad_variant_access (here [None]) on the other alternative. *)
Definition GetIOError (error : NullOrIOError) : option IOError :=
  match error with
  | HoldsIOError e => Some e
  | HoldsNullopt => None
  end.

End AndroidFw.

(* ===================================================================== *)
(** * Properties *)
(* ===================================================================== *)

(** Unfolding of the monadic combinators. *)
Ltac munfold :=
  unfold bind, ret, gets, modify, emit, abort, deref, call_void, alloc,
    ExceptionClear, jniThrowNullPointerException, jniThrowException in *.

(** C10: linkToDeath and unlinkToDeath with a null recipient only raise
    NullPointerException (unlinkToDeath also answers false): the state is
    the one before the call with that exception pending, so the
    death-recipient lists, the proxy data and the history are untouched. *)
Theorem null_recipient_rejected (E : Env) (st : State) (obj : objid) (flags : Z) :
  android_os_BinderProxy_linkToDeath E obj None flags st
    = Ret tt (set_pending (Some NullPointerException) st)
  /\ android_os_BinderProxy_unlinkToDeath E obj None flags st
    = Ret false (set_pending (Some NullPointerException) st)
  /\ deathLists (set_pending (Some NullPointerException) st) = deathLists st
  /\ deathRecipients (set_pending (Some NullPointerException) st) = deathRecipients st
  /\ proxyData (set_pending (Some NullPointerException) st) = proxyData st
  /\ trace (set_pending (Some NullPointerException) st) = trace st.
Proof. repeat split. Qed.

(** C9: on a proxy whose target is a local binder, linkToDeath with a
    non-null recipient returns without any effect: no recipient is created,
    the channel is not called, no exception is raised, and the state (the
    death-recipient lists included) is the one before the call. *)
Theorem linkToDeath_local_noop (E : Env) (st : State) (obj : objid) (nd : ptr)
    (d : BinderProxyNativeData) (target : IBinder) (r : objid) (flags : Z) :
  objects (jheap st) !! obj = Some (JBinderProxy nd) ->
  proxyData st !! nd = Some d ->
  bp_mObject d = Some target ->
  localBinder target = true ->
  android_os_BinderProxy_linkToDeath E obj (Some r) flags st = Ret tt st.
Proof.
  intros Hobj Hnd Htarget Hlocal.
  unfold android_os_BinderProxy_linkToDeath, getBPNativeData.
  munfold. rewrite Hobj. simpl. rewrite Hnd. simpl. rewrite Htarget. simpl.
  rewrite Hlocal. reflexivity.
Qed.

Lemma linkToDeath_local_noop_witness :
  android_os_BinderProxy_linkToDeath reference_env 1 (Some 5) 0
      (resolved native_local_binder)
    = Ret tt (resolved native_local_binder).
Proof.
  apply (linkToDeath_local_noop reference_env (resolved native_local_binder) 1 1
           {| bp_mObject := Some native_local_binder; bp_mOrgue := Some 2 |}
           native_local_binder 5 0); vm_compute; reflexivity.
Defined.

(** Every status code makes [signalExceptionForError] leave exactly one
    exception pending and change nothing else. *)
Lemma signalExceptionForError_throws (err : status_t) (c : bool) (n : Z) (st : State) :
  exists e, signalExceptionForError err c n st = Ret tt (set_pending (Some e) st).
Proof.
  unfold signalExceptionForError.
  repeat case_bool_decide; try destruct (c && _); eexists; reflexivity.
Qed.

(** C6: transact with a non-null payload on a live proxy calls the channel
    once and maps its answer: NO_ERROR gives true, UNKNOWN_TRANSACTION gives
    false with no exception raised, any other code gives false with an
    exception pending for the caller.  In each case the history grows by
    the single [EvTransact] call. *)
Theorem transact_error_policy (E : Env) (st : State) (obj : objid) (code flags : Z)
    (dataObj replyObj : jobject) (data : Parcel) (reply : option Parcel)
    (nd : ptr) (d : BinderProxyNativeData) (target : IBinder) :
  let err := chan_transact E (trace st) target code data flags in
  let st1 := set_trace (EvTransact (ib_ptr target) code flags :: trace st) st in
  let result := android_os_BinderProxy_transact E obj code dataObj replyObj flags st in
  dataObj <> None ->
  env_parcelForJavaObject E (trace st) dataObj = (Some data, None) ->
  env_parcelForJavaObject E (trace st) replyObj = (reply, None) ->
  (reply = None -> replyObj = None) ->
  objects (jheap st) !! obj = Some (JBinderProxy nd) ->
  proxyData st !! nd = Some d ->
  bp_mObject d = Some target ->
  (err = NO_ERROR -> result = Ret true st1)
  /\ (err = UNKNOWN_TRANSACTION -> result = Ret false st1)
  /\ (err <> NO_ERROR -> err <> UNKNOWN_TRANSACTION ->
      exists e, result = Ret false (set_pending (Some e) st1)).
Proof.
  intros err st1 result Hdata Hpd Hpr Hreply Hobj Hnd Htarget.
  assert (Hstep : result =
            (if bool_decide (err = NO_ERROR) then Ret true st1
             else if bool_decide (err = UNKNOWN_TRANSACTION) then Ret false st1
             else match signalExceptionForError err true (dataSize data) st1 with
                  | Ret _ st' => Ret false st'
                  | Abort k st' => Abort k st'
                  end)).
  { subst result. unfold android_os_BinderProxy_transact.
    destruct dataObj as [o|]; [|congruence].
    unfold parcelForJavaObject, getBPNativeData. munfold. simpl.
    rewrite Hpd. simpl. rewrite Hpr. simpl.
    assert (Hre : bool_decide (reply = None) && bool_decide (replyObj <> None) = false).
    { destruct reply as [p|]; [reflexivity|]. rewrite (Hreply eq_refl).
      rewrite andb_false_iff. right. apply bool_decide_eq_false. intros H; apply H; reflexivity. }
    rewrite Hre. rewrite Hobj. simpl. rewrite Hnd. simpl. rewrite Htarget. simpl.
    fold err. fold st1. repeat case_bool_decide; reflexivity. }
  rewrite Hstep. repeat split.
  - intros He. rewrite bool_decide_eq_true_2 by exact He. reflexivity.
  - intros He. case_bool_decide as H0.
    + exfalso. rewrite He in H0. discriminate H0.
    + rewrite bool_decide_eq_true_2 by exact He. reflexivity.
  - intros H1 H2. rewrite !bool_decide_eq_false_2 by assumption.
    destruct (signalExceptionForError_throws err true (dataSize data) st1) as [e He].
    exists e. rewrite He. reflexivity.
Qed.

Lemma transact_error_policy_witness :
  let st := resolved remote_binder in
  let st1 := set_trace (EvTransact 1000 42 0 :: trace st) st in
  android_os_BinderProxy_transact reference_env 1 42 (Some 8) None 0 st = Ret true st1
  /\ android_os_BinderProxy_transact (faulty_env sample_exception UNKNOWN_TRANSACTION)
        1 42 (Some 8) None 0 st = Ret false st1
  /\ exists e,
       android_os_BinderProxy_transact (faulty_env sample_exception DEAD_OBJECT)
         1 42 (Some 8) None 0 st = Ret false (set_pending (Some e) st1).
Proof.
  intros st st1. split; [|split].
  - refine (proj1 (transact_error_policy reference_env
             st 1 42 0 (Some 8) None {| dataSize := 8 |} None 1
             {| bp_mObject := Some remote_binder; bp_mOrgue := Some 2 |} remote_binder
             _ _ _ _ _ _ _) _); try (vm_compute; reflexivity). discriminate.
  - refine (proj1 (proj2 (transact_error_policy (faulty_env sample_exception UNKNOWN_TRANSACTION)
             st 1 42 0 (Some 8) None {| dataSize := 8 |} None 1
             {| bp_mObject := Some remote_binder; bp_mOrgue := Some 2 |} remote_binder
             _ _ _ _ _ _ _)) _); try (vm_compute; reflexivity). discriminate.
  - refine (proj2 (proj2 (transact_error_policy (faulty_env sample_exception DEAD_OBJECT)
             st 1 42 0 (Some 8) None {| dataSize := 8 |} None 1
             {| bp_mObject := Some remote_binder; bp_mOrgue := Some 2 |} remote_binder
             _ _ _ _ _ _ _)) _ _); try (vm_compute; reflexivity); discriminate.
Defined.

(** A recipient that refers to [r] neither strongly nor weakly does not
    match it. *)
Lemma matches_other (h : JavaHeap) (jd : JavaDeathRecipient) (r : objid) :
  jdr_mObject jd <> Some r ->
  jdr_mObjectWeak jd <> Some r ->
  matches h jd (Some r) = false.
Proof.
  intros Hs Hw. unfold matches, IsSameObject, NewLocalRef.
  destruct (jdr_mObject jd) as [o|] eqn:Ho.
  - apply bool_decide_eq_false. congruence.
  - destruct (jdr_mObjectWeak jd) as [w|]; [|reflexivity].
    destruct (bool_decide (w ∈ collected h)); apply bool_decide_eq_false; congruence.
Qed.

(** Searching a list in which nothing matches finds nothing and leaves
    the state alone. *)
Lemma find_from_none (ls : list ptr) (recipient : jobject) (st : State) :
  (forall j, j ∈ ls ->
     exists jd, deathRecipients st !! j = Some jd /\ matches (jheap st) jd recipient = false) ->
  find_from ls recipient st = Ret None st.
Proof.
  induction ls as [|j rest IH]; intros Hall; [reflexivity|].
  destruct (Hall j) as (jd & Hj & Hm); [left|].
  simpl. unfold get_jdr. munfold. rewrite Hj. simpl. rewrite Hm.
  apply IH. intros j' Hin. apply Hall. right. exact Hin.
Qed.

(** C5, amended: on a proxy with a remote target, unlinkToDeath with a
    recipient that no entry of the proxy's death-recipient list refers to
    answers false with NoSuchElementException pending; the channel is not
    called and the lists, the recipients and the history are unchanged. *)
Theorem unlinkToDeath_never_linked (E : Env) (st : State) (obj : objid) (nd : ptr)
    (d : BinderProxyNativeData) (target : IBinder) (drl : ptr) (ls : list ptr)
    (r : objid) (flags : Z) :
  objects (jheap st) !! obj = Some (JBinderProxy nd) ->
  proxyData st !! nd = Some d ->
  bp_mObject d = Some target ->
  localBinder target = false ->
  bp_mOrgue d = Some drl ->
  deathLists st !! drl = Some ls ->
  (forall j, j ∈ ls ->
     exists jd, deathRecipients st !! j = Some jd
                /\ jdr_mObject jd <> Some r /\ jdr_mObjectWeak jd <> Some r) ->
  android_os_BinderProxy_unlinkToDeath E obj (Some r) flags st
    = Ret false (set_pending (Some NoSuchElementException) st)
  /\ deathLists (set_pending (Some NoSuchElementException) st) = deathLists st
  /\ deathRecipients (set_pending (Some NoSuchElementException) st) = deathRecipients st
  /\ trace (set_pending (Some NoSuchElementException) st) = trace st.
Proof.
  intros Hobj Hnd Htarget Hremote Horgue Hlist Hnone.
  split; [|repeat split].
  unfold android_os_BinderProxy_unlinkToDeath, getBPNativeData, DeathRecipientList_find.
  munfold. rewrite Hobj. simpl. rewrite Hnd. simpl. rewrite Htarget, Hremote. simpl.
  rewrite Horgue. simpl. rewrite Hlist. simpl.
  rewrite find_from_none; [reflexivity|].
  intros j Hin. destruct (Hnone j Hin) as (jd & Hj & Hs & Hw).
  exists jd. split; [exact Hj|]. apply matches_other; assumption.
Qed.

Lemma unlinkToDeath_never_linked_witness :
  android_os_BinderProxy_unlinkToDeath reference_env 1 (Some 6) 0 linked_state
    = Ret false (set_pending (Some NoSuchElementException) linked_state).
Proof.
  apply (unlinkToDeath_never_linked reference_env linked_state 1 1
           {| bp_mObject := Some remote_binder; bp_mOrgue := Some 2 |}
           remote_binder 2 [3] 6 0); try (vm_compute; reflexivity).
  intros j Hin. apply list_elem_of_singleton in Hin. subst j.
  exists {| jdr_mObject := Some 5; jdr_mObjectWeak := None; jdr_mList := 2 |}.
  split; [vm_compute; reflexivity|]. split; discriminate.
Defined.

(** C5, as first worded for every proxy, fails on a proxy of a binder
    that lives in this process: its peer has not died and the recipient was
    never linked, yet unlinkToDeath answers false without raising
    NoSuchElementException, because the search and the exception are both
    inside the test for a remote target. *)
Lemma unlinkToDeath_never_linked_counterexample :
  let st := resolved native_local_binder in
  objects (jheap st) !! 1 = Some (JBinderProxy 1)
  /\ proxyData st !! 1
     = Some {| bp_mObject := Some native_local_binder; bp_mOrgue := Some 2 |}
  /\ deathLists st !! 2 = Some []
  /\ existsb is_death_notice (trace st) = false
  /\ android_os_BinderProxy_unlinkToDeath reference_env 1 (Some 5) 0 st = Ret false st
  /\ pending st = None
  /\ ~ (exists st',
          android_os_BinderProxy_unlinkToDeath reference_env 1 (Some 5) 0 st = Ret false st'
          /\ pending st' = Some NoSuchElementException).
Proof.
  assert (Hrun : android_os_BinderProxy_unlinkToDeath reference_env 1 (Some 5) 0
                   (resolved native_local_binder)
                 = Ret false (resolved native_local_binder))
    by (vm_compute; reflexivity).
  assert (Hp : pending (resolved native_local_binder) = None) by (vm_compute; reflexivity).
  cbv zeta. repeat (split; [vm_compute; reflexivity|]).
  intros (st' & Hrun' & Hp'). rewrite Hrun in Hrun'. injection Hrun' as <-.
  rewrite Hp in Hp'. discriminate Hp'.
Qed.

Ltac mstep := repeat (munfold; simpl).

(** [report_exception] ends the process when handed a java.lang.Error;
    otherwise it returns having only logged: no exception is pending and
    only the history has grown, by no death notice. *)
Lemma report_exception_spec (E : Env) (e : jthrowable) (msg : string) (st : State) :
  if thr_isError e then
    exists k st', report_exception E e msg st = Abort k st'
                  /\ (k = ByUncaughtHandler \/ k = ByFatalError)
                  /\ forall j, notices_to j (trace st') = notices_to j (trace st)
  else
    exists tr, report_exception E e msg st = Ret tt (set_pending None (set_trace tr st))
               /\ forall j, notices_to j tr = notices_to j (trace st).
Proof.
  unfold report_exception, NewStringUTF, report_java_lang_error,
    report_java_lang_error_fatal_error. mstep.
  destruct (java_newStringUTF E (trace st) LOG_TAG) eqn:Htag; mstep;
    [destruct (java_newStringUTF E (trace st) msg) eqn:Hmsg; mstep;
      [destruct (java_logE E (trace st) e) eqn:Hlog; mstep|]|];
    (destruct (thr_isError e); mstep;
      [ destruct (java_currentThread E _); mstep;
        [destruct (java_dispatchUncaughtException E _ e); mstep|];
        do 2 eexists; (split; [reflexivity|]); (split; [auto|]); intros ?; reflexivity
      | eexists; (split; [reflexivity|]); intros ?; reflexivity ]).
Qed.

(** C7: when the Java handler of an incoming transaction throws, a
    throwable that is not a java.lang.Error makes [onTransact] answer
    UNKNOWN_TRANSACTION with no exception left pending (provided the
    strict-mode callback, if it runs, raises no Error of its own), while a
    java.lang.Error yields no status at all: the process ends, through the
    uncaught-exception handler or through FatalError. *)
Theorem onTransact_handler_fault (E : Env) (st : State) (mObject : objid)
    (code flags : Z) (e : jthrowable) :
  fst (java_execTransact E (trace st) mObject code flags) = Threw e ->
  (thr_isError e = true ->
     exists k st', onTransact E mObject code flags st = Abort k st'
                   /\ (k = ByUncaughtHandler \/ k = ByFatalError))
  /\ (thr_isError e = false ->
      (forall h p e', java_onBinderStrictModePolicyChange E h p = Some e' ->
                      thr_isError e' = false) ->
      exists st', onTransact E mObject code flags st = Ret UNKNOWN_TRANSACTION st'
                  /\ pending st' = None).
Proof.
  intros Hthrow. unfold onTransact. mstep. rewrite Hthrow. mstep.
  match goal with
  | |- context [report_exception E e ?m ?s] =>
      pose proof (report_exception_spec E e m s) as Hrep
  end.
  split.
  - intros Herr. rewrite Herr in Hrep. destruct Hrep as (k & st' & Hrun & Hk & _).
    rewrite Hrun. eauto.
  - intros Hrec Hcb. rewrite Hrec in Hrep. destruct Hrep as (tr & Hrun & _).
    rewrite Hrun. mstep. unfold set_dalvik_blockguard_policy. mstep.
    case_bool_decide as Hpol; mstep.
    + destruct (java_onBinderStrictModePolicyChange E tr (strictModePolicy st)) as [e'|] eqn:Hc;
        mstep.
      * match goal with
        | |- context [report_exception E e' ?m ?s] =>
            pose proof (report_exception_spec E e' m s) as Hrep2
        end.
        rewrite (Hcb _ _ _ Hc) in Hrep2. destruct Hrep2 as (tr2 & Hrun2 & _).
        rewrite Hrun2. mstep. case_bool_decide; eexists; split; reflexivity.
      * case_bool_decide; eexists; split; reflexivity.
    + case_bool_decide; eexists; split; reflexivity.
Qed.

Lemma onTransact_handler_fault_witness :
  (exists st', onTransact (faulty_env sample_exception NO_ERROR) 10 1 0 initial_state
                 = Ret UNKNOWN_TRANSACTION st' /\ pending st' = None)
  /\ (exists k st', onTransact (faulty_env sample_error NO_ERROR) 10 1 0 initial_state
                      = Abort k st' /\ (k = ByUncaughtHandler \/ k = ByFatalError)).
Proof.
  split.
  - apply (proj2 (onTransact_handler_fault (faulty_env sample_exception NO_ERROR)
                    initial_state 10 1 0 sample_exception eq_refl)).
    + reflexivity.
    + intros h p e' H. discriminate H.
  - apply (proj1 (onTransact_handler_fault (faulty_env sample_error NO_ERROR)
                    initial_state 10 1 0 sample_error eq_refl)).
    reflexivity.
Defined.

(** *** Evolution of the death-recipient bookkeeping *)

Lemma death_evolves_refl (st : State) : death_evolves st st.
Proof. split; auto. Qed.

Lemma death_evolves_trans (a b c : State) :
  death_evolves a b -> death_evolves b c -> death_evolves a c.
Proof.
  intros [n1 l1 t1 r1] [n2 l2 t2 r2]. split.
  - lia.
  - auto.
  - intros j. rewrite t2. apply t1.
  - intros j r Hj. destruct (r2 j r Hj) as [Hold|[Hrange Hlive]].
    + destruct (r1 j r Hold) as [Hold'|[Hrange Hlive]]; [left; exact Hold'|].
      right. split; [lia|auto].
    + right. split; [lia|exact Hlive].
Qed.

Lemma death_evolves_inv (st st' : State) :
  death_evolves st st' -> death_inv st -> death_inv st'.
Proof.
  intros [Hn Hl Ht Hr] [Ireg Istrong Ionce Ifresh]. split.
  - intros j r Hj. destruct (Hr j r Hj) as [Hold|[_ Hlive]]; [|exact Hlive].
    apply Hl. eapply Ireg. exact Hold.
  - intros j r Hj Hs. rewrite Ht. destruct (Hr j r Hj) as [Hold|[Hrange _]].
    + eapply Istrong; eassumption.
    + apply Ifresh. lia.
  - intros j. rewrite Ht. apply Ionce.
  - intros j Hj. split.
    + destruct (deathRecipients st' !! j) as [r|] eqn:Hlook; [|reflexivity].
      destruct (Hr j r Hlook) as [Hold|[Hrange _]]; [|lia].
      destruct (Ifresh j) as [Hnone _]; [lia|]. congruence.
    + rewrite Ht. apply Ifresh. lia.
Qed.

Lemma evolving_ret {A} (a : A) : evolving (ret a).
Proof. intros st. apply death_evolves_refl. Qed.

Lemma evolving_gets {A} (f : State -> A) : evolving (gets f).
Proof. intros st. apply death_evolves_refl. Qed.

Lemma evolving_abort {A} (k : AbortKind) : evolving (@abort A k).
Proof. intros st j. reflexivity. Qed.

Lemma evolving_deref {A} (o : option A) : evolving (deref o).
Proof. destruct o; [apply evolving_ret|apply evolving_abort]. Qed.

Lemma evolving_bind {A B} (m : M A) (k : A -> M B) :
  evolving m -> (forall a, evolving (k a)) -> evolving (bind m k).
Proof.
  intros Hm Hk st. unfold bind. specialize (Hm st).
  destruct (m st) as [a st1|r st1]; [|exact Hm].
  specialize (Hk a st1). destruct (k a st1) as [b st2|r st2].
  - eapply death_evolves_trans; eassumption.
  - intros j. rewrite Hk. apply (de_notices _ _ Hm).
Qed.

Lemma evolving_modify (f : State -> State) :
  (forall st, death_evolves st (f st)) -> evolving (modify f).
Proof. intros H st. apply H. Qed.

Lemma evolving_alloc : evolving alloc.
Proof.
  intros st. split; simpl; auto.
Qed.

Create HintDb evolve discriminated.
#[local] Hint Resolve evolving_ret evolving_gets evolving_abort evolving_deref
  evolving_alloc death_evolves_refl : evolve.

(** Side conditions of a single update. *)
Ltac evolves_update :=
  split; simpl;
  [ lia
  | intros ? ?; rewrite ?lookup_insert_is_Some'; auto
  | intros ?; reflexivity
  | intros ? ? Hfound; try (apply lookup_delete_Some in Hfound; destruct Hfound);
    left; assumption ].

(** Structural descent through monadic code. *)
Ltac evolve_step :=
  match goal with
  | |- evolving (bind _ _) => apply evolving_bind; [|intros ?]
  | |- evolving (ret _) => apply evolving_ret
  | |- evolving (gets _) => apply evolving_gets
  | |- evolving (abort _) => apply evolving_abort
  | |- evolving (deref _) => apply evolving_deref
  | |- evolving (modify _) => apply evolving_modify; intros ?; evolves_update
  | |- evolving (emit _) => apply evolving_modify; intros ?; evolves_update
  | |- evolving (match ?x with _ => _ end) => destruct x
  | |- evolving (if ?x then _ else _) => destruct x
  | |- evolving _ => solve [auto with evolve]
  end.
Ltac evolve := repeat evolve_step.

Lemma evolving_signalExceptionForError (err : status_t) (c : bool) (n : Z) :
  evolving (signalExceptionForError err c n).
Proof.
  intros st. destruct (signalExceptionForError_throws err c n st) as [e ->].
  evolves_update.
Qed.

Lemma evolving_gcIfManyNewRefs : evolving gcIfManyNewRefs.
Proof. unfold gcIfManyNewRefs. evolve. Qed.

Lemma evolving_jniThrowException (cls : string) (msg : ExcMsg) :
  evolving (jniThrowException cls msg).
Proof. unfold jniThrowException. evolve. Qed.

#[local] Hint Resolve evolving_signalExceptionForError evolving_gcIfManyNewRefs
  evolving_jniThrowException : evolve.

Lemma evolving_getBPNativeData (obj : jobject) : evolving (getBPNativeData obj).
Proof. unfold getBPNativeData. evolve. Qed.

Lemma evolving_get_jdr (j : ptr) : evolving (get_jdr j).
Proof. unfold get_jdr. evolve. Qed.

#[local] Hint Resolve evolving_getBPNativeData evolving_get_jdr : evolve.

Lemma evolving_find_from (ls : list ptr) (recipient : jobject) :
  evolving (find_from ls recipient).
Proof. induction ls as [|j rest IH]; simpl; evolve. Qed.

Lemma evolving_DeathRecipientList_remove (l j : ptr) :
  evolving (DeathRecipientList_remove l j).
Proof. unfold DeathRecipientList_remove. evolve. Qed.

#[local] Hint Resolve evolving_find_from evolving_DeathRecipientList_remove : evolve.

Lemma evolving_clearReference (j : ptr) : evolving (clearReference j).
Proof. unfold clearReference. evolve. Qed.

Lemma evolving_release_jdr (j : ptr) : evolving (release_jdr j).
Proof. unfold release_jdr. evolve. Qed.

#[local] Hint Resolve evolving_clearReference evolving_release_jdr : evolve.

Lemma evolving_javaObjectForIBinder (E : Env) (val : option IBinder) :
  evolving (javaObjectForIBinder E val).
Proof.
  unfold javaObjectForIBinder, javaObjectForIBinder_getInstance,
    javaObjectForIBinder_settle, new_BinderProxyNativeData, new_DeathRecipientList.
  evolve.
Qed.

(** A new recipient lands at the address just allocated, registered with
    a list that exists. *)
Lemma evolving_new_JavaDeathRecipient (object : objid) (drl : option ptr) :
  evolving (new_JavaDeathRecipient object drl).
Proof.
  intros st. unfold new_JavaDeathRecipient, DeathRecipientList_add, gcIfManyNewRefs.
  mstep. destruct drl as [l|]; mstep; [|reflexivity].
  destruct (deathLists st !! l) as [ls|] eqn:Hl; mstep; [|reflexivity].
  match goal with
  | |- context [if ?c then _ else _] => destruct c
  end; simpl.
  all: split; simpl;
    [ lia
    | intros ? ?; rewrite ?lookup_insert_is_Some'; auto
    | intros ?; reflexivity
    | intros j r Hfound; destruct (decide (j = nextPtr st)) as [->|Hne];
      [ rewrite lookup_insert_eq in Hfound; injection Hfound as <-; right; simpl;
        split; [lia|rewrite lookup_insert_eq; eauto]
      | rewrite lookup_insert_ne in Hfound by congruence; left; exact Hfound ] ].
Qed.

#[local] Hint Resolve evolving_javaObjectForIBinder evolving_new_JavaDeathRecipient : evolve.

Lemma evolving_linkToDeath (E : Env) (obj : objid) (recipient : jobject) (flags : Z) :
  evolving (android_os_BinderProxy_linkToDeath E obj recipient flags).
Proof. unfold android_os_BinderProxy_linkToDeath, jniThrowNullPointerException. evolve. Qed.

Lemma evolving_unlinkToDeath (E : Env) (obj : objid) (recipient : jobject) (flags : Z) :
  evolving (android_os_BinderProxy_unlinkToDeath E obj recipient flags).
Proof.
  unfold android_os_BinderProxy_unlinkToDeath, jniThrowNullPointerException,
    DeathRecipientList_find.
  evolve.
Qed.

Lemma evolving_report_exception (E : Env) (e : jthrowable) (msg : string) :
  evolving (report_exception E e msg).
Proof.
  intros st. pose proof (report_exception_spec E e msg st) as Hrep.
  destruct (thr_isError e).
  - destruct Hrep as (k & st' & -> & _ & Hsame). exact Hsame.
  - destruct Hrep as (tr & -> & Hsame). split; simpl; auto.
Qed.

#[local] Hint Resolve evolving_report_exception : evolve.

Lemma evolving_ibinderForJavaObject (obj : jobject) : evolving (ibinderForJavaObject obj).
Proof.
  unfold ibinderForJavaObject, JavaBBinderHolder_get, new_JavaBBinder. evolve.
Qed.

Lemma evolving_transact (E : Env) (obj : objid) (code : Z) (dataObj replyObj : jobject)
    (flags : Z) :
  evolving (android_os_BinderProxy_transact E obj code dataObj replyObj flags).
Proof.
  unfold android_os_BinderProxy_transact, parcelForJavaObject, jniThrowNullPointerException.
  evolve.
Qed.

Lemma evolving_onTransact (E : Env) (mObject : objid) (code flags : Z) :
  evolving (onTransact E mObject code flags).
Proof.
  unfold onTransact, set_dalvik_blockguard_policy, call_void. evolve.
Qed.

#[local] Hint Resolve evolving_ibinderForJavaObject evolving_transact evolving_onTransact
  evolving_linkToDeath evolving_unlinkToDeath : evolve.

Lemma evolving_run_op_other (E : Env) (op : Op) :
  (forall j, op <> OpBinderDied j) -> evolving (run_op E op).
Proof.
  intros Hop. destruct op; simpl; try solve [evolve].
  exfalso. eapply Hop. reflexivity.
Qed.

Lemma notices_to_cons (j : ptr) (e : Event) (h : list Event) :
  notices_to j (e :: h) =
    (match e with
     | EvSendDeathNotice j' _ => if bool_decide (j' = j) then 1 else 0
     | _ => 0
     end) + notices_to j h.
Proof.
  unfold notices_to. simpl. destruct e; try reflexivity.
  destruct (bool_decide (jdr = j)); reflexivity.
Qed.

(** What [binderDied] does to a recipient that still holds its strong
    reference and whose list is alive: one notice goes out; then either the
    process ends while the failure of the callback is reported, or the
    call returns with the strong reference turned into a weak one. *)
Lemma binderDied_run (E : Env) (j : ptr) (st : State) (r : JavaDeathRecipient) (o : objid) :
  deathRecipients st !! j = Some r ->
  jdr_mObject r = Some o ->
  is_Some (deathLists st !! jdr_mList r) ->
  (exists tr p,
      binderDied E j st =
        Ret tt (set_deathRecipients
                  (<[j := {| jdr_mObject := None; jdr_mObjectWeak := Some o;
                             jdr_mList := jdr_mList r |}]> (deathRecipients st))
                  (set_pending p (set_trace tr st)))
      /\ forall j', notices_to j' tr = notices_to j' (EvSendDeathNotice j o :: trace st))
  \/ (exists k st',
      binderDied E j st = Abort k st'
      /\ forall j', notices_to j' (trace st') = notices_to j' (EvSendDeathNotice j o :: trace st)).
Proof.
  intros Hj Ho [ls Hls]. unfold binderDied, get_jdr. mstep. rewrite Hj. mstep.
  rewrite Ho. mstep.
  assert (Hcase : exists p, (match java_sendDeathNotice E (trace st) o with
                             | Some e => Some e | None => pending st end) = p) by eauto.
  destruct (java_sendDeathNotice E (trace st) o) as [e|] eqn:Hsend; mstep;
    [|destruct (pending st) as [e|] eqn:Hp; mstep].
  3:{ rewrite Hls. left. exists (EvSendDeathNotice j o :: trace st), None.
      split; [|reflexivity].
      unfold set_deathRecipients, set_pending, set_trace. simpl. rewrite Hp. reflexivity. }
  all: match goal with
       | |- context [report_exception ?env ?x ?m ?s] =>
           pose proof (report_exception_spec env x m s) as Hrep;
           destruct (thr_isError x)
       end;
       [ destruct Hrep as (k & st' & Hrun & _ & Hsame); rewrite Hrun; right;
         exists k, st'; split; [reflexivity|exact Hsame]
       | destruct Hrep as (tr & Hrun & Hsame); rewrite Hrun; mstep; rewrite Hls; left;
         exists tr, None; split; [reflexivity|exact Hsame] ].
Qed.

(** The death of the peer, reported to recipient [j]: at most one notice
    goes out, and on return the strong reference has become a weak one. *)
Lemma binderDied_inv (E : Env) (j : ptr) (st : State) :
  death_inv st ->
  match binderDied E j st with
  | Ret _ st' => death_inv st'
  | Abort _ st' => forall j', notices_to j' (trace st') <= 1
  end.
Proof.
  intros Hinv. pose proof Hinv as [Ireg Istrong Ionce Ifresh].
  destruct (deathRecipients st !! j) as [r|] eqn:Hj.
  2:{ unfold binderDied, get_jdr. mstep. rewrite Hj. exact Ionce. }
  destruct (jdr_mObject r) as [o|] eqn:Ho.
  2:{ unfold binderDied, get_jdr. mstep. rewrite Hj. mstep. rewrite Ho. exact Hinv. }
  assert (Hzero : notices_to j (trace st) = 0).
  { eapply Istrong; [exact Hj|]. rewrite Ho. discriminate. }
  assert (Hcount : forall j', notices_to j' (EvSendDeathNotice j o :: trace st) <= 1).
  { intros j'. rewrite notices_to_cons. case_bool_decide as Heq.
    - subst j'. rewrite Hzero. lia.
    - specialize (Ionce j'). lia. }
  destruct (binderDied_run E j st r o Hj Ho (Ireg j r Hj))
    as [(tr & p & -> & Htr)|(k & st' & -> & Htr)].
  2:{ intros j'. rewrite Htr. apply Hcount. }
  split; simpl.
  - intros j' r' Hlook. destruct (decide (j = j')) as [<-|Hne].
    + rewrite lookup_insert_eq in Hlook. injection Hlook as <-. simpl. eauto.
    + rewrite lookup_insert_ne in Hlook by exact Hne. eapply Ireg. exact Hlook.
  - intros j' r' Hlook Hs. destruct (decide (j = j')) as [<-|Hne].
    + rewrite lookup_insert_eq in Hlook. injection Hlook as <-. simpl in Hs. congruence.
    + rewrite lookup_insert_ne in Hlook by exact Hne.
      rewrite Htr, notices_to_cons, bool_decide_eq_false_2 by exact Hne.
      simpl. eapply Istrong; eassumption.
  - intros j'. rewrite Htr. apply Hcount.
  - intros j' Hge. assert (Hne : j <> j').
    { intros Heq. subst j'. destruct (Ifresh j Hge) as [Hnone _]. congruence. }
    split.
    + rewrite lookup_insert_ne by exact Hne. apply Ifresh. exact Hge.
    + rewrite Htr, notices_to_cons, bool_decide_eq_false_2 by exact Hne.
      simpl. apply Ifresh. exact Hge.
Qed.

Lemma run_op_inv (E : Env) (op : Op) (st : State) :
  death_inv st ->
  match run_op E op st with
  | Ret _ st' => death_inv st'
  | Abort _ st' => forall j, notices_to j (trace st') <= 1
  end.
Proof.
  intros Hinv.
  destruct op as [val|obj|obj code dataObj replyObj flags|mObject code flags
                 |obj rcp flags|obj rcp flags|j].
  7:{ simpl. mstep. destruct (deathRecipients st !! j) eqn:Hj.
      - apply binderDied_inv. exact Hinv.
      - exact Hinv. }
  all: match goal with
       | |- match run_op ?env ?op ?s with _ => _ end =>
           assert (Hev : evolving (run_op env op))
             by (apply evolving_run_op_other; intros ?; discriminate);
           specialize (Hev s); destruct (run_op env op s) as [a st'|k st']
       end;
       [ eapply death_evolves_inv; eassumption
       | intros j; rewrite Hev; apply (di_once _ Hinv) ].
Qed.

Lemma run_ops_inv (E : Env) (ops : list Op) (st : State) :
  death_inv st ->
  match run_ops E ops st with
  | Ret _ st' => death_inv st'
  | Abort _ st' => forall j, notices_to j (trace st') <= 1
  end.
Proof.
  revert st. induction ops as [|op rest IH]; intros st Hinv; [exact Hinv|].
  simpl. unfold bind. pose proof (run_op_inv E op st Hinv) as Hop.
  destruct (run_op E op st) as [a st1|k st1]; [apply IH; exact Hop|exact Hop].
Qed.

(** C3: in every run of the process (resolutions, transactions in both
    directions, links, unlinks and death reports in any order) that starts
    from a state satisfying [death_inv], whatever the peers, the handlers
    and the callers do, no native recipient ever sends more than one death
    notice.  The first
    [binderDied] on a registered recipient that returns has sent exactly
    one notice and has turned the strong reference into a weak one, and
    a second [binderDied] on it does nothing at all. *)
Theorem death_notice_at_most_once (E : Env) (st : State) :
  death_inv st ->
  (forall ops j, notices_to j (trace (final_state (run_ops E ops st))) <= 1)
  /\ (forall j r o st1,
        deathRecipients st !! j = Some r ->
        jdr_mObject r = Some o ->
        binderDied E j st = Ret tt st1 ->
        deathRecipients st1 !! j
          = Some {| jdr_mObject := None; jdr_mObjectWeak := Some o;
                    jdr_mList := jdr_mList r |}
        /\ notices_to j (trace st1) = 1
        /\ binderDied E j st1 = Ret tt st1).
Proof.
  intros Hinv. split.
  - intros ops j. pose proof (run_ops_inv E ops st Hinv) as H.
    destruct (run_ops E ops st) as [a st'|k st']; simpl.
    + apply (di_once _ H).
    + apply H.
  - intros j r o st1 Hj Ho Hrun.
    destruct (binderDied_run E j st r o Hj Ho (di_registered _ Hinv j r Hj))
      as [(tr & p & Heq & Htr)|(k & st' & Heq & _)]; [|congruence].
    rewrite Heq in Hrun. injection Hrun as <-. simpl. split; [|split].
    + apply lookup_insert_eq.
    + rewrite Htr, notices_to_cons, bool_decide_eq_true_2 by reflexivity.
      rewrite (di_strong _ Hinv j r Hj); [reflexivity|]. rewrite Ho. discriminate.
    + unfold binderDied, get_jdr. mstep. rewrite lookup_insert_eq. reflexivity.
Qed.

Lemma death_inv_initial : death_inv initial_state.
Proof.
  split; simpl.
  - intros j r H. rewrite lookup_empty in H. discriminate H.
  - intros j r H. rewrite lookup_empty in H. discriminate H.
  - intros j. unfold notices_to. simpl. lia.
  - intros j _. split; [apply lookup_empty|reflexivity].
Qed.

Lemma death_inv_linked : death_inv linked_state.
Proof.
  pose proof (run_ops_inv reference_env
                [OpResolve (Some remote_binder); OpLinkToDeath 1 (Some 5) 0]
                initial_state death_inv_initial) as Hrun.
  assert (Heq : run_ops reference_env
                  [OpResolve (Some remote_binder); OpLinkToDeath 1 (Some 5) 0]
                  initial_state = Ret tt linked_state) by (vm_compute; reflexivity).
  rewrite Heq in Hrun. exact Hrun.
Qed.

Lemma death_notice_at_most_once_witness :
  notices_to 3 (trace (final_state
    (run_ops reference_env
       [OpResolve (Some remote_binder); OpLinkToDeath 1 (Some 5) 0;
        OpTransact 1 42 (Some 8) None 0; OpBinderDied 3; OpBinderDied 3;
        OpUnlinkToDeath 1 (Some 5) 0; OpDispatch 10 1 0; OpBinderDied 3]
       initial_state))) <= 1
  /\ deathRecipients notified_state !! 3
       = Some {| jdr_mObject := None; jdr_mObjectWeak := Some 5; jdr_mList := 2 |}
  /\ notices_to 3 (trace notified_state) = 1
  /\ binderDied reference_env 3 notified_state = Ret tt notified_state.
Proof.
  split.
  - apply (proj1 (death_notice_at_most_once reference_env initial_state death_inv_initial)).
  - apply (proj2 (death_notice_at_most_once reference_env linked_state death_inv_linked)
             3 {| jdr_mObject := Some 5; jdr_mObjectWeak := None; jdr_mList := 2 |} 5
             notified_state); vm_compute; reflexivity.
Defined.

(** Searching a list all of whose entries exist and one of which matches
    finds an entry of the list, without touching the state. *)
Lemma find_from_some (ls : list ptr) (recipient : jobject) (st : State) (j : ptr)
    (jd : JavaDeathRecipient) :
  (forall j', j' ∈ ls -> is_Some (deathRecipients st !! j')) ->
  j ∈ ls ->
  deathRecipients st !! j = Some jd ->
  matches (jheap st) jd recipient = true ->
  exists j0, j0 ∈ ls /\ find_from ls recipient st = Ret (Some j0) st.
Proof.
  intros Hall Hin Hj Hm. induction ls as [|x rest IH]; [inversion Hin|].
  simpl. unfold get_jdr. mstep.
  destruct (Hall x) as [xd Hx]; [left|]. rewrite Hx. mstep.
  destruct (matches (jheap st) xd recipient) eqn:Hmx.
  - exists x. split; [left|reflexivity].
  - apply elem_of_cons in Hin. destruct Hin as [->|Hin]; [congruence|].
    destruct IH as (j0 & Hj0 & Hrun); [|exact Hin|].
    + intros j' Hj'. apply Hall. right. exact Hj'.
    + exists j0. split; [right; exact Hj0|exact Hrun].
Qed.

(** C4: a recipient linked to a proxy with a remote target, notified of
    the death of the peer, is still found by unlinkToDeath through its weak
    reference as long as the caller's recipient object is alive; the
    channel answers DEAD_OBJECT for the dead peer and the call returns
    true.  No exception is raised, and the lists and recipients, the
    notified one in its weak form included, stay as they were. *)
Theorem unlinkToDeath_after_death (E : Env) (st st1 : State) (obj : objid) (nd : ptr)
    (d : BinderProxyNativeData) (target : IBinder) (drl : ptr) (ls : list ptr)
    (j : ptr) (jd : JavaDeathRecipient) (r : objid) (flags : Z) :
  objects (jheap st) !! obj = Some (JBinderProxy nd) ->
  proxyData st !! nd = Some d ->
  bp_mObject d = Some target ->
  localBinder target = false ->
  bp_mOrgue d = Some drl ->
  deathLists st !! drl = Some ls ->
  (forall j', j' ∈ ls ->
     exists jd', deathRecipients st !! j' = Some jd' /\ jdr_mList jd' = drl) ->
  j ∈ ls ->
  deathRecipients st !! j = Some jd ->
  jdr_mObject jd = Some r ->
  binderDied E j st = Ret tt st1 ->
  r ∉ collected (jheap st1) ->
  (forall j', fst (chan_unlinkToDeath E (trace st1) target j' flags) = DEAD_OBJECT) ->
  exists st2,
    android_os_BinderProxy_unlinkToDeath E obj (Some r) flags st1 = Ret true st2
    /\ pending st2 = pending st1
    /\ deathLists st2 = deathLists st1
    /\ deathRecipients st2 = deathRecipients st1
    /\ deathRecipients st2 !! j
       = Some {| jdr_mObject := None; jdr_mObjectWeak := Some r; jdr_mList := drl |}.
Proof.
  intros Hobj Hnd Htarget Hremote Horgue Hlist Hwf Hin Hj Hstrong Hdied Halive Hchan.
  destruct (Hwf j Hin) as (jd' & Hj' & Hjl). rewrite Hj in Hj'. injection Hj' as <-.
  destruct (binderDied_run E j st jd r Hj Hstrong) as [(tr & p & Heq & _)|(k & st' & Heq & _)];
    [rewrite Hjl, Hlist; eauto| |congruence].
  rewrite Heq in Hdied. injection Hdied as <-. rewrite Hjl in *. simpl in Halive.
  set (weak := {| jdr_mObject := None; jdr_mObjectWeak := Some r; jdr_mList := drl |}) in *.
  set (st1 := set_deathRecipients (<[j := weak]> (deathRecipients st))
                (set_pending p (set_trace tr st))) in *.
  assert (Hstored : forall j', j' ∈ ls ->
            exists jd', deathRecipients st1 !! j' = Some jd' /\ jdr_mList jd' = drl).
  { intros j' Hj'. simpl. destruct (decide (j = j')) as [<-|Hne].
    - exists weak. split; [apply lookup_insert_eq|reflexivity].
    - rewrite lookup_insert_ne by exact Hne. apply Hwf. exact Hj'. }
  destruct (find_from_some ls (Some r) st1 j weak) as (j0 & Hj0 & Hfind).
  { intros j' Hj'. destruct (Hstored j' Hj') as (x & Hx & _). eauto. }
  { exact Hin. }
  { simpl. apply lookup_insert_eq. }
  { unfold matches, NewLocalRef, IsSameObject. simpl.
    rewrite (bool_decide_eq_false_2 (r ∈ collected (jheap st))) by exact Halive.
    apply bool_decide_eq_true_2. reflexivity. }
  destruct (Hstored j0 Hj0) as (jd0 & Hjd0 & Hl0).
  assert (Hweak : deathRecipients st1 !! j = Some weak) by apply lookup_insert_eq.
  change (objects (jheap st1) !! obj = Some (JBinderProxy nd)) in Hobj.
  change (proxyData st1 !! nd = Some d) in Hnd.
  change (deathLists st1 !! drl = Some ls) in Hlist.
  clearbody st1.
  exists (set_trace (EvUnlinkToDeath (ib_ptr target) j0 flags :: trace st1) st1).
  split; [|repeat split; exact Hweak].
  unfold android_os_BinderProxy_unlinkToDeath, getBPNativeData, DeathRecipientList_find.
  mstep. rewrite Hobj. mstep. rewrite Hnd. mstep. rewrite Htarget, Hremote. mstep.
  rewrite Horgue. mstep. rewrite Hlist. mstep. rewrite Hfind. mstep.
  specialize (Hchan j0).
  destruct (chan_unlinkToDeath E (trace st1) target j0 flags) as [err dr].
  simpl in Hchan. subst err.
  rewrite (bool_decide_eq_false_2 (DEAD_OBJECT = NO_ERROR)) by discriminate.
  unfold release_jdr. mstep. rewrite Hjd0. mstep. rewrite Hl0, Hlist. simpl.
  rewrite bool_decide_eq_true_2 by exact Hj0. reflexivity.
Qed.

Lemma unlinkToDeath_after_death_witness :
  exists st2,
    android_os_BinderProxy_unlinkToDeath reference_env 1 (Some 5) 0 notified_state
      = Ret true st2
    /\ pending st2 = pending notified_state
    /\ deathLists st2 = deathLists notified_state
    /\ deathRecipients st2 = deathRecipients notified_state
    /\ deathRecipients st2 !! 3
       = Some {| jdr_mObject := None; jdr_mObjectWeak := Some 5; jdr_mList := 2 |}.
Proof.
  apply (unlinkToDeath_after_death reference_env linked_state notified_state 1 1
           {| bp_mObject := Some remote_binder; bp_mOrgue := Some 2 |}
           remote_binder 2 [3] 3
           {| jdr_mObject := Some 5; jdr_mObjectWeak := None; jdr_mList := 2 |} 5 0);
    try (vm_compute; reflexivity).
  - intros j' Hin. apply list_elem_of_singleton in Hin. subst j'.
    eexists. split; vm_compute; reflexivity.
  - apply list_elem_of_singleton. reflexivity.
  - apply not_elem_of_empty.
Defined.

(** What a call of [javaObjectForIBinder] does when BinderProxy.getInstance
    returns the proxy object [o], whose native node is [actual]: the two
    halves of the critical section, and the state they end in. *)
Lemma javaObjectForIBinder_returned (E : Env) (st : State) (v : IBinder)
    (o : objid) (actual : ptr) :
  let nd := default (nextPtr st) (gNativeDataCache st) in
  let spare := match gNativeDataCache st with Some _ => 0 | None => 1 end in
  let nodes := match gNativeDataCache st with
               | Some _ => proxyData st
               | None => <[nd := {| bp_mObject := None; bp_mOrgue := None |}]> (proxyData st)
               end in
  let answer := java_getInstance E (trace st) nd (ib_ptr v) (jheap st) in
  pending st = None ->
  fst answer = Returned (Some o) ->
  objects (snd answer) !! o = Some (JBinderProxy actual) ->
  exists mid st',
    javaObjectForIBinder_getInstance E v st = Ret (nd, Some o) mid
    /\ javaObjectForIBinder_settle v nd (Some o) mid = Ret (Some o) st'
    /\ jheap mid = snd answer
    /\ jheap st' = snd answer
    /\ pending st' = None
    /\ (actual <> nd ->
          gNativeDataCache st' = Some nd
          /\ nextPtr st' = spare + nextPtr st
          /\ proxyData st' = nodes
          /\ gNumProxies st' = gNumProxies st)
    /\ (actual = nd ->
          gNativeDataCache st' = None
          /\ nextPtr st' = S (spare + nextPtr st)
          /\ proxyData st' =
               <[nd := {| bp_mObject := Some v; bp_mOrgue := Some (spare + nextPtr st) |}]> nodes
          /\ gNumProxies st' = wrap_i32 (gNumProxies st + 1)).
Proof.
  intros nd spare nodes answer Hpend Hret Hobj.
  assert (Hhalf1 : exists mid,
            javaObjectForIBinder_getInstance E v st = Ret (nd, Some o) mid
            /\ jheap mid = snd answer /\ pending mid = None
            /\ gNativeDataCache mid = gNativeDataCache st
            /\ nextPtr mid = spare + nextPtr st
            /\ proxyData mid = nodes
            /\ gNumProxies mid = gNumProxies st).
  { unfold javaObjectForIBinder_getInstance, new_BinderProxyNativeData.
    subst nd spare nodes answer. mstep.
    destruct (gNativeDataCache st) as [c|] eqn:Hcache; simpl in Hret, Hobj; mstep;
      rewrite Hret; mstep; eexists; (split; [reflexivity|]); repeat split;
      simpl; assumption. }
  destruct Hhalf1 as (mid & Hhalf1 & Hjh & Hpm & Hcm & Hnm & Hdm & Hgm).
  exists mid. rewrite <- Hjh in Hobj.
  assert (Hhalf2 : exists st',
            javaObjectForIBinder_settle v nd (Some o) mid = Ret (Some o) st'
            /\ jheap st' = jheap mid /\ pending st' = None
            /\ (actual <> nd ->
                  gNativeDataCache st' = Some nd /\ nextPtr st' = nextPtr mid
                  /\ proxyData st' = proxyData mid /\ gNumProxies st' = gNumProxies mid)
            /\ (actual = nd ->
                  gNativeDataCache st' = None /\ nextPtr st' = S (nextPtr mid)
                  /\ proxyData st' =
                       <[nd := {| bp_mObject := Some v; bp_mOrgue := Some (nextPtr mid) |}]>
                         (proxyData mid)
                  /\ gNumProxies st' = wrap_i32 (gNumProxies mid + 1))).
  { unfold javaObjectForIBinder_settle, new_DeathRecipientList, getBPNativeData.
    mstep. rewrite Hpm. mstep. rewrite Hobj. mstep.
    case_bool_decide as Hsame; mstep;
      [ match goal with
        | |- context [if ?b then _ else _] => destruct b
        end; mstep
      | ];
      eexists; (split; [reflexivity|]); (split; [reflexivity|]); (split; [exact Hpm|]);
      split; intros Hcase; try congruence; repeat split. }
  destruct Hhalf2 as (st' & Hhalf2 & Hjh' & Hp' & Hexisting & Hnew).
  exists st'. rewrite Hjh', Hjh. repeat split; try assumption.
  - apply Hexisting. assumption.
  - destruct (Hexisting H) as (_ & Hn & _). rewrite Hn. exact Hnm.
  - destruct (Hexisting H) as (_ & _ & Hd & _). rewrite Hd. exact Hdm.
  - destruct (Hexisting H) as (_ & _ & _ & Hg). rewrite Hg. exact Hgm.
  - apply Hnew. assumption.
  - destruct (Hnew H) as (_ & Hn & _). rewrite Hn, Hnm. reflexivity.
  - destruct (Hnew H) as (_ & _ & Hd & _). rewrite Hd, Hdm, Hnm. reflexivity.
  - destruct (Hnew H) as (_ & _ & _ & Hg). rewrite Hg, Hgm. reflexivity.
Qed.

(** C8: the node handed to BinderProxy.getInstance is the cached one when
    there is one, and is allocated only when the cache is empty.  When the
    proxy that comes back carries another node (an existing proxy was
    found), the handed node is what the cache holds afterwards: the cached
    node stays in place with no allocation at all, or the node just
    allocated becomes the cache.  When the proxy carries the handed node (a
    new proxy was built around it), the cache is empty afterwards, the node
    belongs to the proxy, and nothing but the proxy's death-recipient list
    has been allocated besides: no replacement node exists until a later
    call finds the cache empty. *)
Theorem native_data_cache_discipline (E : Env) (st : State) (v : IBinder)
    (o : objid) (actual : ptr) :
  let nd := default (nextPtr st) (gNativeDataCache st) in
  let spare := match gNativeDataCache st with Some _ => 0 | None => 1 end in
  let nodes := match gNativeDataCache st with
               | Some _ => proxyData st
               | None => <[nd := {| bp_mObject := None; bp_mOrgue := None |}]> (proxyData st)
               end in
  let answer := java_getInstance E (trace st) nd (ib_ptr v) (jheap st) in
  checkSubclass v = false ->
  pending st = None ->
  fst answer = Returned (Some o) ->
  objects (snd answer) !! o = Some (JBinderProxy actual) ->
  exists st',
    javaObjectForIBinder E (Some v) st = Ret (Some o) st'
    /\ (actual <> nd ->
          gNativeDataCache st' = Some nd
          /\ nextPtr st' = spare + nextPtr st
          /\ proxyData st' = nodes
          /\ gNumProxies st' = gNumProxies st)
    /\ (actual = nd ->
          gNativeDataCache st' = None
          /\ nextPtr st' = S (spare + nextPtr st)
          /\ proxyData st' =
               <[nd := {| bp_mObject := Some v; bp_mOrgue := Some (spare + nextPtr st) |}]> nodes
          /\ gNumProxies st' = wrap_i32 (gNumProxies st + 1)).
Proof.
  intros nd spare nodes answer Hsub Hpend Hret Hobj.
  destruct (javaObjectForIBinder_returned E st v o actual Hpend Hret Hobj)
    as (mid & st' & Hhalf1 & Hhalf2 & _ & _ & _ & Hexisting & Hnew).
  exists st'. split; [|split; assumption].
  unfold javaObjectForIBinder, bind. rewrite Hsub, Hhalf1. exact Hhalf2.
Qed.

Lemma native_data_cache_discipline_witness :
  (exists st', javaObjectForIBinder reference_env (Some remote_binder) initial_state
                 = Ret (Some 1) st'
               /\ gNativeDataCache st' = None /\ nextPtr st' = 3)
  /\ (exists st', javaObjectForIBinder reference_env (Some remote_binder)
                    (resolved remote_binder) = Ret (Some 1) st'
                  /\ gNativeDataCache st' = Some 3 /\ nextPtr st' = 4).
Proof.
  split.
  - destruct (native_data_cache_discipline reference_env initial_state remote_binder 1 1)
      as (st' & Hrun & _ & Hnew); try (vm_compute; reflexivity).
    exists st'. split; [exact Hrun|].
    destruct (Hnew eq_refl) as (Hc & Hn & _). split; [exact Hc|exact Hn].
  - destruct (native_data_cache_discipline reference_env (resolved remote_binder)
                remote_binder 1 1)
      as (st' & Hrun & Hhit & _); try (vm_compute; reflexivity).
    exists st'. split; [exact Hrun|].
    destruct Hhit as (Hc & Hn & _); [vm_compute; discriminate|].
    split; [exact Hc|exact Hn].
Defined.

(** C2: exposing a Java Binder through [ibinderForJavaObject] yields a
    JavaBBinder, and resolving that binder with [javaObjectForIBinder]
    gives back the Binder object itself and changes nothing.  Across both
    calls the Java heap (proxy objects and proxy table), the node cache,
    the proxy nodes and the proxy count are the ones before: no proxy is
    created and BinderProxy.getInstance is never called. *)
Theorem local_object_round_trip (st : State) (o : objid) (jbh : ptr)
    (mBinder : option IBinder) :
  objects (jheap st) !! o = Some (JBinder jbh) ->
  holders st !! jbh = Some mBinder ->
  (forall b, mBinder = Some b -> ib_class b = JavaBBinderC o) ->
  exists b st1,
    ibinderForJavaObject (Some o) st = Ret (Some b) st1
    /\ checkSubclass b = true
    /\ (forall E, javaObjectForIBinder E (Some b) st1 = Ret (Some o) st1)
    /\ jheap st1 = jheap st
    /\ gNativeDataCache st1 = gNativeDataCache st
    /\ proxyData st1 = proxyData st
    /\ gNumProxies st1 = gNumProxies st
    /\ (forall nd k, EvGetInstance nd k ∈ trace st1 -> EvGetInstance nd k ∈ trace st).
Proof.
  intros Hobj Hholder Hown.
  unfold ibinderForJavaObject, JavaBBinderHolder_get, new_JavaBBinder, gcIfManyNewRefs.
  mstep. rewrite Hobj. mstep. rewrite Hholder. mstep.
  assert (Hback : forall (b : IBinder) (s : State), ib_class b = JavaBBinderC o ->
            checkSubclass b = true
            /\ forall E, javaObjectForIBinder E (Some b) s = Ret (Some o) s).
  { intros b s Hc. unfold javaObjectForIBinder, checkSubclass, JavaBBinder_object.
    rewrite Hc. split; reflexivity. }
  destruct mBinder as [b|]; mstep.
  - exists b, st. destruct (Hback b st (Hown b eq_refl)) as [Hsub Hres].
    repeat split; auto.
  - match goal with
    | |- context [if ?c then _ else _] => destruct c
    end; mstep; do 2 eexists; (split; [reflexivity|]);
      (split; [reflexivity|]); (split; [intros E; reflexivity|]);
      repeat split; simpl; auto.
    intros nd k Hin. apply elem_of_cons in Hin. destruct Hin as [Hin|Hin];
      [discriminate Hin|exact Hin].
Qed.

Lemma local_object_round_trip_witness :
  exists b st1,
    ibinderForJavaObject (Some 10) binder_state = Ret (Some b) st1
    /\ checkSubclass b = true
    /\ (forall E, javaObjectForIBinder E (Some b) st1 = Ret (Some 10) st1)
    /\ jheap st1 = jheap binder_state
    /\ gNativeDataCache st1 = gNativeDataCache binder_state
    /\ proxyData st1 = proxyData binder_state
    /\ gNumProxies st1 = gNumProxies binder_state
    /\ (forall nd k, EvGetInstance nd k ∈ trace st1 ->
                     EvGetInstance nd k ∈ trace binder_state).
Proof.
  apply (local_object_round_trip binder_state 10 50 None).
  - vm_compute; reflexivity.
  - vm_compute; reflexivity.
  - intros b H. discriminate H.
Defined.

(** *** Proxy uniquing *)

(** [lookup_live] reads the head of the live entries. *)
Lemma lookup_live_spec (h : JavaHeap) (k : ptr) :
  lookup_live (collected h) k (sProxyMap h)
  = match live_entries h k with [] => None | e :: _ => Some e.2 end.
Proof.
  unfold live_entries. induction (sProxyMap h) as [|[k' p] tbl IH]; [reflexivity|].
  simpl. destruct (bool_decide (k' = k) && negb (bool_decide (p ∈ collected h)));
    [reflexivity|exact IH].
Qed.

Lemma live_entries_key (h : JavaHeap) (k : ptr) (e : ptr * objid) :
  In e (live_entries h k) -> e.1 = k /\ e ∈ sProxyMap h.
Proof.
  unfold live_entries. intros Hin. apply filter_In in Hin. destruct Hin as [Hin Hf].
  apply andb_prop in Hf. destruct Hf as [Hk _]. apply bool_decide_eq_true in Hk.
  split; [exact Hk|]. apply list_elem_of_In. exact Hin.
Qed.

(** One resolution from a good state, with the spec-modelled table: both
    halves of the critical section run, the result is the proxy of the one
    live entry of the binder, and the state is good again. *)
Lemma resolve_once (E : Env) (st : State) (v : IBinder) :
  (forall h nd k jh, java_getInstance E h nd k jh = BinderProxy_getInstance nd k jh) ->
  proxy_inv st ->
  exists nd p mid st',
    javaObjectForIBinder_getInstance E v st = Ret (nd, Some p) mid
    /\ javaObjectForIBinder_settle v nd (Some p) mid = Ret (Some p) st'
    /\ jheap mid = jheap st'
    /\ proxy_inv st'
    /\ live_entries (jheap st') (ib_ptr v) = [(ib_ptr v, p)]
    /\ (forall q, live_entries (jheap st) (ib_ptr v) = [(ib_ptr v, q)] -> q = p).
Proof.
  intros HgI [Ipend Icache Iowned Iobj Itable Icoll Iuniq].
  set (nd := default (nextPtr st) (gNativeDataCache st)).
  assert (Hnd_lt : nd < match gNativeDataCache st with Some _ => 0 | None => 1 end + nextPtr st).
  { subst nd. destruct (gNativeDataCache st) as [c|] eqn:Hc; simpl; [|lia].
    apply Icache. reflexivity. }
  assert (Hnd_free : forall o nd', objects (jheap st) !! o = Some (JBinderProxy nd') -> nd' <> nd).
  { intros o nd' Ho. destruct (Iowned o nd' Ho) as [Hlt Hne]. subst nd.
    destruct (gNativeDataCache st) as [c|]; simpl; [congruence|lia]. }
  pose proof (lookup_live_spec (jheap st) (ib_ptr v)) as Hspec.
  pose proof (javaObjectForIBinder_returned E st v) as Hrun. simpl in Hrun. fold nd in Hrun.
  rewrite HgI in Hrun. unfold BinderProxy_getInstance in Hrun.
  destruct (live_entries (jheap st) (ib_ptr v)) as [|[k p] rest] eqn:Hlive.
  - (* no live entry: a proxy is built around the node *)
    rewrite Hspec in Hrun. simpl in Hrun.
    destruct (Hrun (nextObj (jheap st)) nd Ipend eq_refl) as
      (mid & st' & H1 & H2 & Hjm & Hjs & Hp & _ & Hnew); [apply lookup_insert_eq|].
    destruct (Hnew eq_refl) as (Hc' & Hn' & _).
    assert (Hfresh : nextObj (jheap st) ∉ collected (jheap st)).
    { intros Hin. apply Icoll in Hin. lia. }
    assert (Hentries : forall k,
      live_entries (jheap st') k =
        if bool_decide (ib_ptr v = k) then (ib_ptr v, nextObj (jheap st)) :: live_entries (jheap st) k
        else live_entries (jheap st) k).
    { intros k. rewrite Hjs. unfold live_entries. simpl.
      rewrite (bool_decide_eq_false_2 _ Hfresh). simpl.
      destruct (bool_decide (ib_ptr v = k)); reflexivity. }
    exists nd, (nextObj (jheap st)), mid, st'.
    split; [exact H1|]. split; [exact H2|]. split; [congruence|]. split; [|split].
    + split.
      * exact Hp.
      * intros c Hc. congruence.
      * intros o nd' Ho. rewrite Hjs in Ho. simpl in Ho. rewrite Hc', Hn'.
        split; [|discriminate].
        destruct (decide (nextObj (jheap st) = o)) as [<-|Hne].
        -- rewrite lookup_insert_eq in Ho. injection Ho as <-. lia.
        -- rewrite lookup_insert_ne in Ho by exact Hne.
           destruct (Iowned o nd' Ho) as [Hlt _]. lia.
      * intros o Ho. rewrite Hjs in *. simpl in *.
        apply lookup_insert_is_Some' in Ho. destruct Ho as [<-|Ho]; [lia|].
        apply Iobj in Ho. lia.
      * intros k p Hin. rewrite Hjs in *. simpl in *.
        apply elem_of_cons in Hin. destruct Hin as [Heq|Hin].
        -- injection Heq as -> ->. exists nd. apply lookup_insert_eq.
        -- destruct (Itable k p Hin) as [nd' Hp'].
           exists nd'. rewrite lookup_insert_ne; [exact Hp'|].
           assert (p < nextObj (jheap st)) by (apply Iobj; eauto). lia.
      * intros o Ho. rewrite Hjs in *. simpl in *. apply Icoll in Ho. lia.
      * intros k. rewrite Hentries. case_bool_decide as Hk.
        -- subst k. rewrite Hlive. simpl. lia.
        -- apply Iuniq.
    + rewrite Hentries, bool_decide_eq_true_2 by reflexivity. rewrite Hlive. reflexivity.
    + intros q Hq. discriminate Hq.
  - (* a live entry: its proxy comes back, the node is kept *)
    destruct (live_entries_key (jheap st) (ib_ptr v) (k, p)) as [Hk Hin].
    { rewrite Hlive. left. reflexivity. }
    simpl in Hk. subst k.
    assert (Hrest : rest = []).
    { specialize (Iuniq (ib_ptr v)). rewrite Hlive in Iuniq. simpl in Iuniq.
      destruct rest; [reflexivity|simpl in Iuniq; lia]. }
    subst rest. rewrite Hspec in Hrun. simpl in Hrun.
    destruct (Itable _ _ Hin) as [actual Hactual].
    destruct (Hrun p actual Ipend eq_refl Hactual) as
      (mid & st' & H1 & H2 & Hjm & Hjs & Hp & Hexisting & _).
    destruct Hexisting as (Hc' & Hn' & _); [eapply Hnd_free; exact Hactual|].
    exists nd, p, mid, st'.
    split; [exact H1|]. split; [exact H2|]. split; [congruence|]. split; [|split].
    + split; rewrite ?Hjs; try assumption.
      * intros c Hc. rewrite Hc' in Hc. injection Hc as <-. rewrite Hn'. exact Hnd_lt.
      * intros o nd' Ho. rewrite Hc', Hn'. destruct (Iowned o nd' Ho) as [Hlt _].
        split; [lia|]. intros Heq. injection Heq as Heq.
        eapply Hnd_free; [exact Ho|]. congruence.
    + rewrite Hjs. exact Hlive.
    + intros q Hq. congruence.
Qed.

Lemma resolve_whole (E : Env) (st : State) (v : IBinder) :
  (forall h nd k jh, java_getInstance E h nd k jh = BinderProxy_getInstance nd k jh) ->
  proxy_inv st ->
  checkSubclass v = false ->
  exists p st',
    javaObjectForIBinder E (Some v) st = Ret (Some p) st'
    /\ proxy_inv st'
    /\ live_entries (jheap st') (ib_ptr v) = [(ib_ptr v, p)]
    /\ (forall q, live_entries (jheap st) (ib_ptr v) = [(ib_ptr v, q)] -> q = p).
Proof.
  intros HgI Hinv Hsub.
  destruct (resolve_once E st v HgI Hinv) as (nd & p & mid & st' & H1 & H2 & _ & Hinv' & Hl & Hu).
  exists p, st'. split; [|auto].
  unfold javaObjectForIBinder, bind. rewrite Hsub, H1. exact H2.
Qed.

Lemma resolve_repeatedly_S (E : Env) (v : IBinder) (n : nat) (st : State) :
  resolve_repeatedly E v (S n) st =
    match javaObjectForIBinder E (Some v) st with
    | Ret o st1 =>
        match resolve_repeatedly E v n st1 with
        | Ret os st' => Ret (o :: os) st'
        | Abort k s => Abort k s
        end
    | Abort k s => Abort k s
    end.
Proof. reflexivity. Qed.

Lemma resolve_repeatedly_same (E : Env) (v : IBinder) (n : nat) (st : State) :
  (forall h nd k jh, java_getInstance E h nd k jh = BinderProxy_getInstance nd k jh) ->
  proxy_inv st ->
  checkSubclass v = false ->
  exists p st',
    resolve_repeatedly E v (S n) st = Ret (replicate (S n) (Some p)) st'
    /\ live_entries (jheap st') (ib_ptr v) = [(ib_ptr v, p)]
    /\ (forall q, live_entries (jheap st) (ib_ptr v) = [(ib_ptr v, q)] -> q = p).
Proof.
  intros HgI Hinv Hsub. revert st Hinv. induction n as [|n IH]; intros st Hinv.
  - destruct (resolve_whole E st v HgI Hinv Hsub) as (p & st' & Hrun & _ & Hl & Hu).
    exists p, st'. split; [|auto]. rewrite resolve_repeatedly_S, Hrun. reflexivity.
  - destruct (resolve_whole E st v HgI Hinv Hsub) as (p & st1 & Hrun & Hinv1 & Hl & Hu).
    destruct (IH st1 Hinv1) as (p' & st' & Hrest & Hl' & Hu').
    assert (p' = p) by (symmetry; apply Hu'; exact Hl). subst p'.
    exists p, st'. split; [|auto].
    rewrite resolve_repeatedly_S, Hrun, Hrest. reflexivity.
Qed.

(** *** Threads *)

Lemma config_inv_spawn (E : Env) (v : IBinder) (st : State) (n : nat) :
  proxy_inv st -> config_inv E v (spawn st n).
Proof.
  intros Hinv. split; simpl.
  - reflexivity.
  - split; [exact Hinv|]. apply Forall_replicate. left. reflexivity.
  - intros j r Hj. apply lookup_replicate in Hj. destruct Hj as [Hj _]. discriminate Hj.
Qed.

Lemma not_idle_locked : ~ idle_or_done PLocked.
Proof. intros [H|[r H]]; discriminate H. Qed.

Lemma not_idle_called (nd : ptr) (obj : jobject) : ~ idle_or_done (PCalled nd obj).
Proof. intros [H|[r H]]; discriminate H. Qed.

(** A thread inside the critical section is the owner of the lock. *)
Lemma inside_is_owner (E : Env) (v : IBinder) (c : Config) (i : nat) (pc : ThreadPc) :
  config_inv E v c ->
  threads c !! i = Some pc ->
  ~ idle_or_done pc ->
  lock c = Some i.
Proof.
  intros [_ Hlock _] Hi Hpc. destruct (lock c) as [o|].
  - destruct (decide (i = o)) as [->|Hne]; [reflexivity|].
    destruct Hlock as [Hothers _]. exfalso. apply Hpc. eapply Hothers; eassumption.
  - destruct Hlock as [_ Hall]. exfalso. apply Hpc.
    eapply Forall_lookup_1; eassumption.
Qed.

Lemma thread_step_inv (E : Env) (v : IBinder) (c : Config) (i : nat) :
  (forall h nd k jh, java_getInstance E h nd k jh = BinderProxy_getInstance nd k jh) ->
  config_inv E v c ->
  config_inv E v (thread_step E v c i).
Proof.
  intros HgI Hinv. pose proof Hinv as [Halive Hlock Hdone].
  unfold thread_step. rewrite Halive.
  destruct (threads c !! i) as [[| |nd obj|r]|] eqn:Hi; try exact Hinv.
  - (* taking the lock *)
    destruct (lock c) as [o|] eqn:Ho; [exact Hinv|].
    destruct Hlock as [Hgood Hall]. split; simpl.
    + reflexivity.
    + split.
      * intros j pc Hne Hj. rewrite list_lookup_insert_ne in Hj by congruence.
        eapply Forall_lookup_1; eassumption.
      * left. split; [|exact Hgood].
        apply list_lookup_insert_eq. eapply lookup_lt_Some. exact Hi.
    + intros j r Hj. apply Hdone with j.
      destruct (decide (i = j)) as [->|Hne].
      * rewrite list_lookup_insert_eq in Hj by (eapply lookup_lt_Some; exact Hi).
        discriminate Hj.
      * rewrite list_lookup_insert_ne in Hj by exact Hne. exact Hj.
  - (* calling getInstance *)
    pose proof (inside_is_owner E v c i PLocked Hinv Hi not_idle_locked) as Ho.
    rewrite Ho in Hlock. destruct Hlock as [Hothers [[_ Hgood]|(b & nd & obj & Hc & _)]];
      [|congruence].
    destruct (resolve_once E (shared c) v HgI Hgood)
      as (nd & p & mid & st' & H1 & H2 & Hjh & Hinv' & Hl & Hu).
    rewrite H1. split; simpl.
    + reflexivity.
    + rewrite Ho. split.
      * intros j pc Hne Hj. rewrite list_lookup_insert_ne in Hj by congruence.
        eapply Hothers; eassumption.
      * right. exists (shared c), nd, (Some p). split; [|split; assumption].
        apply list_lookup_insert_eq. eapply lookup_lt_Some. exact Hi.
    + intros j r Hj.
      destruct (decide (i = j)) as [->|Hne].
      * rewrite list_lookup_insert_eq in Hj by (eapply lookup_lt_Some; exact Hi).
        discriminate Hj.
      * rewrite list_lookup_insert_ne in Hj by exact Hne.
        destruct (Hdone j r Hj) as (q & -> & Hq).
        exists q. split; [reflexivity|]. rewrite Hjh, Hl, (Hu q Hq). reflexivity.
  - (* settling and leaving *)
    pose proof (inside_is_owner E v c i _ Hinv Hi (not_idle_called nd obj)) as Ho.
    rewrite Ho in Hlock.
    destruct Hlock as [Hothers [[Hc _]|(base & nd' & obj' & Hc & Hgood & Hhalf)]];
      [congruence|].
    rewrite Hi in Hc. injection Hc as <- <-.
    destruct (resolve_once E base v HgI Hgood)
      as (nd2 & p & mid & st' & H1 & H2 & Hjh & Hinv' & Hl & Hu).
    rewrite Hhalf in H1. injection H1 as -> -> Hmid.
    rewrite Hmid, H2. split; simpl.
    + reflexivity.
    + split; [exact Hinv'|]. apply Forall_lookup_2. intros j pc Hj.
      destruct (decide (i = j)) as [->|Hne].
      * rewrite list_lookup_insert_eq in Hj by (eapply lookup_lt_Some; exact Hi).
        injection Hj as <-. right. eauto.
      * rewrite list_lookup_insert_ne in Hj by exact Hne. eapply Hothers; [|exact Hj]. congruence.
    + intros j r Hj.
      destruct (decide (i = j)) as [->|Hne].
      * rewrite list_lookup_insert_eq in Hj by (eapply lookup_lt_Some; exact Hi).
        injection Hj as <-. exists p. split; [reflexivity|exact Hl].
      * rewrite list_lookup_insert_ne in Hj by exact Hne.
        destruct (Hdone j r Hj) as (q & -> & Hq).
        exists q. split; [reflexivity|]. rewrite <- Hjh, <- Hmid. exact Hq.
Qed.

Lemma run_schedule_inv (E : Env) (v : IBinder) (sched : list nat) (c : Config) :
  (forall h nd k jh, java_getInstance E h nd k jh = BinderProxy_getInstance nd k jh) ->
  config_inv E v c ->
  config_inv E v (run_schedule E v sched c).
Proof.
  intros HgI. revert c. induction sched as [|i rest IH]; intros c Hinv; [exact Hinv|].
  simpl. apply IH. apply thread_step_inv; assumption.
Qed.

(** What a step does for the thread that takes it. *)
Lemma thread_step_progress (E : Env) (v : IBinder) (c : Config) (i : nat) (pc : ThreadPc) :
  (forall h nd k jh, java_getInstance E h nd k jh = BinderProxy_getInstance nd k jh) ->
  config_inv E v c ->
  threads c !! i = Some pc ->
  match pc with
  | PStart => lock c = None ->
      threads (thread_step E v c i) !! i = Some PLocked
  | PLocked => exists nd obj, threads (thread_step E v c i) !! i = Some (PCalled nd obj)
  | PCalled _ _ =>
      lock (thread_step E v c i) = None
      /\ exists r, threads (thread_step E v c i) !! i = Some (PDone r)
  | PDone r => thread_step E v c i = c
  end.
Proof.
  intros HgI Hinv Hi. pose proof Hinv as [Halive Hlock Hdone].
  assert (Hlt : i < length (threads c)) by (eapply lookup_lt_Some; exact Hi).
  unfold thread_step. rewrite Halive, Hi. destruct pc as [| |nd obj|r].
  - intros Hfree. rewrite Hfree. simpl. apply list_lookup_insert_eq. exact Hlt.
  - pose proof (inside_is_owner E v c i PLocked Hinv Hi not_idle_locked) as Ho.
    rewrite Ho in Hlock. destruct Hlock as [_ [[_ Hgood]|(b & nd & obj & Hc & _)]];
      [|congruence].
    destruct (resolve_once E (shared c) v HgI Hgood) as (nd & p & mid & st' & H1 & _).
    rewrite H1. simpl. exists nd, (Some p). apply list_lookup_insert_eq. exact Hlt.
  - pose proof (inside_is_owner E v c i _ Hinv Hi (not_idle_called nd obj)) as Ho.
    rewrite Ho in Hlock.
    destruct Hlock as [_ [[Hc _]|(base & nd' & obj' & Hc & Hgood & Hhalf)]]; [congruence|].
    rewrite Hi in Hc. injection Hc as <- <-.
    destruct (resolve_once E base v HgI Hgood) as (nd2 & p & mid & st' & H1 & H2 & _).
    rewrite Hhalf in H1. injection H1 as -> -> Hmid. rewrite Hmid, H2. simpl.
    split; [reflexivity|]. exists (Some p). apply list_lookup_insert_eq. exact Hlt.
  - reflexivity.
Qed.

(** Steps never add or remove threads. *)
Lemma run_schedule_length (E : Env) (v : IBinder) (sched : list nat) (c : Config) :
  length (threads (run_schedule E v sched c)) = length (threads c).
Proof.
  revert c. induction sched as [|j s IH]; intros c; [reflexivity|]. simpl. rewrite IH.
  unfold thread_step. destruct (crashed c); [reflexivity|].
  destruct (threads c !! j) as [[| |nd obj|r]|]; try reflexivity.
  - destruct (lock c); [reflexivity|]. simpl. apply length_insert.
  - destruct (javaObjectForIBinder_getInstance E v (shared c)); [|reflexivity].
    simpl. apply length_insert.
  - destruct (javaObjectForIBinder_settle v nd obj (shared c)); [|reflexivity].
    simpl. apply length_insert.
Qed.

(** Whoever holds the lock can be scheduled until it lets go. *)
Lemma owner_leaves (E : Env) (v : IBinder) (c : Config) :
  (forall h nd k jh, java_getInstance E h nd k jh = BinderProxy_getInstance nd k jh) ->
  config_inv E v c ->
  exists more, lock (run_schedule E v more c) = None.
Proof.
  intros HgI Hinv. destruct (lock c) as [o|] eqn:Ho; [|exists []; exact Ho].
  pose proof (ci_lock _ _ _ Hinv) as Hlock. rewrite Ho in Hlock.
  destruct Hlock as [_ [[Hpc _]|(b & nd & obj & Hpc & _)]].
  - destruct (thread_step_progress E v c o _ HgI Hinv Hpc) as (nd & obj & Hpc1).
    destruct (thread_step_progress E v _ o _ HgI (thread_step_inv E v c o HgI Hinv) Hpc1)
      as [Hfree _].
    exists [o; o]. exact Hfree.
  - destruct (thread_step_progress E v c o _ HgI Hinv Hpc) as [Hfree _].
    exists [o]. exact Hfree.
Qed.

(** No thread is ever stuck: from every reachable configuration some
    continuation of the schedule lets thread [i] return. *)
Lemma thread_can_finish (E : Env) (v : IBinder) (c : Config) (i : nat) :
  (forall h nd k jh, java_getInstance E h nd k jh = BinderProxy_getInstance nd k jh) ->
  config_inv E v c ->
  i < length (threads c) ->
  exists more r, threads (run_schedule E v more c) !! i = Some (PDone r).
Proof.
  intros HgI Hinv Hlt. destruct (owner_leaves E v c HgI Hinv) as [m1 Hfree].
  pose proof (run_schedule_inv E v m1 c HgI Hinv) as Hinv1.
  set (c1 := run_schedule E v m1 c) in *.
  destruct (lookup_lt_is_Some_2 (threads c1) i) as [pc Hpc].
  { subst c1. rewrite run_schedule_length. exact Hlt. }
  pose proof (ci_lock _ _ _ Hinv1) as Hlock. rewrite Hfree in Hlock.
  destruct Hlock as [_ Hall].
  destruct (Forall_lookup_1 _ _ _ _ Hall Hpc) as [->|[r ->]].
  - pose proof (thread_step_progress E v c1 i _ HgI Hinv1 Hpc Hfree) as Hp1.
    pose proof (thread_step_inv E v c1 i HgI Hinv1) as Hinv2.
    destruct (thread_step_progress E v _ i _ HgI Hinv2 Hp1) as (nd & obj & Hp2).
    pose proof (thread_step_inv E v _ i HgI Hinv2) as Hinv3.
    destruct (thread_step_progress E v _ i _ HgI Hinv3 Hp2) as (_ & r & Hp3).
    exists (m1 ++ [i; i; i])%list, r. unfold run_schedule. rewrite foldl_app. exact Hp3.
  - exists m1, r. exact Hpc.
Qed.

(** C1: with the proxy table behaving as [BinderProxy_getInstance] and
    starting from a good state, resolving the same binder (one that is not
    a JavaBBinder) any number of times in a row returns the same proxy
    every time, and the table ends with exactly one live entry for the
    binder, that proxy.  With any number of threads resolving it under any
    schedule, nobody crashes, every thread that has returned holds the same
    proxy, which is the one live entry of the table, and no thread is ever
    stuck: each can always be scheduled to its return. *)
Theorem proxy_uniquing (E : Env) (st : State) (v : IBinder) :
  (forall h nd k jh, java_getInstance E h nd k jh = BinderProxy_getInstance nd k jh) ->
  proxy_inv st ->
  checkSubclass v = false ->
  (forall n, exists p st',
      resolve_repeatedly E v (S n) st = Ret (replicate (S n) (Some p)) st'
      /\ live_entries (jheap st') (ib_ptr v) = [(ib_ptr v, p)])
  /\ (forall N sched,
        let c := run_schedule E v sched (spawn st N) in
        crashed c = false
        /\ exists p, forall i r, threads c !! i = Some (PDone r) ->
             r = Some p
             /\ live_entries (jheap (shared c)) (ib_ptr v) = [(ib_ptr v, p)])
  /\ (forall N sched i, i < N ->
        exists more r,
          threads (run_schedule E v (sched ++ more)%list (spawn st N)) !! i = Some (PDone r)).
Proof.
  intros HgI Hinv Hsub. split; [|split].
  - intros n. destruct (resolve_repeatedly_same E v n st HgI Hinv Hsub) as (p & st' & H1 & H2 & _).
    eauto.
  - intros N sched c.
    pose proof (run_schedule_inv E v sched (spawn st N) HgI (config_inv_spawn E v st N Hinv))
      as [Halive _ Hdone].
    fold c in Halive, Hdone. split; [exact Halive|].
    destruct (live_entries (jheap (shared c)) (ib_ptr v)) as [|[k p] rest] eqn:Hl.
    + exists 0. intros i r Hi. destruct (Hdone i r Hi) as (q & _ & Hq). discriminate Hq.
    + exists p. intros i r Hi. destruct (Hdone i r Hi) as (q & -> & Hq).
      injection Hq as -> -> ->. split; reflexivity.
  - intros N sched i Hi.
    pose proof (run_schedule_inv E v sched (spawn st N) HgI (config_inv_spawn E v st N Hinv))
      as Hinv'.
    destruct (thread_can_finish E v _ i HgI Hinv') as (more & r & Hr).
    { rewrite run_schedule_length. simpl. rewrite length_replicate. exact Hi. }
    exists more, r. unfold run_schedule in *. rewrite foldl_app. exact Hr.
Qed.

Lemma proxy_inv_initial : proxy_inv initial_state.
Proof.
  split; simpl.
  - reflexivity.
  - intros c H. discriminate H.
  - intros o nd H. rewrite lookup_empty in H. discriminate H.
  - intros o [x H]. rewrite lookup_empty in H. discriminate H.
  - intros k p H. inversion H.
  - intros o H. apply not_elem_of_empty in H. destruct H.
  - intros k. simpl. lia.
Qed.

Lemma proxy_uniquing_witness :
  (exists p st',
      resolve_repeatedly reference_env remote_binder 3 initial_state
        = Ret [Some p; Some p; Some p] st'
      /\ live_entries (jheap st') 1000 = [(1000, p)])
  /\ (let c := run_schedule reference_env remote_binder
                 [0; 1; 2; 0; 1; 0; 1; 2; 1; 1; 2; 2; 2] (spawn initial_state 3) in
      crashed c = false
      /\ exists p, forall i r, threads c !! i = Some (PDone r) ->
           r = Some p /\ live_entries (jheap (shared c)) 1000 = [(1000, p)]).
Proof.
  destruct (proxy_uniquing reference_env initial_state remote_binder)
    as (Hseq & Hconc & _).
  - reflexivity.
  - exact proxy_inv_initial.
  - reflexivity.
  - split; [apply (Hseq 2)|apply (Hconc 3)].
Defined.

(** ** Further properties of the file *)

(** *** signalExceptionForError *)

Ltac status_consts :=
  unfold UNKNOWN_ERROR, NO_MEMORY, INVALID_OPERATION, BAD_VALUE, BAD_INDEX, BAD_TYPE,
    NAME_NOT_FOUND, PERMISSION_DENIED, NOT_ENOUGH_DATA, NO_INIT, ALREADY_EXISTS,
    DEAD_OBJECT, UNKNOWN_TRANSACTION, FAILED_TRANSACTION, FDS_NOT_ALLOWED,
    UNEXPECTED_NULL, NO_ERROR, EBADF, ENFILE, EMFILE, EFBIG, ENOSPC, ESPIPE, EROFS, EMLINK,
    UNKNOWN_ERROR in *.

(** X1: from a method that cannot throw RemoteException, none of the
    checked exceptions is ever raised, whatever the status code and the
    parcel size: the exception is never a DeadObjectException, a
    TransactionTooLargeException or a RemoteException. *)
Theorem no_checked_exception_unless_allowed (err : status_t) (n : Z) (st : State) :
  exists cls, signalled_class err false n st = Some cls
    /\ cls <> "android/os/DeadObjectException"
    /\ cls <> "android/os/TransactionTooLargeException"
    /\ cls <> "android/os/RemoteException".
Proof.
  unfold signalled_class, signalExceptionForError.
  repeat case_bool_decide; simpl; eexists; (split; [reflexivity|]);
    repeat split; discriminate.
Qed.

(** X2: TransactionTooLargeException is raised in one situation only: the
    code is FAILED_TRANSACTION, the caller may throw RemoteException and
    the parcel is larger than 200 KiB. *)
Theorem too_large_exactly_when (err : status_t) (c : bool) (n : Z) (st : State) :
  signalled_class err c n st = Some "android/os/TransactionTooLargeException"
  <-> err = FAILED_TRANSACTION /\ c = true /\ (200 * 1024 < n)%Z.
Proof.
  unfold signalled_class, signalExceptionForError.
  repeat case_bool_decide; subst; simpl;
    try (destruct c; simpl); try destruct (Z.ltb_spec (200 * 1024) n); simpl;
    (split;
     [ intros Hx; try discriminate Hx; repeat split; (reflexivity || assumption)
     | intros (He & Hc & Hn); try reflexivity; exfalso;
       try discriminate Hc; status_consts; lia ]).
Qed.

(** X3: the exception raised derives from java.lang.Error for NO_MEMORY
    and for no other status code. *)
Theorem error_only_for_no_memory (err : status_t) (c : bool) (n : Z) (st : State) :
  thr_isError <$> pending (final_state (signalExceptionForError err c n st))
  = Some (bool_decide (err = NO_MEMORY)).
Proof.
  unfold signalExceptionForError.
  repeat case_bool_decide; subst; simpl;
    try (destruct c; simpl); try destruct (_ <? _)%Z; simpl;
    try reflexivity; status_consts; try lia; f_equal; symmetry;
    apply bool_decide_eq_false_2; lia.
Qed.

(** *** Forced collections *)

Lemma wrap_u32_idem (z : Z) : wrap_u32 (wrap_u32 z) = wrap_u32 z.
Proof. unfold wrap_u32. apply Z.mod_mod. lia. Qed.

Lemma wrap_u32_sub_l (a b : Z) : wrap_u32 (wrap_u32 a - b) = wrap_u32 (a - b).
Proof. unfold wrap_u32. apply Zminus_mod_idemp_l. Qed.

Lemma wrap_u32_sub_r (a b : Z) : wrap_u32 (a - wrap_u32 b) = wrap_u32 (a - b).
Proof. unfold wrap_u32. apply Zminus_mod_idemp_r. Qed.

Lemma wrap_u32_add_l (a b : Z) : wrap_u32 (wrap_u32 a + b) = wrap_u32 (a + b).
Proof. unfold wrap_u32. apply Zplus_mod_idemp_l. Qed.

Lemma wrap_u32_range (z : Z) : (0 <= wrap_u32 z < 4294967296)%Z.
Proof. unfold wrap_u32. apply Z.mod_pos_bound. lia. Qed.

Lemma wrap_u32_small (z : Z) : (0 <= z < 4294967296)%Z -> wrap_u32 z = z.
Proof. unfold wrap_u32. apply Z.mod_small. Qed.

Lemma refs_since_gc_alt (st : State) :
  refs_since_gc st
  = wrap_u32 (gNumLocalRefsCreated st + gNumDeathRefsCreated st - gCollectedAtRefs st).
Proof. unfold refs_since_gc. apply wrap_u32_sub_l. Qed.

(** The test of [gcIfManyNewRefs], read on the distance to the last
    recorded collection point. *)
Lemma gc_test (st : State) :
  (wrap_u32 (wrap_u32 (gNumLocalRefsCreated st + gNumDeathRefsCreated st)
             - wrap_u32 (gCollectedAtRefs st + GC_INTERVAL)) <? MAX_RACING)%Z
  = bool_decide (GC_INTERVAL <= refs_since_gc st < GC_INTERVAL + MAX_RACING)%Z.
Proof.
  rewrite refs_since_gc_alt. unfold GC_INTERVAL, MAX_RACING.
  rewrite wrap_u32_sub_r, wrap_u32_sub_l.
  set (t := (gNumLocalRefsCreated st + gNumDeathRefsCreated st)%Z).
  set (c := gCollectedAtRefs st).
  replace (t - (c + 1000))%Z with ((t - c) - 1000)%Z by lia.
  rewrite <- (wrap_u32_sub_l (t - c)).
  pose proof (wrap_u32_range (t - c)) as Hr.
  set (r := wrap_u32 (t - c)) in *.
  destruct (Z_lt_ge_dec r 1000) as [Hlt|Hge].
  - replace (wrap_u32 (r - 1000)) with (r - 1000 + 4294967296)%Z.
    + rewrite bool_decide_eq_false_2 by lia. apply Z.ltb_ge. lia.
    + unfold wrap_u32. symmetry.
      rewrite <- (Z.mod_add (r - 1000) 1 4294967296) by lia.
      apply Z.mod_small. lia.
  - rewrite wrap_u32_small by lia.
    destruct (Z.ltb_spec (r - 1000) 100000).
    + rewrite bool_decide_eq_true_2 by lia. reflexivity.
    + rewrite bool_decide_eq_false_2 by lia. reflexivity.
Qed.

Lemma gcIfManyNewRefs_run (st : State) :
  gcIfManyNewRefs st
  = if bool_decide (GC_INTERVAL <= refs_since_gc st < GC_INTERVAL + MAX_RACING)%Z
    then Ret tt (set_trace (EvForceGc :: trace st)
                   (set_gCollectedAtRefs (wrap_u32 (gCollectedAtRefs st + GC_INTERVAL)) st))
    else Ret tt st.
Proof.
  unfold gcIfManyNewRefs. munfold. rewrite gc_test.
  case_bool_decide; reflexivity.
Qed.

(** X4: [gcIfManyNewRefs] asks for a collection exactly when at least
    GC_INTERVAL and fewer than GC_INTERVAL + MAX_RACING references were
    created since the recorded collection point, in the modular
    arithmetic of the counters; it then moves the collection point by
    GC_INTERVAL, so that the distance drops by exactly GC_INTERVAL.
    Otherwise it does nothing at all. *)
Theorem gcIfManyNewRefs_threshold (st : State) :
  exists st', gcIfManyNewRefs st = Ret tt st'
    /\ if bool_decide (GC_INTERVAL <= refs_since_gc st < GC_INTERVAL + MAX_RACING)%Z
       then trace st' = EvForceGc :: trace st
            /\ refs_since_gc st' = (refs_since_gc st - GC_INTERVAL)%Z
            /\ gCollectedAtRefs st' = wrap_u32 (gCollectedAtRefs st + GC_INTERVAL)
       else st' = st.
Proof.
  rewrite gcIfManyNewRefs_run.
  case_bool_decide as Hr; eexists; (split; [reflexivity|]); [|reflexivity].
  repeat split. rewrite !refs_since_gc_alt in *. simpl.
  rewrite wrap_u32_sub_r.
  set (t := (gNumLocalRefsCreated st + gNumDeathRefsCreated st)%Z) in *.
  set (c := gCollectedAtRefs st) in *.
  replace (t - (c + GC_INTERVAL))%Z with ((t - c) - GC_INTERVAL)%Z by lia.
  rewrite <- (wrap_u32_sub_l (t - c)).
  pose proof (wrap_u32_range (t - c)).
  apply wrap_u32_small. unfold GC_INTERVAL in *. lia.
Qed.

(** What one JavaBBinder more does to the distance and to the number of
    collections asked for, below the threshold. *)
Lemma new_JavaBBinder_count (object : objid) (st : State) :
  (refs_since_gc st < GC_INTERVAL)%Z ->
  exists b st', new_JavaBBinder object st = Ret b st'
    /\ refs_since_gc st' = ((refs_since_gc st + 1) mod GC_INTERVAL)%Z
    /\ Z.of_nat (forced_gcs (trace st'))
       = (Z.of_nat (forced_gcs (trace st)) + (refs_since_gc st + 1) / GC_INTERVAL)%Z.
Proof.
  intros Hlt. unfold new_JavaBBinder. munfold. rewrite gcIfManyNewRefs_run.
  pose proof (wrap_u32_range (gNumLocalRefsCreated st + gNumDeathRefsCreated st
                              - gCollectedAtRefs st)) as Hpos.
  rewrite <- refs_since_gc_alt in Hpos.
  assert (Hr : refs_since_gc
                 (set_gNumLocalRefsCreated (wrap_u32 (gNumLocalRefsCreated st + 1))
                    (set_nextPtr (S (nextPtr st)) st)) = (refs_since_gc st + 1)%Z).
  { rewrite !refs_since_gc_alt in *. simpl.
    rewrite <- wrap_u32_sub_l, wrap_u32_add_l, wrap_u32_sub_l.
    replace (gNumLocalRefsCreated st + 1 + gNumDeathRefsCreated st
             - gCollectedAtRefs st)%Z
      with ((gNumLocalRefsCreated st + gNumDeathRefsCreated st - gCollectedAtRefs st) + 1)%Z
      by lia.
    rewrite <- wrap_u32_add_l. apply wrap_u32_small. unfold GC_INTERVAL in *. lia. }
  cbv beta.
  change (gNumLocalRefsCreated (set_nextPtr (S (nextPtr st)) st))
    with (gNumLocalRefsCreated st).
  rewrite Hr. unfold GC_INTERVAL, MAX_RACING in *.
  case_bool_decide as Hc; do 2 eexists; (split; [reflexivity|]).
  - assert (He : refs_since_gc st = 999%Z) by lia.
    split.
    + rewrite He. rewrite refs_since_gc_alt in *. simpl.
      rewrite <- wrap_u32_sub_l, wrap_u32_add_l, wrap_u32_sub_l, wrap_u32_sub_r.
      replace (gNumLocalRefsCreated st + 1 + gNumDeathRefsCreated st
               - (gCollectedAtRefs st + 1000))%Z
        with ((gNumLocalRefsCreated st + gNumDeathRefsCreated st - gCollectedAtRefs st)
              - 999)%Z by lia.
      rewrite <- wrap_u32_sub_l, He. reflexivity.
    + rewrite He. change ((999 + 1) / 1000)%Z with 1%Z.
      match goal with
      | |- context [forced_gcs (trace ?s)] =>
          change (forced_gcs (trace s)) with (S (forced_gcs (trace st)))
      end. lia.
  - split.
    + rewrite Hr. symmetry. apply Z.mod_small. lia.
    + rewrite Z.div_small by lia. rewrite Z.add_0_r. reflexivity.
Qed.

(** Counting over a series of creations. *)
Lemma create_JavaBBinders_count (object : objid) (n : nat) (st : State) :
  (refs_since_gc st < GC_INTERVAL)%Z ->
  exists st', create_JavaBBinders object n st = Ret tt st'
    /\ refs_since_gc st' = ((refs_since_gc st + Z.of_nat n) mod GC_INTERVAL)%Z
    /\ Z.of_nat (forced_gcs (trace st'))
       = (Z.of_nat (forced_gcs (trace st))
          + (refs_since_gc st + Z.of_nat n) / GC_INTERVAL)%Z.
Proof.
  assert (Hpos : forall s, (0 <= refs_since_gc s)%Z)
    by (intros s; apply wrap_u32_range).
  revert st. induction n as [|n IH]; intros st Hlt.
  - exists st. split; [reflexivity|]. pose proof (Hpos st). unfold GC_INTERVAL in *.
    rewrite Z.add_0_r, Z.mod_small, Z.div_small by lia. split; lia.
  - destruct (new_JavaBBinder_count object st Hlt) as (b & st1 & Hnew & Hr1 & Hg1).
    assert (Hlt1 : (refs_since_gc st1 < GC_INTERVAL)%Z).
    { rewrite Hr1. apply Z.mod_pos_bound. unfold GC_INTERVAL. lia. }
    destruct (IH st1 Hlt1) as (st' & Hrun & Hr & Hg).
    exists st'. split; [|split].
    + simpl. unfold bind. rewrite Hnew. exact Hrun.
    + rewrite Hr, Hr1. unfold GC_INTERVAL.
      rewrite Zplus_mod_idemp_l. f_equal. lia.
    + rewrite Hg, Hg1, Hr1. unfold GC_INTERVAL in *.
      pose proof (Hpos st) as H0.
      set (r := refs_since_gc st) in *.
      replace (r + Z.of_nat (S n))%Z with ((r + 1) + Z.of_nat n)%Z by lia.
      pose proof (Z.div_mod (r + 1) 1000 ltac:(lia)) as Hdm.
      set (q := ((r + 1) / 1000)%Z) in *. set (m := ((r + 1) mod 1000)%Z) in *.
      replace (r + 1 + Z.of_nat n)%Z with ((m + Z.of_nat n) + q * 1000)%Z by lia.
      rewrite Z.div_add by lia. lia.
Qed.

(** X5: while fewer than GC_INTERVAL references are outstanding since the
    recorded collection point, creating [n] JavaBBinders asks for a
    collection once for every GC_INTERVAL-th reference and never in
    between: the number of requests grows by (distance + n) / GC_INTERVAL
    and the distance ends at (distance + n) mod GC_INTERVAL, so it stays
    below GC_INTERVAL. *)
Theorem forced_gc_every_interval (object : objid) (n : nat) (st : State) :
  (refs_since_gc st < GC_INTERVAL)%Z ->
  exists st', create_JavaBBinders object n st = Ret tt st'
    /\ refs_since_gc st' = ((refs_since_gc st + Z.of_nat n) mod GC_INTERVAL)%Z
    /\ (refs_since_gc st' < GC_INTERVAL)%Z
    /\ Z.of_nat (forced_gcs (trace st'))
       = (Z.of_nat (forced_gcs (trace st))
          + (refs_since_gc st + Z.of_nat n) / GC_INTERVAL)%Z.
Proof.
  intros Hlt.
  destruct (create_JavaBBinders_count object n st Hlt) as (st' & Hrun & Hr & Hg).
  exists st'. repeat split; try assumption.
  rewrite Hr. apply Z.mod_pos_bound. unfold GC_INTERVAL. lia.
Qed.

Lemma forced_gc_every_interval_witness :
  exists st', create_JavaBBinders 10 2500 initial_state = Ret tt st'
    /\ refs_since_gc st' = 500%Z
    /\ forced_gcs (trace st') = 2.
Proof.
  destruct (forced_gc_every_interval 10 2500 initial_state) as (st' & Hrun & Hr & _ & Hg).
  - vm_compute. reflexivity.
  - exists st'. split; [exact Hrun|]. split.
    + rewrite Hr. vm_compute. reflexivity.
    + apply Nat2Z.inj. rewrite Hg. vm_compute. reflexivity.
Defined.

(** X6: after [android_os_BinderInternal_handleGc] the distance to the
    collection point is zero whatever the counters were, so the next [n]
    JavaBBinders ask for n / GC_INTERVAL collections: none at all for
    fewer than GC_INTERVAL of them. *)
Theorem handleGc_restarts_interval (object : objid) (n : nat) (st : State) :
  exists st0 st',
    android_os_BinderInternal_handleGc st = Ret tt st0
    /\ refs_since_gc st0 = 0%Z
    /\ trace st0 = trace st
    /\ create_JavaBBinders object n st0 = Ret tt st'
    /\ Z.of_nat (forced_gcs (trace st'))
       = (Z.of_nat (forced_gcs (trace st)) + Z.of_nat n / GC_INTERVAL)%Z.
Proof.
  unfold android_os_BinderInternal_handleGc. mstep.
  eexists. 
  assert (Hz : refs_since_gc
                 (set_gCollectedAtRefs
                    (wrap_u32 (gNumLocalRefsCreated st + gNumDeathRefsCreated st)) st) = 0%Z).
  { unfold refs_since_gc. simpl. rewrite Z.sub_diag. reflexivity. }
  edestruct (create_JavaBBinders_count object n) as (st' & Hrun & _ & Hg);
    [|exists st'; split; [reflexivity|]; split; [exact Hz|]; split; [reflexivity|];
      split; [exact Hrun|]].
  - rewrite Hz. unfold GC_INTERVAL. lia.
  - rewrite Hg, Hz. reflexivity.
Qed.

(** *** Holders and the objects behind them *)




(** X8: exposing the same Java Binder again while its JavaBBinder is
    alive gives the same native binder and has no effect whatsoever: the
    JavaBBinder is created by the first call at most, and a holder that had
    one already is left alone by both calls. *)
Theorem ibinderForJavaObject_idempotent (st : State) (o : objid) (jbh : ptr)
    (mBinder : option IBinder) :
  objects (jheap st) !! o = Some (JBinder jbh) ->
  holders st !! jbh = Some mBinder ->
  exists b st1,
    ibinderForJavaObject (Some o) st = Ret (Some b) st1
    /\ ibinderForJavaObject (Some o) st1 = Ret (Some b) st1
    /\ holders st1 !! jbh = Some (Some b)
    /\ match mBinder with
       | Some b0 => b = b0 /\ st1 = st
       | None => b = {| ib_ptr := nextPtr st; ib_class := JavaBBinderC o |}
                 /\ gNumLocalRefsCreated st1 = wrap_u32 (gNumLocalRefsCreated st + 1)
       end.
Proof.
  intros Hobj Hholder.
  unfold ibinderForJavaObject, JavaBBinderHolder_get, new_JavaBBinder, gcIfManyNewRefs.
  mstep. rewrite Hobj. mstep. rewrite Hholder. mstep.
  destruct mBinder as [b0|]; mstep.
  - exists b0, st. rewrite Hobj. mstep. rewrite Hholder. auto.
  - match goal with
    | |- context [if ?c then _ else _] => destruct c
    end; mstep; do 2 eexists; (split; [reflexivity|]); simpl; rewrite Hobj; simpl;
      rewrite lookup_insert_eq; auto.
Qed.

Lemma ibinderForJavaObject_idempotent_witness :
  exists b st1,
    ibinderForJavaObject (Some 10) binder_state = Ret (Some b) st1
    /\ ibinderForJavaObject (Some 10) st1 = Ret (Some b) st1
    /\ b = {| ib_ptr := 51; ib_class := JavaBBinderC 10 |}.
Proof.
  destruct (ibinderForJavaObject_idempotent binder_state 10 50 None)
    as (b & st1 & H1 & H2 & _ & Hb & _).
  - vm_compute. reflexivity.
  - vm_compute. reflexivity.
  - exists b, st1. split; [exact H1|]. split; [exact H2|exact Hb].
Defined.


(** X10: a BinderProxy resolves back to the binder it stands for.  When
    [javaObjectForIBinder] has built a new proxy for [v],
    [ibinderForJavaObject] on that proxy answers [v]; when it found an
    existing proxy, [ibinderForJavaObject] answers whatever binder the node
    of that proxy recorded before the call.  Neither direction changes the
    state a second time. *)
Theorem proxy_round_trip (E : Env) (st : State) (v : IBinder)
    (o : objid) (actual : ptr) :
  let nd := default (nextPtr st) (gNativeDataCache st) in
  let answer := java_getInstance E (trace st) nd (ib_ptr v) (jheap st) in
  checkSubclass v = false ->
  pending st = None ->
  fst answer = Returned (Some o) ->
  objects (snd answer) !! o = Some (JBinderProxy actual) ->
  exists st',
    javaObjectForIBinder E (Some v) st = Ret (Some o) st'
    /\ (actual = nd -> ibinderForJavaObject (Some o) st' = Ret (Some v) st')
    /\ (actual <> nd -> forall d, proxyData st !! actual = Some d ->
          ibinderForJavaObject (Some o) st' = Ret (bp_mObject d) st').
Proof.
  intros nd answer Hsub Hpend Hret Hobj.
  destruct (javaObjectForIBinder_returned E st v o actual Hpend Hret Hobj)
    as (mid & st' & Hhalf1 & Hhalf2 & _ & Hjh & _ & Hexisting & Hnew).
  exists st'. unfold answer, nd in *. clear answer nd. split; [|split].
  - unfold javaObjectForIBinder, bind. rewrite Hsub, Hhalf1. exact Hhalf2.
  - intros Hcase. destruct (Hnew Hcase) as (_ & _ & Hd & _).
    unfold ibinderForJavaObject. mstep. rewrite Hjh, Hobj. mstep.
    rewrite Hd, Hcase, lookup_insert_eq. reflexivity.
  - intros Hcase d Hnode. destruct (Hexisting Hcase) as (_ & _ & Hd & _).
    unfold ibinderForJavaObject. mstep. rewrite Hjh, Hobj. mstep.
    rewrite Hd.
    assert (Hlook : match gNativeDataCache st with
                    | Some _ => proxyData st
                    | None => <[default (nextPtr st) (gNativeDataCache st) :=
                          {| bp_mObject := None; bp_mOrgue := None |}]> (proxyData st)
                    end !! actual = Some d).
    { destruct (gNativeDataCache st) as [c|] eqn:Hc; [exact Hnode|].
      rewrite lookup_insert_ne; [exact Hnode|]. congruence. }
    rewrite Hlook. reflexivity.
Qed.

Lemma proxy_round_trip_witness :
  exists st',
    javaObjectForIBinder reference_env (Some remote_binder) initial_state = Ret (Some 1) st'
    /\ ibinderForJavaObject (Some 1) st' = Ret (Some remote_binder) st'.
Proof.
  destruct (proxy_round_trip reference_env initial_state remote_binder 1 1)
    as (st' & Hrun & Hnew & _).
  - vm_compute. reflexivity.
  - vm_compute. reflexivity.
  - vm_compute. reflexivity.
  - vm_compute. reflexivity.
  - exists st'. split; [exact Hrun|]. apply Hnew. reflexivity.
Defined.

(** *** Failure and warnings of javaObjectForIBinder *)

(** X11: when BinderProxy.getInstance throws, [javaObjectForIBinder]
    answers NULL with that exception pending; the node handed over is
    given up (the cache is empty afterwards, whether the node came from
    the cache or was just allocated), and no proxy is counted and no
    death-recipient list is created. *)
Theorem javaObjectForIBinder_getInstance_throws (E : Env) (st : State) (v : IBinder)
    (e : jthrowable) :
  let nd := default (nextPtr st) (gNativeDataCache st) in
  let spare := match gNativeDataCache st with Some _ => 0 | None => 1 end in
  let answer := java_getInstance E (trace st) nd (ib_ptr v) (jheap st) in
  checkSubclass v = false ->
  fst answer = Threw e ->
  exists st',
    javaObjectForIBinder E (Some v) st = Ret None st'
    /\ pending st' = Some e
    /\ gNativeDataCache st' = None
    /\ nextPtr st' = spare + nextPtr st
    /\ gNumProxies st' = gNumProxies st
    /\ gProxiesWarned st' = gProxiesWarned st
    /\ deathLists st' = deathLists st
    /\ jheap st' = snd answer
    /\ trace st' = EvGetInstance nd (ib_ptr v) :: trace st.
Proof.
  intros nd spare answer Hsub Hthrow. subst nd spare answer.
  unfold javaObjectForIBinder, javaObjectForIBinder_getInstance,
    javaObjectForIBinder_settle, new_BinderProxyNativeData.
  rewrite Hsub. mstep.
  destruct (gNativeDataCache st) as [c|]; simpl in Hthrow; mstep; rewrite Hthrow; mstep;
    eexists; (split; [reflexivity|]); repeat split.
Qed.

Lemma javaObjectForIBinder_getInstance_throws_witness :
  exists st',
    javaObjectForIBinder (failing_getInstance_env sample_error) (Some remote_binder)
      (resolved remote_binder) = Ret None st'
    /\ pending st' = Some sample_error
    /\ gNativeDataCache st' = None
    /\ gNumProxies st' = 1%Z.
Proof.
  destruct (javaObjectForIBinder_getInstance_throws (failing_getInstance_env sample_error)
              (resolved remote_binder) remote_binder sample_error)
    as (st' & Hrun & Hp & Hc & _ & Hn & _).
  - vm_compute. reflexivity.
  - vm_compute. reflexivity.
  - exists st'. split; [exact Hrun|]. split; [exact Hp|]. split; [exact Hc|].
    rewrite Hn. vm_compute. reflexivity.
Defined.

Lemma wrap_i32_small (z : Z) : (-2147483648 <= z < 2147483648)%Z -> wrap_i32 z = z.
Proof. intros H. unfold wrap_i32. rewrite Z.mod_small by lia. lia. Qed.

(** X12: the proxy count never runs PROXY_WARN_INTERVAL ahead of the count
    last warned about.  If it is less than PROXY_WARN_INTERVAL ahead
    before a call of [javaObjectForIBinder] (and the counters are not about
    to overflow), it is so after the call, however the call ends and
    whatever the Java side does; the call warns at most once, exactly when
    the count reaches the last warned count plus PROXY_WARN_INTERVAL, and
    the warning names that count. *)
Theorem proxy_warning_interval (E : Env) (val : option IBinder) (st : State) :
  (gProxiesWarned st + PROXY_WARN_INTERVAL <= 2147483647)%Z ->
  (-2147483648 <= gNumProxies st < gProxiesWarned st + PROXY_WARN_INTERVAL)%Z ->
  let st' := final_state (javaObjectForIBinder E val st) in
  (gNumProxies st' < gProxiesWarned st' + PROXY_WARN_INTERVAL)%Z
  /\ ((gProxiesWarned st' = gProxiesWarned st
       /\ proxy_warnings (trace st') = proxy_warnings (trace st))
      \/ (gProxiesWarned st' = (gProxiesWarned st + PROXY_WARN_INTERVAL)%Z
          /\ gNumProxies st' = gProxiesWarned st'
          /\ proxy_warnings (trace st') = gNumProxies st' :: proxy_warnings (trace st))).
Proof.
  intros Hmax Hinv.
  assert (Hw : wrap_i32 (gProxiesWarned st + PROXY_WARN_INTERVAL)
               = (gProxiesWarned st + PROXY_WARN_INTERVAL)%Z)
    by (apply wrap_i32_small; unfold PROXY_WARN_INTERVAL in *; lia).
  assert (Hn : wrap_i32 (gNumProxies st + 1) = (gNumProxies st + 1)%Z)
    by (apply wrap_i32_small; unfold PROXY_WARN_INTERVAL in *; lia).
  unfold javaObjectForIBinder, javaObjectForIBinder_getInstance,
    javaObjectForIBinder_settle, new_BinderProxyNativeData, new_DeathRecipientList,
    getBPNativeData.
  destruct val as [v|]; [|simpl; split; [lia|left; split; reflexivity]].
  destruct (checkSubclass v); [simpl; split; [lia|left; split; reflexivity]|].
  mstep.
  assert (Hsame : forall s : State,
            gNumProxies s = gNumProxies st -> gProxiesWarned s = gProxiesWarned st ->
            proxy_warnings (trace s) = proxy_warnings (trace st) ->
            (gNumProxies s < gProxiesWarned s + PROXY_WARN_INTERVAL)%Z
            /\ ((gProxiesWarned s = gProxiesWarned st
                 /\ proxy_warnings (trace s) = proxy_warnings (trace st))
                \/ (gProxiesWarned s = (gProxiesWarned st + PROXY_WARN_INTERVAL)%Z
                    /\ gNumProxies s = gProxiesWarned s
                    /\ proxy_warnings (trace s) = gNumProxies s :: proxy_warnings (trace st)))).
  { intros s H1 H2 H3. rewrite H1, H2. split; [lia|left; split; [reflexivity|exact H3]]. }
  destruct (gNativeDataCache st) as [c|]; mstep;
    match goal with
    | |- context [java_getInstance ?env ?h ?n ?k ?jh] =>
        destruct (java_getInstance env h n k jh) as [[[o|]|e] jh']
    end; mstep;
    try (destruct (pending st) as [p|]; mstep);
    try (apply Hsame; reflexivity);
    match goal with
    | |- context [objects ?jh !! ?x] => destruct (objects jh !! x) as [[jbh|actual|]|]
    end; mstep;
    try (apply Hsame; reflexivity);
    case_bool_decide; mstep;
    try (apply Hsame; reflexivity);
    rewrite Hw, Hn;
    destruct (Z.leb_spec (gProxiesWarned st + PROXY_WARN_INTERVAL) (gNumProxies st + 1));
    mstep;
    (split; [unfold PROXY_WARN_INTERVAL in *; lia|]);
    [right; split; [lia|split; reflexivity] | left; split; reflexivity
    |right; split; [lia|split; reflexivity] | left; split; reflexivity].
Qed.

Lemma proxy_warning_interval_witness :
  let st := set_gNumProxies 4999 initial_state in
  let st' := final_state (javaObjectForIBinder reference_env (Some remote_binder) st) in
  (gNumProxies st' < gProxiesWarned st' + PROXY_WARN_INTERVAL)%Z
  /\ ((gProxiesWarned st' = gProxiesWarned st
       /\ proxy_warnings (trace st') = proxy_warnings (trace st))
      \/ (gProxiesWarned st' = (gProxiesWarned st + PROXY_WARN_INTERVAL)%Z
          /\ gNumProxies st' = gProxiesWarned st'
          /\ proxy_warnings (trace st') = gNumProxies st' :: proxy_warnings (trace st))).
Proof.
  apply (proxy_warning_interval reference_env (Some remote_binder)
           (set_gNumProxies 4999 initial_state)).
  - simpl. unfold PROXY_WARN_INTERVAL. lia.
  - simpl. unfold PROXY_WARN_INTERVAL. lia.
Defined.

(** *** Linking and unlinking death recipients *)

Lemma erase_first_app_fresh (j : ptr) (ls : list ptr) :
  j ∉ ls -> erase_first j (ls ++ [j])%list = ls.
Proof.
  induction ls as [|x rest IH]; intros Hn; simpl.
  - rewrite bool_decide_eq_true_2 by reflexivity. reflexivity.
  - rewrite bool_decide_eq_false_2.
    + f_equal. apply IH. intros Hin. apply Hn. right. exact Hin.
    + intros ->. apply Hn. left.
Qed.

(** The constructor of JavaDeathRecipient on a list that is alive. *)
Lemma new_JavaDeathRecipient_run (st : State) (r : objid) (l : ptr) (ls : list ptr) :
  deathLists st !! l = Some ls ->
  exists st1,
    new_JavaDeathRecipient r (Some l) st = Ret (nextPtr st) st1
    /\ deathLists st1 = <[l := (ls ++ [nextPtr st])%list]> (deathLists st)
    /\ deathRecipients st1
       = <[nextPtr st := {| jdr_mObject := Some r; jdr_mObjectWeak := None; jdr_mList := l |}]>
           (deathRecipients st)
    /\ gNumDeathRefsCreated st1 = wrap_u32 (gNumDeathRefsCreated st + 1)
    /\ gNumDeathRefsDeleted st1 = gNumDeathRefsDeleted st
    /\ pending st1 = pending st /\ jheap st1 = jheap st /\ proxyData st1 = proxyData st
    /\ nextPtr st1 = S (nextPtr st)
    /\ (forall j, notices_to j (trace st1) = notices_to j (trace st)).
Proof.
  intros Hl. unfold new_JavaDeathRecipient, DeathRecipientList_add, gcIfManyNewRefs.
  mstep. rewrite Hl. mstep.
  match goal with
  | |- context [if ?c then _ else _] => destruct c
  end; mstep; eexists; (split; [reflexivity|]); repeat split.
Qed.




(** The exception [signalExceptionForError] raises does not depend on the
    state it is raised in. *)
Lemma signalExceptionForError_uniform (err : status_t) (c : bool) (n : Z) :
  exists e, forall st, signalExceptionForError err c n st = Ret tt (set_pending (Some e) st).
Proof.
  unfold signalExceptionForError.
  repeat case_bool_decide; try destruct (c && _); eexists; intros st; reflexivity.
Qed.

Lemma death_object_count_balanced (c d : Z) :
  wrap_u32 (wrap_u32 (c + 1) - wrap_u32 (d + 1)) = wrap_u32 (c - d).
Proof.
  rewrite wrap_u32_sub_l, wrap_u32_sub_r. f_equal. lia.
Qed.

(** X14: when the target refuses the recipient, linkToDeath undoes the
    registration before it returns: the recipient just created is taken
    off the list and destroyed, so the list and the live recipients are
    the ones before the call and the count reported by
    [android_os_Debug_getDeathObjectCount] is unchanged; the exception of
    [signalExceptionForError] for the refusal is left pending. *)
Theorem linkToDeath_refused (E : Env) (st : State) (obj : objid) (nd : ptr)
    (d : BinderProxyNativeData) (target : IBinder) (l : ptr) (ls : list ptr)
    (r : objid) (flags : Z) (err : status_t) :
  objects (jheap st) !! obj = Some (JBinderProxy nd) ->
  proxyData st !! nd = Some d ->
  bp_mObject d = Some target ->
  localBinder target = false ->
  bp_mOrgue d = Some l ->
  deathLists st !! l = Some ls ->
  nextPtr st ∉ ls ->
  deathRecipients st !! nextPtr st = None ->
  err <> NO_ERROR ->
  (forall h, chan_linkToDeath E h target (nextPtr st) flags = err) ->
  exists st',
    android_os_BinderProxy_linkToDeath E obj (Some r) flags st = Ret tt st'
    /\ deathLists st' = deathLists st
    /\ deathRecipients st' = deathRecipients st
    /\ death_object_count st' = death_object_count st
    /\ gNumDeathRefsCreated st' = wrap_u32 (gNumDeathRefsCreated st + 1)
    /\ is_Some (pending st')
    /\ thr_class <$> pending st' = signalled_class err true 0 st.
Proof.
  intros Hobj Hnd Htarget Hlocal Hlist Hls Hfresh Hnone Herr Hchan.
  destruct (new_JavaDeathRecipient_run st r l ls Hls)
    as (st1 & Hnew & Hl1 & Hr1 & Hc1 & Hd1 & Hp1 & Hh1 & Hpd1 & Hn1 & Ht1).
  destruct (signalExceptionForError_uniform err true 0) as [e He].
  unfold signalled_class. rewrite (He st).
  unfold android_os_BinderProxy_linkToDeath, getBPNativeData. mstep.
  rewrite Hobj. mstep. rewrite Hnd. mstep. rewrite Htarget. mstep. rewrite Hlocal. mstep.
  rewrite Hlist, Hnew. mstep. rewrite Hchan.
  rewrite bool_decide_eq_true_2 by exact Herr. mstep.
  unfold clearReference, get_jdr, DeathRecipientList_remove. mstep.
  rewrite Hr1, lookup_insert_eq. mstep. rewrite Hl1, lookup_insert_eq. mstep.
  rewrite Hl1, lookup_insert_eq. mstep.
  rewrite He. mstep.
  unfold release_jdr. mstep. rewrite Hr1, lookup_insert_eq. mstep.
  rewrite lookup_insert_eq. mstep.
  rewrite erase_first_app_fresh by exact Hfresh.
  rewrite bool_decide_eq_false_2 by exact Hfresh. mstep.
  eexists. split; [reflexivity|]. simpl.
  rewrite Hl1, Hr1, insert_insert_eq.
  split; [apply insert_id; exact Hls|].
  split; [rewrite delete_insert_eq; apply delete_id; exact Hnone|].
  split; [unfold death_object_count; simpl; rewrite Hc1, Hd1, death_object_count_balanced;
          reflexivity|].
  split; [exact Hc1|]. split; [eexists; reflexivity|reflexivity].
Qed.

Lemma linkToDeath_refused_witness :
  exists st',
    android_os_BinderProxy_linkToDeath (faulty_env sample_exception DEAD_OBJECT)
      1 (Some 5) 0 (resolved remote_binder) = Ret tt st'
    /\ deathLists st' = deathLists (resolved remote_binder)
    /\ thr_class <$> pending st' = Some "android/os/DeadObjectException".
Proof.
  destruct (linkToDeath_refused (faulty_env sample_exception DEAD_OBJECT)
              (resolved remote_binder) 1 1
              {| bp_mObject := Some remote_binder; bp_mOrgue := Some 2 |}
              remote_binder 2 [] 5 0 DEAD_OBJECT)
    as (st' & Hrun & Hl & _ & _ & _ & _ & Hp).
  - vm_compute. reflexivity.
  - vm_compute. reflexivity.
  - reflexivity.
  - reflexivity.
  - reflexivity.
  - vm_compute. reflexivity.
  - apply not_elem_of_nil.
  - vm_compute. reflexivity.
  - vm_compute. discriminate.
  - intros h. reflexivity.
  - exists st'. split; [exact Hrun|]. split; [exact Hl|].
    rewrite Hp. vm_compute. reflexivity.
Defined.




(** *** The count of death recipients *)

Lemma death_frame_refl (st : State) : death_frame st st.
Proof. split; auto. Qed.

Lemma death_frame_trans (a b c : State) :
  death_frame a b -> death_frame b c -> death_frame a c.
Proof. intros [r1 c1 d1 n1] [r2 c2 d2 n2]. split; try congruence. lia. Qed.

Lemma framing_ret {A} (a : A) : framing (ret a).
Proof. intros st. apply death_frame_refl. Qed.

Lemma framing_gets {A} (f : State -> A) : framing (gets f).
Proof. intros st. apply death_frame_refl. Qed.

Lemma framing_abort {A} (k : AbortKind) : framing (@abort A k).
Proof. intros st. apply death_frame_refl. Qed.

Lemma framing_deref {A} (o : option A) : framing (deref o).
Proof. destruct o; [apply framing_ret|apply framing_abort]. Qed.

Lemma framing_bind {A B} (m : M A) (k : A -> M B) :
  framing m -> (forall a, framing (k a)) -> framing (bind m k).
Proof.
  intros Hm Hk st. unfold bind. specialize (Hm st).
  destruct (m st) as [a st1|r st1]; [|exact Hm].
  eapply death_frame_trans; [exact Hm|apply Hk].
Qed.

Lemma framing_modify (f : State -> State) :
  (forall st, death_frame st (f st)) -> framing (modify f).
Proof. intros H st. apply H. Qed.

Lemma framing_alloc : framing alloc.
Proof. intros st. split; simpl; auto. Qed.

Create HintDb frame discriminated.
#[local] Hint Resolve framing_ret framing_gets framing_abort framing_deref
  framing_alloc death_frame_refl : frame.

Ltac frame_step :=
  match goal with
  | |- framing (bind _ _) => apply framing_bind; [|intros ?]
  | |- framing (ret _) => apply framing_ret
  | |- framing (gets _) => apply framing_gets
  | |- framing (abort _) => apply framing_abort
  | |- framing (deref _) => apply framing_deref
  | |- framing (modify _) => apply framing_modify; intros ?; split; simpl; auto
  | |- framing (emit _) => apply framing_modify; intros ?; split; simpl; auto
  | |- framing (match ?x with _ => _ end) => destruct x
  | |- framing (if ?x then _ else _) => destruct x
  | |- framing _ => solve [auto with frame]
  end.
Ltac frame := repeat frame_step.

Lemma framing_signalExceptionForError (err : status_t) (c : bool) (n : Z) :
  framing (signalExceptionForError err c n).
Proof.
  intros st. destruct (signalExceptionForError_throws err c n st) as [e ->].
  split; simpl; auto.
Qed.

Lemma framing_gcIfManyNewRefs : framing gcIfManyNewRefs.
Proof. unfold gcIfManyNewRefs. frame. Qed.

Lemma framing_jniThrowException (cls : string) (msg : ExcMsg) :
  framing (jniThrowException cls msg).
Proof. unfold jniThrowException. frame. Qed.

#[local] Hint Resolve framing_signalExceptionForError framing_gcIfManyNewRefs
  framing_jniThrowException : frame.

Lemma framing_getBPNativeData (obj : jobject) : framing (getBPNativeData obj).
Proof. unfold getBPNativeData. frame. Qed.

Lemma framing_get_jdr (j : ptr) : framing (get_jdr j).
Proof. unfold get_jdr. frame. Qed.

#[local] Hint Resolve framing_getBPNativeData framing_get_jdr : frame.

Lemma framing_find_from (ls : list ptr) (recipient : jobject) :
  framing (find_from ls recipient).
Proof. induction ls as [|j rest IH]; simpl; frame. Qed.

Lemma framing_clearReference (j : ptr) : framing (clearReference j).
Proof. unfold clearReference, DeathRecipientList_remove. frame. Qed.

#[local] Hint Resolve framing_find_from framing_clearReference : frame.

Lemma framing_javaObjectForIBinder (E : Env) (val : option IBinder) :
  framing (javaObjectForIBinder E val).
Proof.
  unfold javaObjectForIBinder, javaObjectForIBinder_getInstance,
    javaObjectForIBinder_settle, new_BinderProxyNativeData, new_DeathRecipientList.
  frame.
Qed.

Lemma framing_report_exception (E : Env) (e : jthrowable) (msg : string) :
  framing (report_exception E e msg).
Proof.
  unfold report_exception, NewStringUTF, report_java_lang_error,
    report_java_lang_error_fatal_error, call_void, ExceptionClear.
  frame.
Qed.

#[local] Hint Resolve framing_javaObjectForIBinder framing_report_exception : frame.

Lemma framing_ibinderForJavaObject (obj : jobject) : framing (ibinderForJavaObject obj).
Proof.
  unfold ibinderForJavaObject, JavaBBinderHolder_get, new_JavaBBinder. frame.
Qed.

Lemma framing_transact (E : Env) (obj : objid) (code : Z) (dataObj replyObj : jobject)
    (flags : Z) :
  framing (android_os_BinderProxy_transact E obj code dataObj replyObj flags).
Proof.
  unfold android_os_BinderProxy_transact, parcelForJavaObject, jniThrowNullPointerException.
  frame.
Qed.

Lemma framing_onTransact (E : Env) (mObject : objid) (code flags : Z) :
  framing (onTransact E mObject code flags).
Proof.
  unfold onTransact, set_dalvik_blockguard_policy, call_void. frame.
Qed.

#[local] Hint Resolve framing_ibinderForJavaObject framing_transact framing_onTransact
  : frame.

Lemma death_count_inv_frame (st st' : State) :
  death_frame st st' -> death_count_inv st -> death_count_inv st'.
Proof.
  intros [Hr Hc Hd Hn] [Hb Hf]. split.
  - rewrite Hr, Hc, Hd. exact Hb.
  - intros j Hj. rewrite Hr. apply Hf. lia.
Qed.

Lemma framing_keeping {A} (m : M A) : framing m -> keeping m.
Proof.
  intros Hm st Hinv. specialize (Hm st). destruct (m st) as [a st'|k st']; [|exact I].
  eapply death_count_inv_frame; eassumption.
Qed.

Lemma framing_keeping_at (j : ptr) {A} (m : M A) : framing m -> keeping_at j m.
Proof.
  intros Hm st Hinv Hj. specialize (Hm st). destruct (m st) as [a st'|k st']; [|exact I].
  split; [eapply death_count_inv_frame; eassumption|].
  simpl in Hm. rewrite (df_recipients _ _ Hm). exact Hj.
Qed.

Lemma keeping_bind {A B} (m : M A) (k : A -> M B) :
  keeping m -> (forall a, keeping (k a)) -> keeping (bind m k).
Proof.
  intros Hm Hk st Hinv. unfold bind. specialize (Hm st Hinv).
  destruct (m st) as [a st1|r st1]; [|exact I]. apply Hk. exact Hm.
Qed.

Lemma keeping_at_bind (j : ptr) {A B} (m : M A) (k : A -> M B) :
  keeping_at j m -> (forall a, keeping_at j (k a)) -> keeping_at j (bind m k).
Proof.
  intros Hm Hk st Hinv Hj. unfold bind. specialize (Hm st Hinv Hj).
  destruct (m st) as [a st1|r st1]; [|exact I]. destruct Hm as [Hinv1 Hj1].
  apply Hk; assumption.
Qed.

(** One recipient more: the constructor counts it. *)
Lemma keeping_new_JavaDeathRecipient (object : objid) (drl : option ptr) :
  keeping (new_JavaDeathRecipient object drl).
Proof.
  intros st [Hb Hf]. destruct drl as [l|]; [|exact I].
  destruct (deathLists st !! l) as [ls|] eqn:Hl.
  - destruct (new_JavaDeathRecipient_run st object l ls Hl)
      as (st1 & -> & _ & Hr1 & Hc1 & Hd1 & _ & _ & _ & Hn1 & _).
    split.
    + rewrite Hr1, Hc1, Hd1, map_size_insert_None by (apply Hf; lia).
      rewrite wrap_u32_sub_l.
      replace (gNumDeathRefsCreated st + 1 - gNumDeathRefsDeleted st)%Z
        with ((gNumDeathRefsCreated st - gNumDeathRefsDeleted st) + 1)%Z by lia.
      rewrite <- wrap_u32_add_l, Hb, wrap_u32_add_l. f_equal. lia.
    + intros j Hj. rewrite Hr1, lookup_insert_ne by lia. apply Hf. lia.
  - unfold new_JavaDeathRecipient, DeathRecipientList_add. mstep. rewrite Hl. exact I.
Qed.

(** One recipient fewer: the destructor counts it. *)
Lemma keeping_release_jdr (j : ptr) : keeping (release_jdr j).
Proof.
  intros st [Hb Hf]. unfold release_jdr. mstep.
  destruct (deathRecipients st !! j) as [r|] eqn:Hj; mstep; [|split; assumption].
  case_bool_decide; mstep; [split; assumption|].
  assert (Hsize : size (deathRecipients st) = S (size (delete j (deathRecipients st)))).
  { rewrite <- (insert_delete_id (deathRecipients st) j r Hj) at 1.
    apply map_size_insert_None, lookup_delete_eq. }
  split; simpl.
  - rewrite wrap_u32_sub_r.
    replace (gNumDeathRefsCreated st - (gNumDeathRefsDeleted st + 1))%Z
      with ((gNumDeathRefsCreated st - gNumDeathRefsDeleted st) - 1)%Z by lia.
    rewrite <- wrap_u32_sub_l, Hb, wrap_u32_sub_l, Hsize. f_equal. lia.
  - intros j' Hj'. destruct (decide (j' = j)) as [->|Hne].
    + apply lookup_delete_eq.
    + rewrite lookup_delete_ne by congruence. apply Hf. exact Hj'.
Qed.

Create HintDb keep discriminated.
#[local] Hint Resolve keeping_new_JavaDeathRecipient keeping_release_jdr : keep.

Ltac keep_step :=
  match goal with
  | |- keeping (bind _ _) => apply keeping_bind; [|intros ?]
  | |- keeping (match ?x with _ => _ end) => destruct x
  | |- keeping (if ?x then _ else _) => destruct x
  | |- keeping _ => solve [auto with keep]
  | |- keeping _ => apply framing_keeping; solve [frame]
  end.
Ltac keep := repeat keep_step.

Lemma keeping_linkToDeath (E : Env) (obj : objid) (recipient : jobject) (flags : Z) :
  keeping (android_os_BinderProxy_linkToDeath E obj recipient flags).
Proof. unfold android_os_BinderProxy_linkToDeath, jniThrowNullPointerException. keep. Qed.

Lemma keeping_unlinkToDeath (E : Env) (obj : objid) (recipient : jobject) (flags : Z) :
  keeping (android_os_BinderProxy_unlinkToDeath E obj recipient flags).
Proof.
  unfold android_os_BinderProxy_unlinkToDeath, jniThrowNullPointerException,
    DeathRecipientList_find.
  keep.
Qed.

(** Turning the strong reference of a live recipient into a weak one
    neither creates nor destroys a recipient. *)
Lemma keeping_at_demote (j : ptr) (r : JavaDeathRecipient) :
  keeping_at j (modify (fun st => set_deathRecipients (<[j := r]> (deathRecipients st)) st)).
Proof.
  intros st [Hb Hf] Hj. simpl. split; [split; simpl|].
  - rewrite map_size_insert_Some by exact Hj. exact Hb.
  - intros j' Hj'. rewrite lookup_insert_ne; [apply Hf; exact Hj'|].
    intros <-. rewrite Hf in Hj by exact Hj'. destruct Hj as [x Hx]. discriminate Hx.
  - rewrite lookup_insert_eq. eauto.
Qed.

Lemma get_jdr_run (j : ptr) (st : State) :
  get_jdr j st = match deathRecipients st !! j with
                 | Some r => Ret r st
                 | None => Abort ByNullDereference st
                 end.
Proof. unfold get_jdr. munfold. destruct (deathRecipients st !! j); reflexivity. Qed.

Lemma keeping_binderDied (E : Env) (j : ptr) : keeping (binderDied E j).
Proof.
  intros st Hinv. unfold binderDied. unfold bind at 1. rewrite get_jdr_run.
  destruct (deathRecipients st !! j) as [r|] eqn:Hj; [|exact I].
  destruct (jdr_mObject r) as [mObject|]; [|exact Hinv].
  match goal with
  | |- match ?m st with _ => _ end =>
      assert (Hrest : keeping_at j m)
  end.
  { repeat match goal with
           | |- keeping_at _ (bind _ _) => apply keeping_at_bind; [|intros ?]
           | |- keeping_at _ (match ?x with _ => _ end) => destruct x
           | |- keeping_at _ (modify (fun st => set_deathRecipients _ st)) =>
               apply keeping_at_demote
           | |- keeping_at _ _ => apply framing_keeping_at; unfold call_void; solve [frame]
           end. }
  specialize (Hrest st Hinv (ex_intro _ r Hj)).
  match goal with
  | |- match ?x with _ => _ end => destruct x as [a st'|k st']
  end; [apply Hrest|exact I].
Qed.

#[local] Hint Resolve keeping_linkToDeath keeping_unlinkToDeath keeping_binderDied : keep.

Lemma keeping_run_op (E : Env) (op : Op) : keeping (run_op E op).
Proof. destruct op; simpl; keep. Qed.

Lemma keeping_run_ops (E : Env) (ops : list Op) : keeping (run_ops E ops).
Proof.
  induction ops as [|op rest IH]; simpl.
  - apply framing_keeping, framing_ret.
  - apply keeping_bind; [apply keeping_run_op|intros _; exact IH].
Qed.

Lemma death_count_inv_initial : death_count_inv initial_state.
Proof. split; [reflexivity|]. intros j _. apply lookup_empty. Qed.

(** X16: at every point a run of binder operations can reach, the count
    reported by [android_os_Debug_getDeathObjectCount] is the number of
    JavaDeathRecipient objects alive (as a 32-bit value): every
    constructor and every destructor is counted exactly once, whether a
    recipient goes away through unlinkToDeath or through a refused
    linkToDeath, and a death notice changes a recipient without creating or
    destroying one. *)
Theorem death_object_count_is_live (E : Env) (ops : list Op) (st st' : State) :
  death_count_inv st ->
  run_ops E ops st = Ret tt st' ->
  death_count_inv st'
  /\ android_os_Debug_getDeathObjectCount st'
     = Ret (wrap_i32 (wrap_u32 (Z.of_nat (size (deathRecipients st'))))) st'.
Proof.
  intros Hinv Hrun. pose proof (keeping_run_ops E ops st Hinv) as Hkeep.
  rewrite Hrun in Hkeep. split; [exact Hkeep|].
  unfold android_os_Debug_getDeathObjectCount, gets. rewrite (dc_balance _ Hkeep).
  reflexivity.
Qed.

Lemma death_object_count_is_live_witness :
  exists st',
    run_ops reference_env
      [OpResolve (Some remote_binder); OpLinkToDeath 1 (Some 5) 0; OpLinkToDeath 1 (Some 6) 0;
       OpUnlinkToDeath 1 (Some 5) 0; OpBinderDied 4] initial_state = Ret tt st'
    /\ android_os_Debug_getDeathObjectCount st' = Ret 1%Z st'.
Proof.
  eexists. split; [vm_compute; reflexivity|].
  match goal with
  | |- _ ?s = _ =>
      destruct (death_object_count_is_live reference_env
                  [OpResolve (Some remote_binder); OpLinkToDeath 1 (Some 5) 0;
                   OpLinkToDeath 1 (Some 6) 0; OpUnlinkToDeath 1 (Some 5) 0; OpBinderDied 4]
                  initial_state s death_count_inv_initial) as [_ Hcount]
  end.
  - vm_compute. reflexivity.
  - rewrite Hcount. vm_compute. reflexivity.
Defined.

(** X17: [DeathRecipientList::find] answers the first entry of the list,
    in the order of registration, whose recipient matches, and NULL only
    when no entry matches; the search changes nothing. *)
Theorem find_first_match (this : ptr) (ls : list ptr) (recipient : jobject) (st : State) :
  deathLists st !! this = Some ls ->
  (forall p, p ∈ ls -> is_Some (deathRecipients st !! p)) ->
  exists res,
    DeathRecipientList_find this recipient st = Ret res st
    /\ match res with
       | Some j =>
           exists before after jd,
             ls = (before ++ j :: after)%list
             /\ deathRecipients st !! j = Some jd
             /\ matches (jheap st) jd recipient = true
             /\ forall p, p ∈ before ->
                  exists pd, deathRecipients st !! p = Some pd
                             /\ matches (jheap st) pd recipient = false
       | None =>
           forall p, p ∈ ls ->
             exists pd, deathRecipients st !! p = Some pd
                        /\ matches (jheap st) pd recipient = false
       end.
Proof.
  intros Hls Hall. unfold DeathRecipientList_find. munfold. rewrite Hls. simpl.
  clear Hls. induction ls as [|x rest IH].
  - exists None. split; [reflexivity|]. intros p Hp. apply elem_of_nil in Hp. destruct Hp.
  - destruct (Hall x) as [xd Hx]; [left|].
    simpl. unfold bind at 1. rewrite get_jdr_run, Hx. unfold bind at 1, gets.
    destruct (matches (jheap st) xd recipient) eqn:Hm.
    + exists (Some x). split; [reflexivity|]. exists [], rest, xd.
      repeat split; try assumption. intros p Hp. apply elem_of_nil in Hp. destruct Hp.
    + destruct IH as (res & Hrun & Hres); [intros p Hp; apply Hall; right; exact Hp|].
      exists res. split; [exact Hrun|]. destruct res as [j|].
      * destruct Hres as (before & after & jd & -> & Hj & Hmj & Hbefore).
        exists (x :: before), after, jd. repeat split; try assumption.
        intros p Hp. apply elem_of_cons in Hp. destruct Hp as [->|Hp]; [eauto|].
        apply Hbefore. exact Hp.
      * intros p Hp. apply elem_of_cons in Hp. destruct Hp as [->|Hp]; [eauto|].
        apply Hres. exact Hp.
Qed.

Lemma find_first_match_witness :
  exists res,
    DeathRecipientList_find 2 (Some 5) linked_state = Ret res linked_state
    /\ match res with
       | Some j =>
           exists before after jd,
             [3] = (before ++ j :: after)%list
             /\ deathRecipients linked_state !! j = Some jd
             /\ matches (jheap linked_state) jd (Some 5) = true
             /\ forall p, p ∈ before ->
                  exists pd, deathRecipients linked_state !! p = Some pd
                             /\ matches (jheap linked_state) pd (Some 5) = false
       | None =>
           forall p, p ∈ [3] ->
             exists pd, deathRecipients linked_state !! p = Some pd
                        /\ matches (jheap linked_state) pd (Some 5) = false
       end.
Proof.
  apply (find_first_match 2 [3] (Some 5) linked_state).
  - vm_compute. reflexivity.
  - intros p Hp. apply elem_of_cons in Hp. destruct Hp as [->|Hp].
    + vm_compute. eauto.
    + apply elem_of_nil in Hp. destruct Hp.
Defined.

(** *** Incoming transactions *)

(** When [report_exception] comes back, the throwable was no
    java.lang.Error and nothing is pending. *)
Lemma report_exception_returns (E : Env) (e : jthrowable) (msg : string) (st st' : State)
    (u : unit) :
  report_exception E e msg st = Ret u st' ->
  thr_isError e = false /\ pending st' = None
  /\ strictModePolicy st' = strictModePolicy st.
Proof.
  intros Hrun. pose proof (report_exception_spec E e msg st) as Hspec.
  destruct (thr_isError e).
  - destruct Hspec as (k & s & Habort & _). congruence.
  - destruct Hspec as (tr & Hret & _). rewrite Hret in Hrun. inversion Hrun. subst. simpl. auto.
Qed.

(** X18: whatever the Java side does, when [onTransact] returns no
    exception is pending, and the status is NO_ERROR or
    UNKNOWN_TRANSACTION; it is NO_ERROR only if Binder.execTransact
    returned true without throwing; and for SYSPROPS_TRANSACTION the native
    handler has been called last, also after a handler that failed. *)
Theorem onTransact_returns_clean (E : Env) (st st' : State) (mObject : objid)
    (code flags : Z) (s : status_t) :
  onTransact E mObject code flags st = Ret s st' ->
  pending st' = None
  /\ (s = NO_ERROR \/ s = UNKNOWN_TRANSACTION)
  /\ (s = NO_ERROR ->
        fst (java_execTransact E (trace st) mObject code flags) = Returned true)
  /\ (code = SYSPROPS_TRANSACTION -> exists h, trace st' = EvNativeSysprops :: h).
Proof.
  unfold onTransact. intros Hrun.
  repeat (unfold bind at 1 in Hrun; simpl in Hrun).
  set (st0 := set_strictModePolicy _ _) in Hrun.
  assert (Hfirst : exists a st1,
            match (java_execTransact E (trace st) mObject code flags).1 with
            | Returned b => ret b
            | Threw e => fun st : State => ret false (set_pending (Some e) st)
            end st0 = Ret a st1
            /\ (a = true ->
                  (java_execTransact E (trace st) mObject code flags).1 = Returned true)).
  { destruct (java_execTransact E (trace st) mObject code flags).1 as [b|e];
      do 2 eexists; (split; [reflexivity|]); intros Ha; congruence. }
  destruct Hfirst as (a & st1 & Hfirst & Ha). rewrite Hfirst in Hrun. clear Hfirst.
  match type of Hrun with
  | match ?x with _ => _ end = _ =>
      assert (Hsecond : match x with
                        | Ret a0 st2 => pending st2 = None /\ (a0 = true -> a = true)
                        | Abort _ _ => True
                        end);
      [ destruct (pending st1) as [excep|] eqn:Hp1;
        [ destruct (report_exception E excep
                      "*** Uncaught remote exception!  (Exceptions are not yet supported across processes.)"
                      st1) as [u st2|k st2] eqn:Hrep;
          [ apply report_exception_returns in Hrep; simpl; split;
            [apply Hrep|discriminate]
          | exact I ]
        | simpl; auto ]
      | revert Hrun Hsecond; destruct x as [a0 st2|k st2]; intros Hrun Hsecond;
        [|discriminate Hrun] ]
  end.
  destruct Hsecond as [Hp2 Ha0].
  match type of Hrun with
  | match ?x with _ => _ end = _ => destruct x as [u3 st3|k st3]; [|discriminate Hrun]
  end.
  match type of Hrun with
  | match ?x with _ => _ end = _ =>
      assert (Hfourth : match x with
                        | Ret _ st4 => pending st4 = None
                        | Abort _ _ => True
                        end);
      [ destruct (pending st3) as [excep|] eqn:Hp3;
        [ destruct (report_exception E excep
                      "*** Uncaught exception in onBinderStrictModePolicyChange" st3)
            as [u st4|k st4] eqn:Hrep;
          [ apply report_exception_returns in Hrep; apply Hrep | exact I ]
        | exact Hp3 ]
      | revert Hrun Hfourth; destruct x as [u4 st4|k st4]; intros Hrun Hfourth;
        [|discriminate Hrun] ]
  end.
  unfold ret, emit, modify in Hrun.
  case_bool_decide as Hcode; inversion Hrun; subst s st'; simpl;
    (split; [exact Hfourth|]);
    (split; [destruct a0; auto|]);
    (split; [destruct a0; [auto|unfold NO_ERROR, UNKNOWN_TRANSACTION; discriminate]|]);
    intros Hc; [eexists; reflexivity|contradiction].
Qed.

Lemma onTransact_returns_clean_witness :
  let st' := final_state (onTransact (faulty_env sample_exception NO_ERROR)
                            10 SYSPROPS_TRANSACTION 0 initial_state) in
  pending st' = None
  /\ (UNKNOWN_TRANSACTION = NO_ERROR \/ UNKNOWN_TRANSACTION = UNKNOWN_TRANSACTION)
  /\ (UNKNOWN_TRANSACTION = NO_ERROR ->
        fst (java_execTransact (faulty_env sample_exception NO_ERROR) (trace initial_state)
               10 SYSPROPS_TRANSACTION 0) = Returned true)
  /\ (SYSPROPS_TRANSACTION = SYSPROPS_TRANSACTION ->
        exists h, trace st' = EvNativeSysprops :: h).
Proof.
  apply (onTransact_returns_clean (faulty_env sample_exception NO_ERROR) initial_state _
           10 SYSPROPS_TRANSACTION 0 UNKNOWN_TRANSACTION).
  vm_compute. reflexivity.
Defined.

(** X19: on the normal path of [onTransact] (nothing pending, the handler
    returns, the strict-mode callback does not throw) the status is the
    handler's answer, NO_ERROR for true and UNKNOWN_TRANSACTION for false;
    StrictMode.onBinderStrictModePolicyChange is called exactly when the
    handler left a policy other than the one in force before the call, and
    it is given that earlier policy; the native SYSPROPS handler follows
    exactly for SYSPROPS_TRANSACTION. *)
Theorem onTransact_restores_policy (E : Env) (st : State) (mObject : objid)
    (code flags : Z) (b : bool) (policy : Z) :
  pending st = None ->
  java_execTransact E (trace st) mObject code flags = (Returned b, policy) ->
  java_onBinderStrictModePolicyChange E (EvExecTransact mObject code flags :: trace st)
    (strictModePolicy st) = None ->
  exists st',
    onTransact E mObject code flags st
    = Ret (if b then NO_ERROR else UNKNOWN_TRANSACTION) st'
    /\ pending st' = None
    /\ trace st'
       = ((if bool_decide (code = SYSPROPS_TRANSACTION) then [EvNativeSysprops] else [])
          ++ (if bool_decide (policy <> strictModePolicy st)
              then [EvStrictModeCallback (strictModePolicy st)] else [])
          ++ EvExecTransact mObject code flags :: trace st)%list.
Proof.
  intros Hp Hexec Hcb. unfold onTransact, set_dalvik_blockguard_policy. mstep.
  rewrite Hexec. mstep. rewrite Hp. mstep.
  case_bool_decide as Hpol; mstep; [rewrite Hcb; mstep|]; rewrite Hp; mstep;
    case_bool_decide; mstep; eexists; (split; [reflexivity|]); simpl;
    (split; [exact Hp|reflexivity]).
Qed.

Lemma onTransact_restores_policy_witness :
  exists st',
    onTransact reference_env 10 1 0 (set_strictModePolicy 5 initial_state) = Ret NO_ERROR st'
    /\ trace st' = [EvStrictModeCallback 5; EvExecTransact 10 1 0].
Proof.
  destruct (onTransact_restores_policy reference_env (set_strictModePolicy 5 initial_state)
              10 1 0 true 0) as (st' & Hrun & _ & Ht); try reflexivity.
  exists st'. split; [exact Hrun|]. rewrite Ht. reflexivity.
Defined.

(** *** Reporting exceptions *)

(** X20: [report_java_lang_error] never returns.  Without a current
    thread the uncaught-exception handler is not called; with one it is
    called once with the error, and if that call comes back the function
    goes on to FatalError all the same.  Whenever FatalError is reached,
    the error has been raised again and is pending. *)
Theorem report_java_lang_error_ends (E : Env) (error : jthrowable) (msg : string)
    (st : State) :
  exists k st',
    report_java_lang_error E error msg st = Abort k st'
    /\ match java_currentThread E (trace st) with
       | None => k = ByFatalError /\ trace st' = EvFatalError error :: trace st
       | Some _ =>
           if java_dispatchUncaughtException E (trace st) error
           then k = ByFatalError
                /\ trace st' = EvFatalError error :: EvDispatchUncaught error :: trace st
           else k = ByUncaughtHandler /\ trace st' = EvDispatchUncaught error :: trace st
       end
    /\ match k with
       | ByFatalError => pending st' = Some error
       | _ => True
       end.
Proof.
  unfold report_java_lang_error, report_java_lang_error_fatal_error. mstep.
  destruct (java_currentThread E (trace st)) as [t|]; mstep;
    [destruct (java_dispatchUncaughtException E (trace st) error); mstep|];
    do 2 eexists; (split; [reflexivity|]); (split; [split; reflexivity|]);
    simpl; auto.
Qed.

(** X21: for a throwable that is no java.lang.Error, [report_exception]
    returns with nothing pending and with the history grown by exactly one
    logging event: Log.e with the throwable when both strings could be
    allocated, the fallback otherwise.  This holds whatever was pending
    before and whatever Log.e throws. *)
Theorem report_exception_logs (E : Env) (e : jthrowable) (msg : string) (st : State) :
  thr_isError e = false ->
  exists st',
    report_exception E e msg st = Ret tt st'
    /\ pending st' = None
    /\ trace st'
       = (if java_newStringUTF E (trace st) LOG_TAG && java_newStringUTF E (trace st) msg
          then EvLogE e else EvLogEUnavailable) :: trace st
    /\ death_frame st st' /\ jheap st' = jheap st /\ proxyData st' = proxyData st.
Proof.
  intros Herr. unfold report_exception, NewStringUTF. mstep.
  destruct (java_newStringUTF E (trace st) LOG_TAG); mstep;
    [destruct (java_newStringUTF E (trace st) msg); mstep;
      [destruct (java_logE E (trace st) e); mstep|]|];
    rewrite Herr; eexists; (split; [reflexivity|]); repeat split; simpl; auto.
Qed.

Lemma report_exception_logs_witness :
  exists st',
    report_exception reference_env sample_exception "msg" initial_state = Ret tt st'
    /\ pending st' = None
    /\ trace st' = [EvLogE sample_exception].
Proof.
  destruct (report_exception_logs reference_env sample_exception "msg" initial_state)
    as (st' & Hrun & Hp & Ht & _); [reflexivity|].
  exists st'. split; [exact Hrun|]. split; [exact Hp|]. rewrite Ht. reflexivity.
Defined.

(** *** Calling identity *)

(** X22: [android_os_Binder_restoreCallingIdentity] refuses a token
    exactly when its upper 32 bits, read as a uid, lie strictly between 0
    and 999, that is for tokens from 2^32 up to but excluding 999 * 2^32:
    IllegalStateException is raised and the identity of the thread is not
    touched.  Every other token, negative ones included, is handed to
    IPCThreadState and nothing is raised. *)
Theorem restoreCallingIdentity_guard {IPC : Type} (restore : Z -> IPC -> IPC)
    (token : Z) (ipc : IPC) (st : State) :
  (- 2 ^ 63 <= token < 2 ^ 63)%Z ->
  let out := android_os_Binder_restoreCallingIdentity restore token ipc st in
  ((2 ^ 32 <= token < 999 * 2 ^ 32)%Z ->
     exists st', out = Ret ipc st'
       /\ pending st'
          = Some (Throwable "java/lang/IllegalStateException" false
                    (MsgText ("Restoring bad calling ident: 0x" ++ PRIx64 token))))
  /\ (~ (2 ^ 32 <= token < 999 * 2 ^ 32)%Z -> out = Ret (restore token ipc) st).
Proof.
  intros Hrange out. subst out. unfold android_os_Binder_restoreCallingIdentity.
  rewrite Z.shiftr_div_pow2 by lia.
  assert (Hq : (- 2147483648 <= token / 2 ^ 32 < 2147483648)%Z).
  { split.
    - apply Z.div_le_lower_bound; lia.
    - apply Z.div_lt_upper_bound; lia. }
  rewrite wrap_i32_small by exact Hq.
  assert (Hiff : (0 < token / 2 ^ 32 /\ token / 2 ^ 32 < 999
                  <-> 2 ^ 32 <= token < 999 * 2 ^ 32)%Z).
  { pose proof (Z.div_mod token (2 ^ 32) ltac:(lia)) as Hdm.
    pose proof (Z.mod_pos_bound token (2 ^ 32) ltac:(lia)) as Hm.
    set (q := (token / 2 ^ 32)%Z) in *. set (m := (token mod 2 ^ 32)%Z) in *.
    change (2 ^ 32)%Z with 4294967296%Z in *. lia. }
  split.
  - intros Hbad. apply Hiff in Hbad. destruct Hbad as [H0 H999].
    apply Z.ltb_lt in H0, H999. rewrite H0, H999. mstep. eexists. split; reflexivity.
  - intros Hok.
    destruct (Z.ltb_spec 0 (token / 2 ^ 32)); [|reflexivity].
    destruct (Z.ltb_spec (token / 2 ^ 32) 999); [|reflexivity].
    exfalso. apply Hok, Hiff. split; assumption.
Qed.

Lemma restoreCallingIdentity_guard_witness :
  exists st',
    android_os_Binder_restoreCallingIdentity (fun token _ => token) 4294967296 0%Z
      initial_state = Ret 0%Z st'
    /\ pending st'
       = Some (Throwable "java/lang/IllegalStateException" false
                 (MsgText "Restoring bad calling ident: 0x100000000")).
Proof.
  destruct (restoreCallingIdentity_guard (fun token _ => token) 4294967296 0%Z initial_state)
    as [Hbad _].
  - lia.
  - destruct Hbad as (st' & Hrun & Hp); [lia|].
    exists st'. split; [exact Hrun|]. rewrite Hp. reflexivity.
Defined.

(** *** Probing the target of a proxy *)

(** X23: on a proxy whose native target is gone, pingBinder and
    isBinderAlive answer false and change nothing, and
    getInterfaceDescriptor answers NULL with RuntimeException pending; the
    target is not consulted, so this holds whatever it would have
    answered. *)
Theorem probes_of_finalized_proxy (ping : list Event -> IBinder -> status_t)
    (alive : list Event -> IBinder -> bool) (descr : list Event -> IBinder -> string)
    (newString : list Event -> string -> bool)
    (obj : objid) (nd : ptr) (d : BinderProxyNativeData) (st : State) :
  objects (jheap st) !! obj = Some (JBinderProxy nd) ->
  proxyData st !! nd = Some d ->
  bp_mObject d = None ->
  android_os_BinderProxy_pingBinder ping obj st = Ret false st
  /\ android_os_BinderProxy_isBinderAlive alive obj st = Ret false st
  /\ android_os_BinderProxy_getInterfaceDescriptor descr newString obj st
     = Ret None (set_pending
                   (Some (Throwable "java/lang/RuntimeException" false
                            (MsgText "No binder found for object"))) st).
Proof.
  intros Hobj Hnd Hgone.
  unfold android_os_BinderProxy_pingBinder, android_os_BinderProxy_isBinderAlive,
    android_os_BinderProxy_getInterfaceDescriptor, proxy_target, getBPNativeData.
  mstep. rewrite Hobj. mstep. rewrite Hnd. mstep. rewrite Hgone. auto.
Qed.

Lemma probes_of_finalized_proxy_witness :
  android_os_BinderProxy_pingBinder (fun _ _ => NO_ERROR) 1 finalized_proxy_state
  = Ret false finalized_proxy_state
  /\ android_os_BinderProxy_isBinderAlive (fun _ _ => true) 1 finalized_proxy_state
     = Ret false finalized_proxy_state
  /\ android_os_BinderProxy_getInterfaceDescriptor (fun _ _ => "IFoo") (fun _ _ => true) 1
       finalized_proxy_state
     = Ret None (set_pending
                   (Some (Throwable "java/lang/RuntimeException" false
                            (MsgText "No binder found for object"))) finalized_proxy_state).
Proof.
  apply (probes_of_finalized_proxy _ _ _ _ 1 1 {| bp_mObject := None; bp_mOrgue := None |}).
  - vm_compute. reflexivity.
  - vm_compute. reflexivity.
  - reflexivity.
Defined.

(** *** The binder-call sample log *)

Lemma poke_app (pre rest : list Z) (r0 b : Z) :
  poke (pre ++ r0 :: rest) (length pre) b = Some (pre ++ b :: rest)%list.
Proof.
  unfold poke. rewrite bool_decide_eq_true_2.
  - f_equal. rewrite <- (Nat.add_0_r (length pre)), insert_app_r. reflexivity.
  - rewrite length_app. simpl. lia.
Qed.

Lemma memcpy_app (src pre rest : list Z) :
  length src <= length rest ->
  memcpy (pre ++ rest) (length pre) src = Some (pre ++ src ++ drop (length src) rest)%list.
Proof.
  revert pre rest. induction src as [|b s IH]; intros pre rest Hlen; simpl.
  - rewrite drop_0. reflexivity.
  - destruct rest as [|r0 rest]; simpl in Hlen; [lia|].
    rewrite poke_app.
    replace (pre ++ b :: rest)%list with ((pre ++ [b]) ++ rest)%list
      by (rewrite <- app_assoc; reflexivity).
    replace (S (length pre)) with (length (pre ++ [b])%list)
      by (rewrite length_app; simpl; lia).
    rewrite IH by lia. rewrite <- app_assoc. reflexivity.
Qed.

Lemma bytes_of_jint_length (v : Z) : length (bytes_of_jint v) = 4.
Proof. reflexivity. Qed.

Lemma jint_round_trip (v : Z) : jint_of_bytes (bytes_of_jint v) = wrap_i32 v.
Proof.
  unfold jint_of_bytes, bytes_of_jint.
  pose proof (wrap_u32_range v) as Hu.
  assert (Hw : wrap_i32 (wrap_u32 v) = wrap_i32 v).
  { unfold wrap_i32, wrap_u32. rewrite Zplus_mod_idemp_l. reflexivity. }
  rewrite <- Hw. f_equal. set (u := wrap_u32 v) in *.
  Z.div_mod_to_equations. lia.
Qed.

(** [push_eventlog_int] at the end of the part written so far. *)
Lemma push_eventlog_int_app (pre rest : list Z) (end_ : nat) (val : Z) :
  end_ <= length pre + length rest ->
  push_eventlog_int (pre ++ rest) (length pre) end_ val
  = if bool_decide (length pre + 5 <= end_)
    then Some (true, ((pre ++ EVENT_TYPE_INT :: bytes_of_jint val) ++ drop 5 rest)%list,
               length (pre ++ EVENT_TYPE_INT :: bytes_of_jint val)%list)
    else Some (false, (pre ++ rest)%list, length pre).
Proof.
  intros Hend. unfold push_eventlog_int.
  destruct (Z.ltb_spec (Z.of_nat end_ - Z.of_nat (length pre)) (1 + 4)) as [Hlt|Hge].
  - rewrite bool_decide_eq_false_2 by lia. reflexivity.
  - rewrite bool_decide_eq_true_2 by lia.
    destruct rest as [|r0 rest]; [simpl in Hend; lia|].
    rewrite poke_app.
    replace (pre ++ EVENT_TYPE_INT :: rest)%list with ((pre ++ [EVENT_TYPE_INT]) ++ rest)%list
      by (rewrite <- app_assoc; reflexivity).
    replace (length pre + 1) with (length (pre ++ [EVENT_TYPE_INT])%list)
      by (rewrite length_app; reflexivity).
    simpl in Hend.
    rewrite memcpy_app by (rewrite bytes_of_jint_length; lia).
    rewrite !length_app. simpl length.
    f_equal. f_equal; [|lia]. f_equal.
    rewrite <- !app_assoc. reflexivity.
Qed.

Lemma cstring_length (l : list Z) : length (cstring l) <= length l.
Proof.
  induction l as [|c rest IH]; simpl; [lia|]. case_bool_decide; simpl; lia.
Qed.

Lemma cstring_idem (l : list Z) : cstring (cstring l) = cstring l.
Proof.
  induction l as [|c rest IH]; simpl; [reflexivity|].
  case_bool_decide as Hc; simpl; [reflexivity|].
  rewrite bool_decide_eq_false_2 by exact Hc. rewrite IH. reflexivity.
Qed.

(** [push_eventlog_string] at the end of the part written so far. *)
Lemma push_eventlog_string_app (pre rest : list Z) (end_ : nat) (str : list Z) :
  end_ <= length pre + length rest ->
  (Z.of_nat (length (cstring str)) < 2147483643)%Z ->
  push_eventlog_string (pre ++ rest) (length pre) end_ str
  = if bool_decide (length pre + 5 + length (cstring str) <= end_)
    then Some (true,
               ((pre ++ EVENT_TYPE_STRING
                        :: bytes_of_jint (Z.of_nat (length (cstring str))) ++ cstring str)
                ++ drop (5 + length (cstring str)) rest)%list,
               length (pre ++ EVENT_TYPE_STRING
                           :: bytes_of_jint (Z.of_nat (length (cstring str)))
                              ++ cstring str)%list)
    else Some (false, (pre ++ rest)%list, length pre).
Proof.
  intros Hend Hsmall. unfold push_eventlog_string.
  set (n := length (cstring str)) in *.
  rewrite (wrap_i32_small (Z.of_nat n)) by lia.
  rewrite wrap_i32_small by lia.
  destruct (Z.ltb_spec (Z.of_nat end_ - Z.of_nat (length pre)) (1 + 4 + Z.of_nat n))
    as [Hlt|Hge].
  - rewrite bool_decide_eq_false_2 by lia. reflexivity.
  - rewrite bool_decide_eq_true_2 by lia.
    destruct rest as [|r0 rest]; [simpl in Hend; lia|].
    rewrite poke_app.
    replace (pre ++ EVENT_TYPE_STRING :: rest)%list
      with ((pre ++ [EVENT_TYPE_STRING]) ++ rest)%list
      by (rewrite <- app_assoc; reflexivity).
    replace (length pre + 1) with (length (pre ++ [EVENT_TYPE_STRING])%list)
      by (rewrite length_app; reflexivity).
    simpl in Hend.
    rewrite memcpy_app by (rewrite bytes_of_jint_length; lia).
    destruct (Z.ltb_spec (Z.of_nat n) 0) as [Hneg|_]; [lia|].
    rewrite Nat2Z.id. rewrite take_ge by (subst n; lia).
    rewrite app_assoc.
    replace (length (pre ++ [EVENT_TYPE_STRING]) + 4)
      with (length ((pre ++ [EVENT_TYPE_STRING])
                    ++ bytes_of_jint (Z.of_nat n))%list)
      by (rewrite !length_app; reflexivity).
    rewrite memcpy_app by (rewrite length_drop, bytes_of_jint_length; fold n; lia).
    rewrite drop_drop. rewrite !length_app. simpl length. fold n.
    f_equal. f_equal; [|lia]. f_equal.
    rewrite <- !app_assoc. reflexivity.
Qed.

(** X24: [push_eventlog_int] stays inside the array.  With [pos] not
    beyond [end] and [end] inside the array, no store falls outside; the
    value is pushed exactly when five bytes are left before [end], the
    position then advances by five and does not pass [end], the tag and a
    jint that reads back as the value are stored, and everything outside
    those five bytes is as before.  Otherwise nothing is stored and the
    position stays. *)
Theorem push_eventlog_int_layout (buf : list Z) (pos end_ : nat) (val : Z) :
  pos <= end_ ->
  end_ <= length buf ->
  exists ok buf' pos',
    push_eventlog_int buf pos end_ val = Some (ok, buf', pos')
    /\ ok = bool_decide (pos + 5 <= end_)
    /\ length buf' = length buf
    /\ pos' <= end_
    /\ take pos buf' = take pos buf
    /\ if ok
       then pos' = pos + 5
            /\ buf' !! pos = Some EVENT_TYPE_INT
            /\ jint_of_bytes (take 4 (drop (pos + 1) buf')) = wrap_i32 val
            /\ drop pos' buf' = drop pos' buf
       else buf' = buf /\ pos' = pos.
Proof.
  intros Hpos Hend.
  assert (Hlen : length (take pos buf) = pos) by (rewrite length_take; lia).
  pose proof (push_eventlog_int_app (take pos buf) (drop pos buf) end_ val) as Hrun.
  rewrite take_drop, Hlen, length_drop in Hrun. specialize (Hrun ltac:(lia)).
  rewrite Hrun. case_bool_decide as Hfit; do 3 eexists; (split; [reflexivity|]).
  - split; [reflexivity|].
    rewrite !length_app, length_drop. simpl length. rewrite length_drop, Hlen.
    split; [lia|]. split; [lia|].
    split; [rewrite <- app_assoc, take_app_length'; [reflexivity|symmetry; exact Hlen]|].
    split; [lia|]. split; [|split].
    + rewrite <- app_assoc, lookup_app_r by lia. rewrite Hlen, Nat.sub_diag. reflexivity.
    + rewrite <- app_assoc.
      replace (take pos buf ++ (EVENT_TYPE_INT :: bytes_of_jint val) ++ drop 5 (drop pos buf))%list
        with ((take pos buf ++ [EVENT_TYPE_INT])
              ++ bytes_of_jint val ++ drop 5 (drop pos buf))%list
        by (rewrite <- app_assoc; reflexivity).
      rewrite drop_app_length' by (rewrite length_app, Hlen; reflexivity).
      rewrite take_app_length' by reflexivity. apply jint_round_trip.
    + rewrite drop_app_length' by (rewrite length_app, Hlen; simpl; lia).
      rewrite drop_drop. f_equal; lia.
  - split; [reflexivity|]. repeat split; lia.
Qed.

Lemma push_eventlog_int_layout_witness :
  exists ok buf' pos',
    push_eventlog_int (replicate 8 7%Z) 2 7 (-2) = Some (ok, buf', pos')
    /\ ok = true /\ pos' = 7
    /\ jint_of_bytes (take 4 (drop 3 buf')) = (-2)%Z.
Proof.
  destruct (push_eventlog_int_layout (replicate 8 7%Z) 2 7 (-2))
    as (ok & buf' & pos' & Hrun & Hok & _ & _ & _ & Hcase).
  - lia.
  - simpl. lia.
  - exists ok, buf', pos'. split; [exact Hrun|]. subst ok. simpl in Hcase.
    destruct Hcase as (Hp & _ & Hv & _). repeat split; assumption.
Defined.

(** X25: [push_eventlog_string] stays inside the array.  With [pos] not
    beyond [end], [end] inside the array and a string shorter than 2 GiB, no
    store falls outside; the string is pushed exactly when five bytes and
    its length are left before [end]; then the tag, the length as a jint
    and the characters up to the terminating NUL (which is not stored) are
    written, the position advances by five plus the length without passing
    [end], and everything outside that range is as before.  Otherwise
    nothing is stored and the position stays. *)
Theorem push_eventlog_string_layout (buf : list Z) (pos end_ : nat) (str : list Z) :
  pos <= end_ ->
  end_ <= length buf ->
  (Z.of_nat (length (cstring str)) < 2147483643)%Z ->
  exists ok buf' pos',
    push_eventlog_string buf pos end_ str = Some (ok, buf', pos')
    /\ ok = bool_decide (pos + 5 + length (cstring str) <= end_)
    /\ length buf' = length buf
    /\ pos' <= end_
    /\ take pos buf' = take pos buf
    /\ if ok
       then pos' = pos + 5 + length (cstring str)
            /\ buf' !! pos = Some EVENT_TYPE_STRING
            /\ jint_of_bytes (take 4 (drop (pos + 1) buf'))
               = Z.of_nat (length (cstring str))
            /\ take (length (cstring str)) (drop (pos + 5) buf') = cstring str
            /\ drop pos' buf' = drop pos' buf
       else buf' = buf /\ pos' = pos.
Proof.
  intros Hpos Hend Hsmall.
  assert (Hlen : length (take pos buf) = pos) by (rewrite length_take; lia).
  pose proof (push_eventlog_string_app (take pos buf) (drop pos buf) end_ str) as Hrun.
  rewrite take_drop, Hlen, length_drop in Hrun. specialize (Hrun ltac:(lia) Hsmall).
  rewrite Hrun. set (n := length (cstring str)) in *.
  case_bool_decide as Hfit; do 3 eexists; (split; [reflexivity|]).
  - split; [reflexivity|].
    rewrite !length_app, !length_drop. simpl length. rewrite ?Hlen. fold n.
    split; [lia|]. split; [lia|].
    split; [rewrite <- app_assoc, take_app_length'; [reflexivity|symmetry; exact Hlen]|].
    split; [lia|]. split; [|split; [|split]].
    + rewrite <- app_assoc, lookup_app_r by lia. rewrite Hlen, Nat.sub_diag. reflexivity.
    + rewrite <- app_assoc.
      replace (take pos buf
               ++ (EVENT_TYPE_STRING :: bytes_of_jint (Z.of_nat n) ++ cstring str)
               ++ drop (5 + n) (drop pos buf))%list
        with ((take pos buf ++ [EVENT_TYPE_STRING])
              ++ bytes_of_jint (Z.of_nat n) ++ cstring str
              ++ drop (5 + n) (drop pos buf))%list
        by (rewrite <- !app_assoc; reflexivity).
      rewrite drop_app_length' by (rewrite length_app, Hlen; reflexivity).
      rewrite take_app_length' by reflexivity.
      rewrite jint_round_trip. apply wrap_i32_small. lia.
    + rewrite <- app_assoc.
      replace (take pos buf
               ++ (EVENT_TYPE_STRING :: bytes_of_jint (Z.of_nat n) ++ cstring str)
               ++ drop (5 + n) (drop pos buf))%list
        with ((take pos buf ++ EVENT_TYPE_STRING :: bytes_of_jint (Z.of_nat n))
              ++ cstring str ++ drop (5 + n) (drop pos buf))%list
        by (rewrite <- !app_assoc; reflexivity).
      rewrite drop_app_length'
        by (rewrite length_app, Hlen; simpl; lia).
      apply take_app_length.
    + rewrite drop_app_length'
        by (rewrite length_app, Hlen; simpl; fold n; lia).
      rewrite drop_drop. f_equal; lia.
  - split; [reflexivity|]. repeat split; lia.
Qed.

Lemma push_eventlog_string_layout_witness :
  exists ok buf' pos',
    push_eventlog_string (replicate 12 7%Z) 2 11 [104; 105; 0; 33]%Z = Some (ok, buf', pos')
    /\ ok = true /\ pos' = 9
    /\ take 2 (drop 7 buf') = [104; 105]%Z.
Proof.
  destruct (push_eventlog_string_layout (replicate 12 7%Z) 2 11 [104; 105; 0; 33]%Z)
    as (ok & buf' & pos' & Hrun & Hok & _ & _ & _ & Hcase).
  - lia.
  - simpl. lia.
  - simpl. lia.
  - exists ok, buf', pos'. split; [exact Hrun|]. subst ok. simpl in Hcase.
    destruct Hcase as (Hp & _ & _ & Hs & _). repeat split; assumption.
Defined.

Lemma fgets_from_length (room : nat) (content : list Z) :
  length (fgets_from room content) <= room.
Proof.
  revert content. induction room as [|k IH]; intros [|c rest]; simpl; try lia.
  case_bool_decide; simpl; [lia|]. specialize (IH rest). lia.
Qed.

Lemma cstring_no_nul (l : list Z) : Forall (fun c => c <> 0%Z) (cstring l).
Proof.
  induction l as [|c rest IH]; simpl; [constructor|].
  case_bool_decide; [constructor|]. constructor; assumption.
Qed.

(** X26: the name [getprocname] leaves in a buffer of at least two
    bytes fits: it has at most [len - 1] characters before its NUL,
    whatever /proc holds.  The return
    code is 0 exactly when a line was read, 1 exactly when the file could
    not be opened and 2 exactly when nothing could be read; unless the
    code is 0 the name is empty. *)
Theorem getprocname_fits (cmdline : option (list Z)) (len : nat) :
  2 <= len ->
  let rc := fst (getprocname cmdline len) in
  let name := snd (getprocname cmdline len) in
  length name <= len - 1
  /\ Forall (fun c => c <> 0%Z) name
  /\ (rc = 0%Z \/ name = [])
  /\ (rc = 0%Z <-> exists content, cmdline = Some content
                     /\ fgets_from (len - 1) content <> [])
  /\ (rc = 1%Z <-> cmdline = None)
  /\ (rc = 2%Z <-> exists content, cmdline = Some content
                     /\ fgets_from (len - 1) content = []).
Proof.
  intros _. unfold getprocname. destruct cmdline as [content|]; simpl.
  - pose proof (fgets_from_length (len - 1) content) as Hlen.
    destruct (fgets_from (len - 1) content) as [|c line] eqn:Hline; simpl.
    + split; [lia|]. split; [constructor|]. split; [right; reflexivity|].
      split; [|split].
      * split; [discriminate|]. intros (content' & [= <-] & Hne). congruence.
      * split; discriminate.
      * split; [intros _; exists content; auto|reflexivity].
    + split; [|split; [|split; [|split; [|split]]]].
      * pose proof (cstring_length (c :: line)). simpl in *. lia.
      * apply (cstring_no_nul (c :: line)).
      * left. reflexivity.
      * split; [|reflexivity]. intros _. exists content. split; [reflexivity|].
        rewrite Hline. discriminate.
      * split; discriminate.
      * split; [discriminate|]. intros (content' & [= <-] & Hnil). congruence.
  - split; [lia|]. split; [constructor|]. split; [right; reflexivity|].
    split; [|split].
    + split; [discriminate|]. intros (content & Hc & _). discriminate Hc.
    + split; reflexivity.
    + split; [discriminate|]. intros (content & Hc & _). discriminate Hc.
Qed.

Lemma getprocname_fits_witness :
  let rc := fst (getprocname (Some [97; 98; 0; 99]%Z) 40) in
  let name := snd (getprocname (Some [97; 98; 0; 99]%Z) 40) in
  length name <= 40 - 1
  /\ Forall (fun c => c <> 0%Z) name
  /\ (rc = 0%Z \/ name = [])
  /\ (rc = 0%Z <-> exists content, Some [97; 98; 0; 99]%Z = Some content
                     /\ fgets_from (40 - 1) content <> [])
  /\ (rc = 1%Z <-> Some [97; 98; 0; 99]%Z = None)
  /\ (rc = 2%Z <-> exists content, Some [97; 98; 0; 99]%Z = Some content
                     /\ fgets_from (40 - 1) content = []).
Proof.
  apply (getprocname_fits (Some [97; 98; 0; 99]%Z) 40). lia.
Defined.

Lemma getprocname_name (cmdline : option (list Z)) (len : nat) :
  length (snd (getprocname cmdline len)) <= len - 1
  /\ cstring (snd (getprocname cmdline len)) = snd (getprocname cmdline len).
Proof.
  unfold getprocname. destruct cmdline as [content|]; [|split; [simpl; lia|reflexivity]].
  pose proof (fgets_from_length (len - 1) content) as Hlen.
  destruct (fgets_from (len - 1) content) as [|c line]; [split; [simpl; lia|reflexivity]|].
  cbn [snd]. split; [|apply cstring_idem].
  pose proof (cstring_length (c :: line)). lia.
Qed.

(** The sampling test of [conditionally_log_binder_call], for a duration
    and a random number that are not negative. *)
Lemma sampling_test (d random : Z) :
  (0 <= d < 2147483648)%Z ->
  (0 <= random)%Z ->
  negb (500 <=? d)%Z
  && (bool_decide ((if (500 <=? d)%Z then 100%Z else Z.quot (wrap_i32 (100 * d)) 500) = 0%Z)
      || ((if (500 <=? d)%Z then 100%Z else Z.quot (wrap_i32 (100 * d)) 500)
          <? Z.rem random 100 + 1)%Z)
  = negb ((500 <=? d)%Z || (random mod 100 <? d / 5)%Z).
Proof.
  intros Hd Hr. destruct (Z.leb_spec 500 d) as [Hlong|Hshort]; [reflexivity|].
  rewrite wrap_i32_small by lia. rewrite Z.quot_div_nonneg by lia.
  rewrite Z.rem_mod_nonneg by lia.
  replace (100 * d)%Z with (d * 100)%Z by lia.
  replace 500%Z with (5 * 100)%Z by lia.
  rewrite Z.div_mul_cancel_r by lia.
  pose proof (Z.mod_pos_bound random 100 ltac:(lia)) as Hm.
  pose proof (Z.div_pos d 5 ltac:(lia) ltac:(lia)) as Hq.
  simpl. case_bool_decide as Hz.
  - simpl. rewrite Hz. destruct (Z.ltb_spec (random mod 100) 0); [lia|reflexivity].
  - simpl. destruct (Z.ltb_spec (d / 5) (random mod 100 + 1));
      destruct (Z.ltb_spec (random mod 100) (d / 5)); simpl; try reflexivity; lia.
Qed.

Lemma poke_0 (x b : Z) (l : list Z) : poke (x :: l) 0 b = Some (b :: l).
Proof. unfold poke. rewrite bool_decide_eq_true_2 by (simpl; lia). reflexivity. Qed.

Lemma poke_1 (x y b : Z) (l : list Z) : poke (x :: y :: l) 1 b = Some (x :: b :: l).
Proof. unfold poke. rewrite bool_decide_eq_true_2 by (simpl; lia). reflexivity. Qed.

Ltac lens :=
  repeat (rewrite ?length_app, ?length_drop, ?bytes_of_jint_length; cbn [length]); lia.

Ltac stage_int val :=
  match goal with
  | |- context [push_eventlog_int (?pre ++ ?rest) (length ?pre) ?e val] =>
      rewrite (push_eventlog_int_app pre rest e val) by lens
  end.

Ltac stage_string str :=
  match goal with
  | |- context [push_eventlog_string (?pre ++ ?rest) (length ?pre) ?e str] =>
      rewrite (push_eventlog_string_app pre rest e str) by (try assumption; lens)
  end.

(** X27: [conditionally_log_binder_call] never stores outside its
    4068-byte array and never hands on what the array held before.  For a
    duration that is not negative, the call is sampled when it took 500 ms
    or longer, or else when the random number modulo 100 is below a fifth
    of the duration in ms (so never below 5 ms); a sampled call is logged
    exactly when descriptor and process name together have at most 4040
    characters, and the payload is then the flat list of the five fields
    followed by a newline, with the percentage 100 or a fifth of the
    duration. *)
Theorem binder_sample_logged (buf0 : list Z) (uptimeMillis start_millis random : Z)
    (cmdline : option (list Z)) (desc : list Z) (code : Z) :
  length buf0 = LOGGER_ENTRY_MAX_PAYLOAD ->
  (0 <= uptimeMillis - start_millis < 2147483648)%Z ->
  (0 <= random)%Z ->
  (Z.of_nat (length (cstring desc)) < 2147483643)%Z ->
  let d := (uptimeMillis - start_millis)%Z in
  let name := snd (getprocname cmdline 40) in
  let percent := if (500 <=? d)%Z then 100%Z else (d / 5)%Z in
  conditionally_log_binder_call buf0 uptimeMillis start_millis random cmdline desc code
  = Some (if ((500 <=? d)%Z || (random mod 100 <? d / 5)%Z)
             && bool_decide (length (cstring desc) + length name <= 4040)
          then Some (binder_sample_payload (cstring desc) code d name percent)
          else None).
Proof.
  intros Hlen Hd Hr Hdesc d name percent.
  unfold conditionally_log_binder_call.
  rewrite (wrap_i32_small (uptimeMillis - start_millis)) by lia. fold d. fold name.
  rewrite sampling_test by assumption.
  assert (Hpct : (if (500 <=? d)%Z then 100%Z else Z.quot (wrap_i32 (100 * d)) 500) = percent).
  { subst percent. destruct (Z.leb_spec 500 d); [reflexivity|].
    rewrite wrap_i32_small by lia. rewrite Z.quot_div_nonneg by lia.
    replace (100 * d)%Z with (d * 100)%Z by lia.
    replace 500%Z with (5 * 100)%Z by lia.
    apply Z.div_mul_cancel_r; lia. }
  rewrite Hpct. clear Hpct.
  destruct ((500 <=? d)%Z || (random mod 100 <? d / 5)%Z); [|reflexivity].
  cbn [negb andb].
  destruct (getprocname_name cmdline 40) as [Hname Hcs]. fold name in Hname, Hcs.
  set (e := LOGGER_ENTRY_MAX_PAYLOAD - 1).
  assert (He : e = 4067) by reflexivity.
  destruct buf0 as [|x0 [|x1 rest]]; try discriminate Hlen.
  assert (Hrest : length rest = 4066) by (cbn [length] in Hlen; unfold LOGGER_ENTRY_MAX_PAYLOAD in Hlen; lia).
  clear Hlen.
  rewrite poke_0, poke_1.
  assert (Hln : (Z.of_nat (length (cstring name)) < 2147483643)%Z) by (rewrite Hcs; lia).
  pose proof (push_eventlog_string_app [EVENT_TYPE_LIST; 5%Z] rest e desc
                ltac:(cbn [length]; lia) Hdesc) as H1.
  change (push_eventlog_string ([EVENT_TYPE_LIST; 5%Z] ++ rest)
            (length [EVENT_TYPE_LIST; 5%Z]) e desc)
    with (push_eventlog_string (EVENT_TYPE_LIST :: 5%Z :: rest) 2 e desc) in H1.
  rewrite H1. clear H1.
  destruct (decide (length (cstring desc) + length name <= 4040)) as [Hfit|Hnofit].
  - rewrite (bool_decide_eq_true_2 (length (cstring desc) + length name <= 4040))
      by exact Hfit.
    rewrite bool_decide_eq_true_2 by lens. cbv beta iota.
    stage_int code. rewrite bool_decide_eq_true_2 by lens. cbv beta iota.
    stage_int d. rewrite bool_decide_eq_true_2 by lens. cbv beta iota.
    stage_string name. rewrite Hcs. rewrite bool_decide_eq_true_2 by lens. cbv beta iota.
    stage_int percent. rewrite bool_decide_eq_true_2 by lens. cbv beta iota.
    match goal with
    | |- context [poke (?pre ++ ?r) (length ?pre) ?b] =>
        destruct r as [|r0 tail] eqn:Hr7;
        [ apply (f_equal length) in Hr7; revert Hr7; lens
        | rewrite (poke_app pre tail r0 b);
          replace (pre ++ b :: tail)%list with ((pre ++ [b]) ++ tail)%list
            by (rewrite <- app_assoc; reflexivity);
          rewrite take_app_length' by (rewrite (length_app pre [b]); reflexivity) ]
    end.
    unfold binder_sample_payload. rewrite <- !app_assoc. reflexivity.
  - rewrite (bool_decide_eq_false_2 (length (cstring desc) + length name <= 4040))
      by exact Hnofit.
    case_bool_decide; cbv beta iota; [|reflexivity].
    stage_int code. case_bool_decide; cbv beta iota; [|reflexivity].
    stage_int d. case_bool_decide; cbv beta iota; [|reflexivity].
    stage_string name. rewrite Hcs. case_bool_decide; cbv beta iota; [|reflexivity].
    stage_int percent. rewrite bool_decide_eq_false_2 by lens. reflexivity.
Qed.

Lemma binder_sample_logged_witness :
  conditionally_log_binder_call (replicate 4068 0%Z) 600 0 0 (Some [97; 0]%Z) [73]%Z 1
  = Some (Some (binder_sample_payload [73]%Z 1 600 [97]%Z 100)).
Proof.
  rewrite (binder_sample_logged (replicate 4068 0%Z) 600 0 0 (Some [97; 0]%Z) [73]%Z 1).
  - reflexivity.
  - apply length_replicate.
  - lia.
  - lia.
  - simpl. lia.
Defined.

(** *** Outgoing transactions and finalized proxies *)

(** X28: the target's transact is reached at most once, and only when the
    data parcel is not null and resolves, the reply parcel is null or
    resolves, and the proxy still has a target; the answer is then true
    exactly for NO_ERROR.  In every other case the call answers false and
    the channel is not touched (a null data parcel raises
    NullPointerException), or the process ends on a proxy object without
    native data. *)
Theorem transact_guarded (E : Env) (st : State) (obj : objid) (code : Z)
    (dataObj replyObj : jobject) (flags : Z) :
  match android_os_BinderProxy_transact E obj code dataObj replyObj flags st with
  | Ret res st' =>
      (trace st' = trace st /\ res = false
       /\ match dataObj with
          | None => pending st' = Some NullPointerException
          | Some _ => True
          end)
      \/ (exists target data,
            is_Some dataObj
            /\ fst (env_parcelForJavaObject E (trace st) dataObj) = Some data
            /\ (replyObj = None
                \/ is_Some (fst (env_parcelForJavaObject E (trace st) replyObj)))
            /\ trace st' = EvTransact (ib_ptr target) code flags :: trace st
            /\ res = bool_decide (chan_transact E (trace st) target code data flags
                                  = NO_ERROR))
  | Abort k st' => k = ByNullDereference /\ trace st' = trace st
  end.
Proof.
  unfold android_os_BinderProxy_transact, parcelForJavaObject, getBPNativeData.
  destruct dataObj as [dobj|]; mstep; [|left; auto].
  destruct (env_parcelForJavaObject E (trace st) (Some dobj)) as [[data|] [e1|]] eqn:Hdata;
    mstep; try (left; auto; fail).
  all: destruct (env_parcelForJavaObject E (trace st) replyObj) as [[reply|] [e2|]]
         eqn:Hreply; mstep.
  all: try (destruct replyObj as [robj|]; mstep; try (left; auto; fail)).
  all: destruct (objects (jheap st) !! obj) as [[jbh|nd|]|]; mstep; auto.
  all: destruct (proxyData st !! nd) as [d|]; mstep; auto.
  all: destruct (bp_mObject d) as [target|]; mstep; [|left; auto].
  all: case_bool_decide as Hok; mstep;
    [|case_bool_decide; mstep;
      [|match goal with
        | |- context [signalExceptionForError ?err ?c ?n ?s] =>
            destruct (signalExceptionForError_throws err c n s) as [ex ->]
        end; simpl]].
  all: right; exists target, data; (split; [eauto|]); (split; [reflexivity|]);
    (split; [first [left; reflexivity|right; eauto]|]);
    (split; [reflexivity|]); symmetry;
    first [apply bool_decide_eq_true_2; assumption
          |apply bool_decide_eq_false_2; assumption].
Qed.

(** X29: on a proxy whose native target is gone, unlinkToDeath answers
    false and changes nothing (it checks for the missing target), whereas
    linkToDeath does not: it calls through the null target and the process
    ends, with nothing created or registered. *)
Theorem finalized_proxy_death_links (E : Env) (obj : objid) (nd : ptr)
    (d : BinderProxyNativeData) (r : objid) (flags : Z) (st : State) :
  objects (jheap st) !! obj = Some (JBinderProxy nd) ->
  proxyData st !! nd = Some d ->
  bp_mObject d = None ->
  android_os_BinderProxy_unlinkToDeath E obj (Some r) flags st = Ret false st
  /\ android_os_BinderProxy_linkToDeath E obj (Some r) flags st
     = Abort ByNullDereference st.
Proof.
  intros Hobj Hnd Hgone.
  unfold android_os_BinderProxy_unlinkToDeath, android_os_BinderProxy_linkToDeath,
    getBPNativeData.
  mstep. rewrite Hobj. mstep. rewrite Hnd. mstep. rewrite Hgone. split; reflexivity.
Qed.

Lemma finalized_proxy_death_links_witness :
  android_os_BinderProxy_unlinkToDeath reference_env 1 (Some 5) 0 finalized_proxy_state
  = Ret false finalized_proxy_state
  /\ android_os_BinderProxy_linkToDeath reference_env 1 (Some 5) 0 finalized_proxy_state
     = Abort ByNullDereference finalized_proxy_state.
Proof.
  apply (finalized_proxy_death_links reference_env 1 1
           {| bp_mObject := None; bp_mOrgue := None |}).
  - vm_compute. reflexivity.
  - vm_compute. reflexivity.
  - reflexivity.
Defined.

(** *** androidfw/Errors.h *)

(** X30: [IsIOError] is exactly the guard [GetIOError] needs: it answers
    true precisely for results without a value whose error [GetIOError]
    can read without throwing; a result with a value, or an absent result,
    is never reported as an I/O error. *)
Theorem IsIOError_guards_GetIOError {T : Type} (result : AndroidFw.expected T) :
  AndroidFw.IsIOError result = true
  <-> exists error e, result = AndroidFw.Unexpected error
                      /\ AndroidFw.GetIOError error = Some e.
Proof.
  split.
  - destruct result as [v|[|e]]; simpl; intros H; try discriminate H.
    exists (AndroidFw.HoldsIOError e), e. split; reflexivity.
  - intros (error & e & -> & Hget). destruct error; [discriminate Hget|reflexivity].
Qed.
